(** * Netflix catalogue analysis (da.py): a shallow embedding

    The script reads a CSV file into a pandas frame, normalises it
    ([clean_data]), renders seven aggregates as chart images and writes a
    summary table.  This development embeds the Python code as Rocq
    functions and states the behaviour the project's specification
    describes.

    Conventions of the embedding.
    - A Python [str] is a Rocq [string]; its characters are code points
      below 256.  The predicates of Python that look at characters
      ([str.isspace], the digits [int] accepts) are given on that range.
    - A Python [int] is a [Z].
    - An exception is a value of [exn]; code that can raise returns a
      [result].  [SystemExit] is an exception that [except Exception] does
      not catch, as in Python.
    - A frame is a row count and an ordered list of named columns, a column
      a list of cells.  The frames [pd.read_csv] builds are the
      [well_formed] ones: labels pairwise distinct, columns of texts and
      missing values or of integers.  Columns of floating-point numbers
      are not modelled; a derived column of integers and missing values
      stands for the float64 column pandas makes of it.
    - matplotlib and seaborn calls are not modelled beyond the file that
      [fig.savefig] writes. *)

From Stdlib Require Import String Ascii.
From Stdlib Require Import List ZArith NArith Lia Bool Arith.
From Stdlib Require Import Sorting.Sorted Sorting.Permutation.
From Stdlib Require Import DecimalString DecimalPos.
Import ListNotations.

Local Open Scope string_scope.
Local Open Scope list_scope.

(* ================================================================== *)
(** * Exceptions and results *)

Inductive exn : Type :=
| KeyError (key : string)
| IndexError
| ValueError
| TypeError
| AttributeError
| SystemExit (code : Z).

Inductive result (A : Type) : Type :=
| Ok (a : A)
| Raise (e : exn).

Arguments Ok {A} a.
Arguments Raise {A} e.

Definition bind {A B : Type} (m : result A) (k : A -> result B) : result B :=
  match m with
  | Ok a => k a
  | Raise e => Raise e
  end.

Notation "x <- m ;; k" := (bind m (fun x => k))
  (at level 61, m at next level, right associativity).

(** [isinstance(e, Exception)]: everything here but [SystemExit]. *)
Definition is_Exception (e : exn) : bool :=
  match e with
  | SystemExit _ => false
  | _ => true
  end.

(** [try: body  except Exception: handler] *)
Definition try_except {A : Type} (body : result A) (handler : result A) : result A :=
  match body with
  | Ok a => Ok a
  | Raise e => if is_Exception e then handler else Raise e
  end.

Fixpoint mapM {A B : Type} (f : A -> result B) (l : list A) : result (list B) :=
  match l with
  | [] => Ok []
  | x :: l' => y <- f x ;; ys <- mapM f l' ;; Ok (y :: ys)
  end.

(* ================================================================== *)
(** * Python string operations *)

Module PyStr.

(** [c.isspace()] for a code point below 256: TAB..CR, FS..US, space,
    NEL and the no-break space. *)
Definition isspace (c : ascii) : bool :=
  let n := N_of_ascii c in
  ((9 <=? n) && (n <=? 13) || (28 <=? n) && (n <=? 32) || (n =? 133) || (n =? 160))%N.

Fixpoint lstrip (s : string) : string :=
  match s with
  | EmptyString => EmptyString
  | String c s' => if isspace c then lstrip s' else s
  end.

Fixpoint rstrip (s : string) : string :=
  match s with
  | EmptyString => EmptyString
  | String c s' =>
      match rstrip s' with
      | EmptyString => if isspace c then EmptyString else String c EmptyString
      | r => String c r
      end
  end.

(** [s.strip()] *)
Definition strip (s : string) : string := rstrip (lstrip s).

Definition cons_token (t : string) (ts : list string) : list string :=
  match t with
  | EmptyString => ts
  | _ => t :: ts
  end.

(** One pass from the right: the token being built at the head of the
    string, and the tokens after it. *)
Fixpoint split_ws_aux (s : string) : string * list string :=
  match s with
  | EmptyString => (EmptyString, [])
  | String c s' =>
      let (t, ts) := split_ws_aux s' in
      if isspace c then (EmptyString, cons_token t ts) else (String c t, ts)
  end.

(** [s.split()]: the maximal runs of non-space characters. *)
Definition split_ws (s : string) : list string :=
  let (t, ts) := split_ws_aux s in cons_token t ts.

Fixpoint split_aux (sep : ascii) (s : string) : string * list string :=
  match s with
  | EmptyString => (EmptyString, [])
  | String c s' =>
      let (t, ts) := split_aux sep s' in
      if Ascii.eqb c sep then (EmptyString, t :: ts) else (String c t, ts)
  end.

(** [s.split(sep)] for a one-character separator: never empty, empty
    tokens kept. *)
Definition split (sep : ascii) (s : string) : list string :=
  let (t, ts) := split_aux sep s in t :: ts.

(** [sep.join(l)] for a one-character separator. *)
Fixpoint join (sep : ascii) (l : list string) : string :=
  match l with
  | [] => EmptyString
  | [t] => t
  | t :: l' => (t ++ String sep (join sep l'))%string
  end.

(** [sub in s] *)
Fixpoint contains (sub s : string) : bool :=
  prefix sub s ||
  match s with
  | EmptyString => false
  | String _ s' => contains sub s'
  end.

Definition digit_val (c : ascii) : option Z :=
  let n := N_of_ascii c in
  if ((48 <=? n) && (n <=? 57))%N then Some (Z.of_N (n - 48)) else None.

(** Decimal digits, single underscores allowed between two digits.
    [after_digit] tells whether the previous character was a digit. *)
Fixpoint int_digits (acc : Z) (after_digit : bool) (s : string) : option Z :=
  match s with
  | EmptyString => if after_digit then Some acc else None
  | String c s' =>
      match digit_val c with
      | Some d => int_digits (10 * acc + d) true s'
      | None =>
          if Ascii.eqb c "_" && after_digit then int_digits acc false s' else None
      end
  end.

Fixpoint count_digits (s : string) : N :=
  match s with
  | EmptyString => 0%N
  | String c s' =>
      match digit_val c with
      | Some _ => N.succ (count_digits s')
      | None => count_digits s'
      end
  end.

(** [sys.get_int_max_str_digits()], which the script leaves at its
    default: [int] refuses a longer literal. *)
Definition max_str_digits : N := 4300.

Definition int_literal (r : string) : option Z :=
  if (max_str_digits <? count_digits r)%N then None else int_digits 0 false r.

(** The value [int(s)] returns, [None] where it raises [ValueError]:
    surrounding whitespace, one optional sign, then the digits. *)
Definition int_of_string (s : string) : option Z :=
  match strip s with
  | String "+" r => int_literal r
  | String "-" r => option_map Z.opp (int_literal r)
  | t => int_literal t
  end.

Definition py_int (s : string) : result Z :=
  match int_of_string s with
  | Some n => Ok n
  | None => Raise ValueError
  end.

(** [str(n)] for an [int]. *)
Definition str_of_int (z : Z) : string := NilZero.string_of_int (Z.to_int z).

(** [l[0]] *)
Definition index0 {A : Type} (l : list A) : result A :=
  match l with
  | x :: _ => Ok x
  | [] => Raise IndexError
  end.

End PyStr.

(* ================================================================== *)
(** * Cells, columns and frames *)

(** The calendar date of a [pd.Timestamp]. *)
Record date : Type := mkdate { year : Z; month : Z; day : Z }.

(** A cell of a frame.  [NaN] stands for every missing marker of pandas
    ([np.nan], [NaT], [None]): [pd.isna] does not tell them apart. *)
Inductive cell : Type :=
| NaN
| Str (s : string)
| Int (z : Z)
| Date (d : date)
| Seq (l : list string).

Definition Series : Type := list cell.

Record DataFrame : Type := mkframe {
  nrows : nat;
  columns : list (string * Series)
}.

Definition date_eqb (a b : date) : bool :=
  (year a =? year b)%Z && (month a =? month b)%Z && (day a =? day b)%Z.

Fixpoint strings_eqb (a b : list string) : bool :=
  match a, b with
  | [], [] => true
  | x :: a', y :: b' => String.eqb x y && strings_eqb a' b'
  | _, _ => false
  end.

(** [x == y] on cells.  The code compares only against string constants
    and among the keys of a tally, from which [NaN] has been dropped. *)
Definition cell_eqb (x y : cell) : bool :=
  match x, y with
  | NaN, NaN => true
  | Str a, Str b => String.eqb a b
  | Int a, Int b => (a =? b)%Z
  | Date a, Date b => date_eqb a b
  | Seq a, Seq b => strings_eqb a b
  | _, _ => false
  end.

(** [pd.isna(x)], [pd.notna(x)] on a scalar.  On a list pandas answers
    element by element; no list is in a column read from a file. *)
Definition isna (x : cell) : bool :=
  match x with
  | NaN => true
  | _ => false
  end.

Definition notna (x : cell) : bool := negb (isna x).

Definition pad2 (s : string) : string :=
  match s with
  | String c EmptyString => String "0" s
  | _ => s
  end.

(** [str(x)].  A [Timestamp] is written at midnight and the elements of
    a list without the escapes of [repr]: [clean_data] applies [str] to
    columns read from the file, which hold neither. *)
Definition py_str (x : cell) : string :=
  match x with
  | NaN => "nan"
  | Str s => s
  | Int z => PyStr.str_of_int z
  | Date d =>
      (PyStr.str_of_int (year d) ++ "-" ++ pad2 (PyStr.str_of_int (month d)) ++ "-"
        ++ pad2 (PyStr.str_of_int (day d)) ++ " 00:00:00")%string
  | Seq l =>
      ("[" ++ String.concat ", " (map (fun s => "'" ++ s ++ "'") l) ++ "]")%string
  end.

(** ** Columns *)

(** [s.fillna(v)], [s.dropna()] *)
Definition fillna (v : cell) (s : Series) : Series :=
  map (fun x => if isna x then v else x) s.

Definition dropna (s : Series) : Series := filter notna s.

(** The dtype pandas infers for a column read from a file is numeric when
    the column is not empty and holds no text; the [.str] and [.dt]
    accessors look at it. *)
Definition numeric_cell (x : cell) : bool :=
  match x with
  | NaN | Int _ => true
  | _ => false
  end.

Definition datetime_cell (x : cell) : bool :=
  match x with
  | NaN | Date _ => true
  | _ => false
  end.

(** [s.str]: "Can only use .str accessor with string values". *)
Definition str_accessor (s : Series) : result Series :=
  match s with
  | [] => Ok s
  | _ => if forallb numeric_cell s || forallb datetime_cell s
         then Raise AttributeError else Ok s
  end.

(** An element that is not text gives [NaN] under a [.str] method. *)
Definition str_method (f : string -> string) (x : cell) : cell :=
  match x with
  | Str s => Str (f s)
  | _ => NaN
  end.

(** [s.str.strip()] *)
Definition str_strip (s : Series) : result Series :=
  s' <- str_accessor s ;; Ok (map (str_method PyStr.strip) s').

Definition lower_char (c : ascii) : ascii :=
  let n := N_of_ascii c in
  if ((65 <=? n) && (n <=? 90) || (192 <=? n) && (n <=? 222) && negb (n =? 215))%N
  then ascii_of_N (n + 32) else c.

Fixpoint lower (s : string) : string :=
  match s with
  | EmptyString => EmptyString
  | String c s' => String (lower_char c) (lower s')
  end.

(** [s.str.lower()] *)
Definition str_lower (s : Series) : result Series :=
  s' <- str_accessor s ;; Ok (map (str_method lower) s').

(** [s.dt.year] *)
Definition dt_year (s : Series) : result Series :=
  if forallb datetime_cell s
  then Ok (map (fun x => match x with Date d => Int (year d) | _ => NaN end) s)
  else Raise AttributeError.

(** [s.astype(str)], [s.astype(int)] *)
Definition astype_str (s : Series) : Series := map (fun x => Str (py_str x)) s.

Definition int_of_cell (x : cell) : result Z :=
  match x with
  | Int z => Ok z
  | Str s => PyStr.py_int s
  | NaN => Raise ValueError
  | _ => Raise TypeError
  end.

Definition astype_int (s : Series) : result (list Z) := mapM int_of_cell s.

(** [s.apply(f)] *)
Definition apply (f : cell -> result cell) (s : Series) : result Series := mapM f s.

(** ** Frames *)

Fixpoint lookup (k : string) (cols : list (string * Series)) : option Series :=
  match cols with
  | [] => None
  | (k', v) :: cols' => if String.eqb k k' then Some v else lookup k cols'
  end.

(** [k in df.columns] *)
Definition has_column (df : DataFrame) (k : string) : bool :=
  match lookup k (columns df) with
  | Some _ => true
  | None => false
  end.

(** [df[k]] *)
Definition getitem (df : DataFrame) (k : string) : result Series :=
  match lookup k (columns df) with
  | Some v => Ok v
  | None => Raise (KeyError k)
  end.

Fixpoint replace_column (k : string) (v : Series) (cols : list (string * Series))
  : list (string * Series) :=
  match cols with
  | [] => [(k, v)]
  | (k', v') :: cols' =>
      if String.eqb k k' then (k', v) :: cols' else (k', v') :: replace_column k v cols'
  end.

(** [df[k] = v]: the column is replaced where it stands, or added last. *)
Definition setitem (df : DataFrame) (k : string) (v : Series) : DataFrame :=
  mkframe (nrows df) (replace_column k v (columns df)).

(** [df[k] = x] for a scalar [x] *)
Definition setitem_scalar (df : DataFrame) (k : string) (x : cell) : DataFrame :=
  setitem df k (repeat x (nrows df)).

(** [df.columns = [f(c) for c in df.columns]] *)
Definition rename_columns (f : string -> string) (df : DataFrame) : DataFrame :=
  mkframe (nrows df) (map (fun kv => (f (fst kv), snd kv)) (columns df)).

Fixpoint select {A : Type} (mask : list bool) (l : list A) : list A :=
  match mask, l with
  | b :: mask', x :: l' => if b then x :: select mask' l' else select mask' l'
  | _, _ => []
  end.

(** [df[mask]] *)
Definition filter_rows (mask : list bool) (df : DataFrame) : DataFrame :=
  mkframe (length (filter (fun b => b) (firstn (nrows df) mask)))
          (map (fun kv => (fst kv, select mask (snd kv))) (columns df)).

(** [df.empty]: some axis has length 0. *)
Definition frame_empty (df : DataFrame) : bool :=
  Nat.eqb (nrows df) 0 || match columns df with [] => true | _ => false end.

(** [pd.DataFrame()] *)
Definition empty_frame : DataFrame := mkframe 0 [].

(** The cells of row [i], column by column. *)
Definition row (df : DataFrame) (i : nat) : list (string * option cell) :=
  map (fun kv => (fst kv, nth_error (snd kv) i)) (columns df).

(* ================================================================== *)
(** * Tallies: [collections.Counter] and [Series.value_counts] *)

Section Tally.
Context {K : Type} (eqb : K -> K -> bool).

(** [c[k] += 1]: a new key goes last, as in a Python dict. *)
Fixpoint incr (k : K) (c : list (K * nat)) : list (K * nat) :=
  match c with
  | [] => [(k, 1)]
  | (k', n) :: c' =>
      if eqb k k' then (k', S n) :: c' else (k', n) :: incr k c'
  end.

(** [c[k]], 0 for a key that is not there. *)
Fixpoint count_of (k : K) (c : list (K * nat)) : nat :=
  match c with
  | [] => 0
  | (k', n) :: c' => if eqb k k' then n else count_of k c'
  end.

Definition tally (l : list K) : list (K * nat) :=
  fold_left (fun c k => incr k c) l [].

(** Stable sort by decreasing count. *)
Fixpoint insert_desc (x : K * nat) (l : list (K * nat)) : list (K * nat) :=
  match l with
  | [] => [x]
  | y :: l' => if Nat.leb (snd y) (snd x) then x :: l else y :: insert_desc x l'
  end.

Definition sort_desc (l : list (K * nat)) : list (K * nat) :=
  fold_right insert_desc [] l.

(** [c.most_common(n)] *)
Definition most_common (n : nat) (c : list (K * nat)) : list (K * nat) :=
  firstn n (sort_desc c).

(** [counts.idxmax()]: the label of the first largest count. *)
Fixpoint idxmax_from (best : K * nat) (l : list (K * nat)) : K :=
  match l with
  | [] => fst best
  | y :: l' => idxmax_from (if Nat.ltb (snd best) (snd y) then y else best) l'
  end.

Definition idxmax (l : list (K * nat)) : result K :=
  match l with
  | [] => Raise ValueError
  | x :: l' => Ok (idxmax_from x l')
  end.
End Tally.

(** [s.value_counts()]: missing values dropped, largest count first.
    pandas does not promise an order among equal counts; the order of
    first appearance is taken here. *)
Definition value_counts (s : Series) : list (cell * nat) :=
  sort_desc (tally cell_eqb (dropna s)).

Definition value_counts_int (l : list Z) : list (Z * nat) :=
  sort_desc (tally Z.eqb l).

Fixpoint insert_index (x : Z * nat) (l : list (Z * nat)) : list (Z * nat) :=
  match l with
  | [] => [x]
  | y :: l' => if (fst x <=? fst y)%Z then x :: l else y :: insert_index x l'
  end.

(** [counts.sort_index()] *)
Definition sort_index (l : list (Z * nat)) : list (Z * nat) :=
  fold_right insert_index [] l.

(** [counts.head(n)] *)
Definition head {A : Type} (n : nat) (l : list A) : list A := firstn n l.

(** [d[k] = v] on a dict, kept in insertion order. *)
Fixpoint dict_set (k v : cell) (d : list (cell * cell)) : list (cell * cell) :=
  match d with
  | [] => [(k, v)]
  | (k', v') :: d' =>
      if cell_eqb k k' then (k', v) :: d' else (k', v') :: dict_set k v d'
  end.

Fixpoint dict_get (k : cell) (d : list (cell * cell)) : option cell :=
  match d with
  | [] => None
  | (k', v) :: d' => if cell_eqb k k' then Some v else dict_get k d'
  end.

(** [d.update(counts.to_dict())] *)
Definition dict_update (d : list (cell * cell)) (counts : list (cell * nat))
  : list (cell * cell) :=
  fold_left (fun d kn => dict_set (fst kn) (Int (Z.of_nat (snd kn))) d) counts d.

(* ================================================================== *)
(** * The process: standard output and the files written *)

Inductive artifact : Type :=
| Image
| Table (rows : list (cell * cell)).

Record world : Type := mkworld {
  stdout : list string;
  dirs : list string;
  files : list (string * artifact)
}.

Definition io (A : Type) : Type := world -> result A * world.

Definition io_ret {A : Type} (a : A) : io A := fun w => (Ok a, w).

Definition io_bind {A B : Type} (m : io A) (k : A -> io B) : io B :=
  fun w =>
    match m w with
    | (Ok a, w') => k a w'
    | (Raise e, w') => (Raise e, w')
    end.

Notation "x <~ m ;; k" := (io_bind m (fun x => k))
  (at level 61, m at next level, right associativity).
Notation "m ;; k" := (io_bind m (fun _ => k))
  (at level 61, right associativity).

(** A pure computation inside the process: it raises or returns. *)
Definition lift {A : Type} (r : result A) : io A := fun w => (r, w).

Definition print (s : string) : io unit :=
  fun w => (Ok tt, mkworld (stdout w ++ [s]) (dirs w) (files w)).

(** [os.makedirs(d, exist_ok=True)] *)
Definition makedirs (d : string) : io unit :=
  fun w =>
    (Ok tt,
     mkworld (stdout w)
             (if existsb (String.eqb d) (dirs w) then dirs w else dirs w ++ [d])
             (files w)).

Definition write_file (path : string) (a : artifact) : io unit :=
  fun w => (Ok tt, mkworld (stdout w) (dirs w) (files w ++ [(path, a)])).

(** [fig.savefig(path)] *)
Definition savefig (path : string) : io unit := write_file path Image.

(** [sys.exit(code)] *)
Definition sys_exit {A : Type} (code : Z) : io A := lift (Raise (SystemExit code)).

(** The state of a fresh run; paths are relative to the script's
    directory. *)
Definition initial_world : world := mkworld [] [] [].

(** The exit status of the interpreter: 0 when the script returns, the
    code of [sys.exit], 1 after an exception nobody caught. *)
Definition exit_status {A : Type} (r : result A) : Z :=
  match r with
  | Ok _ => 0
  | Raise (SystemExit code) => code
  | Raise _ => 1
  end.

(* ================================================================== *)
(** * The script *)

Record Args : Type := mkargs {
  csv : string;
  top_genres : nat;
  top_countries : nat;
  top_people : nat
}.

Definition ensure_dirs : io unit :=
  makedirs "plots" ;; makedirs "output".

(** The nested function [parse_duration] of [clean_data].  The source
    writes the same expression, [int(s.split()[0])], in both branches of
    its [if]; each branch is kept here under its own name. *)
Definition minutes_branch (s : string) : result cell :=
  t <- PyStr.index0 (PyStr.split_ws s) ;;
  n <- PyStr.py_int t ;;
  Ok (Int n).

Definition seasons_branch (s : string) : result cell :=
  t <- PyStr.index0 (PyStr.split_ws s) ;;
  n <- PyStr.py_int t ;;
  Ok (Int n).

Definition parse_duration (x : cell) : result cell :=
  if isna x then Ok NaN
  else
    let s := PyStr.strip (py_str x) in
    try_except
      (if PyStr.contains "min" s then minutes_branch s else seasons_branch s)
      (Ok NaN).

(** [lambda x: [g.strip() for g in str(x).split(",")]] *)
Definition genres_of (x : cell) : result cell :=
  Ok (Seq (map PyStr.strip (PyStr.split "," (py_str x)))).

(** [lambda x: str(x).split(",")[0].strip()
               if pd.notna(x) and x != "Unknown" else "Unknown"] *)
Definition primary_country_of (x : cell) : result cell :=
  if notna x && negb (cell_eqb x (Str "Unknown")) then
    t <- PyStr.index0 (PyStr.split "," (py_str x)) ;;
    Ok (Str (PyStr.strip t))
  else Ok (Str "Unknown").

(** One turn of [for col in ["director", "cast", "country", "rating"]]. *)
Definition fill_unknown (df : DataFrame) (col : string) : result DataFrame :=
  if has_column df col then
    s <- getitem df col ;;
    Ok (setitem df col (fillna (Str "Unknown") s))
  else Ok df.

Fixpoint for_each {A S : Type} (body : S -> A -> result S) (l : list A) (s : S)
  : result S :=
  match l with
  | [] => Ok s
  | x :: l' => s' <- body s x ;; for_each body l' s'
  end.

Section Script.

(** [pd.to_datetime(col, errors="coerce")] element by element: the date
    read from a cell, which may depend on the column (pandas infers one
    format for the whole column), or nothing where it does not parse. *)
Variable parse_date : Series -> cell -> option date.

(** [os.path.exists] and [pd.read_csv]. *)
Variable path_exists : string -> bool.
Variable read_csv : string -> result DataFrame.

Definition to_datetime (s : Series) : Series :=
  map (fun x =>
         if isna x then NaN
         else match parse_date s x with
              | Some d => Date d
              | None => NaN
              end) s.

Definition read_data (csv_path : string) : io DataFrame :=
  if negb (path_exists csv_path) then
    print ("ERROR: CSV file not found at " ++ csv_path)%string ;;
    sys_exit 1
  else
    lift (read_csv csv_path).

(** The blocks of [clean_data], named after their comments. *)

(** Parse dates *)
Definition parse_dates (df : DataFrame) : result DataFrame :=
  if has_column df "date_added" then
    s <- getitem df "date_added" ;;
    let df := setitem df "date_added" (to_datetime s) in
    s <- getitem df "date_added" ;;
    y <- dt_year s ;;
    Ok (setitem df "year_added" y)
  else Ok (setitem_scalar df "year_added" NaN).

(** Fill missing simple text columns with 'Unknown' *)
Definition fill_missing (df : DataFrame) : result DataFrame :=
  for_each fill_unknown ["director"; "cast"; "country"; "rating"] df.

(** Normalize 'type' column *)
Definition normalize_type (df : DataFrame) : result DataFrame :=
  if has_column df "type" then
    s <- getitem df "type" ;;
    s <- str_strip s ;;
    Ok (setitem df "type" s)
  else Ok df.

(** Split listed_in into list *)
Definition split_listed_in (df : DataFrame) : result DataFrame :=
  if has_column df "listed_in" then
    s <- getitem df "listed_in" ;;
    let df := setitem df "listed_in" (fillna (Str "Unknown") s) in
    s <- getitem df "listed_in" ;;
    g <- apply genres_of s ;;
    Ok (setitem df "genres_list" g)
  else Ok (setitem df "genres_list" (repeat (Seq []) (nrows df))).

(** Parse duration *)
Definition parse_durations (df : DataFrame) : result DataFrame :=
  if has_column df "duration" then
    s <- getitem df "duration" ;;
    d <- apply parse_duration s ;;
    Ok (setitem df "duration_parsed" d)
  else Ok (setitem_scalar df "duration_parsed" NaN).

(** Clean country *)
Definition clean_country (df : DataFrame) : result DataFrame :=
  if has_column df "country" then
    s <- getitem df "country" ;;
    p <- apply primary_country_of s ;;
    Ok (setitem df "primary_country" p)
  else Ok (setitem_scalar df "primary_country" (Str "Unknown")).

Definition clean_data (df : DataFrame) : result DataFrame :=
  let df := rename_columns PyStr.strip df in
  df <- parse_dates df ;;
  df <- fill_missing df ;;
  df <- normalize_type df ;;
  df <- split_listed_in df ;;
  df <- parse_durations df ;;
  df <- clean_country df ;;
  Ok df.

End Script.

Definition plot_movies_vs_tv (df : DataFrame) : io unit :=
  s <~ lift (getitem df "type") ;;
  let order := map fst (value_counts s) in
  savefig "plots/movies_vs_tv.png" ;;
  print "Saved plots/movies_vs_tv.png".

(** [for g in gl]: a list gives its elements, a string its characters,
    anything else is not iterable. *)
Definition iterate (x : cell) : result (list string) :=
  match x with
  | Seq l => Ok l
  | Str s => Ok (map (fun c => String c EmptyString) (list_ascii_of_string s))
  | _ => Raise TypeError
  end.

(** The two nested loops of [plot_top_genres]. *)
Definition all_genres (genres_list : Series) : result (list (string * nat)) :=
  for_each (fun c gl => l <- iterate gl ;; Ok (fold_left (fun c g => incr String.eqb g c) l c))
           genres_list [].

(** [a, b = zip( *top)]: with nothing in [top] there is nothing to
    unpack. *)
Definition unzip {A B : Type} (top : list (A * B)) : result (list A * list B) :=
  match top with
  | [] => Raise ValueError
  | _ => Ok (map fst top, map snd top)
  end.

Definition plot_top_genres (df : DataFrame) (top_n : nat) : io unit :=
  s <~ lift (getitem df "genres_list") ;;
  c <~ lift (all_genres s) ;;
  let top := most_common top_n c in
  gc <~ lift (unzip top) ;;
  savefig "plots/top_genres.png" ;;
  print "Saved plots/top_genres.png".

(** The [series] that [plot_yearly_trend] plots. *)
Definition yearly_series (year_added : Series) : result (list (Z * nat)) :=
  ys <- astype_int (dropna year_added) ;;
  Ok (sort_index (value_counts_int ys)).

Definition plot_yearly_trend (df : DataFrame) : io unit :=
  if negb (has_column df "year_added")
     || match lookup "year_added" (columns df) with
        | Some s => forallb isna s
        | None => false
        end
  then print "No year_added information available to plot yearly trend."
  else
    s <~ lift (getitem df "year_added") ;;
    series <~ lift (yearly_series s) ;;
    savefig "plots/content_added_per_year.png" ;;
    print "Saved plots/content_added_per_year.png".

Definition plot_top_countries (df : DataFrame) (top_n : nat) : io unit :=
  s <~ lift (getitem df "primary_country") ;;
  let counts := head top_n (value_counts s) in
  savefig "plots/top_countries.png" ;;
  print "Saved plots/top_countries.png".

Definition plot_rating_distribution (df : DataFrame) (top_n : nat) : io unit :=
  if negb (has_column df "rating") then print "No rating column present"
  else
    s <~ lift (getitem df "rating") ;;
    let counts := head top_n (value_counts s) in
    savefig "plots/rating_distribution.png" ;;
    print "Saved plots/rating_distribution.png".

(** [df[df["type"].str.lower() == name]] *)
Definition rows_of_type (df : DataFrame) (name : string) : result DataFrame :=
  s <- getitem df "type" ;;
  l <- str_lower s ;;
  Ok (filter_rows (map (fun x => cell_eqb x (Str name)) l) df).

Definition duration_insights (df : DataFrame) : io unit :=
  movies <~ lift (if has_column df "type" then rows_of_type df "movie" else Ok df) ;;
  shows <~ lift (if has_column df "type" then rows_of_type df "tv show" else Ok empty_frame) ;;
  (if negb (frame_empty movies) && has_column movies "duration_parsed" then
     s <~ lift (getitem movies "duration_parsed") ;;
     let m := dropna s in
     if negb (Nat.eqb (length m) 0) then
       savefig "plots/movie_duration_distribution.png" ;;
       print "Saved plots/movie_duration_distribution.png"
     else io_ret tt
   else io_ret tt) ;;
  (if negb (frame_empty shows) && has_column shows "duration_parsed" then
     s <~ lift (getitem shows "duration_parsed") ;;
     let s := dropna s in
     if negb (Nat.eqb (length s) 0) then
       savefig "plots/show_seasons_count.png" ;;
       print "Saved plots/show_seasons_count.png"
     else io_ret tt
   else io_ret tt).

(** [df["director"].dropna().astype(str)] without the rows equal to
    "Unknown". *)
Definition directors (director : Series) : Series :=
  filter (fun x => negb (cell_eqb x (Str "Unknown"))) (astype_str (dropna director)).

(** [if actor:] *)
Definition nonempty (s : string) : bool :=
  match s with
  | EmptyString => false
  | _ => true
  end.

(** [[a.strip() for a in c.split(",")][:5]] *)
Definition first_five (c : string) : list string :=
  firstn 5 (map PyStr.strip (PyStr.split "," c)).

(** The two nested loops over [df["cast"].dropna().astype(str)]. *)
Definition actor_counter (cast : Series) : list (string * nat) :=
  fold_left
    (fun counter c =>
       fold_left
         (fun counter actor =>
            if nonempty actor then incr String.eqb actor counter else counter)
         (first_five c) counter)
    (map py_str (dropna cast)) [].

Definition top_directors_actors (df : DataFrame) (top_n : nat) : io unit :=
  s <~ lift (getitem df "director") ;;
  let directors := directors s in
  (if negb (Nat.eqb (length directors) 0) then
     let dir_counts := head top_n (value_counts directors) in
     savefig "plots/top_directors.png" ;;
     print "Saved plots/top_directors.png"
   else io_ret tt) ;;
  (if has_column df "cast" then
     s <~ lift (getitem df "cast") ;;
     let top_actors := most_common top_n (actor_counter s) in
     match top_actors with
     | [] => io_ret tt
     | _ =>
         ac <~ lift (unzip top_actors) ;;
         savefig "plots/top_actors.png" ;;
         print "Saved plots/top_actors.png"
     end
   else io_ret tt).

(** [int(x)] on a cell. *)
Definition py_int_cell (x : cell) : result Z := int_of_cell x.

(** [s.min()], [s.max()] on a column of integers; [nan] when it is
    empty.  Only integers reach them once [clean_data] has built
    [year_added]; other cells are reported as [TypeError]. *)
Definition integers (s : Series) : result (list Z) :=
  mapM (fun x => match x with Int z => Ok z | _ => Raise TypeError end) s.

Definition series_min (s : Series) : result cell :=
  zs <- integers s ;;
  match zs with
  | [] => Ok NaN
  | z :: zs' => Ok (Int (fold_left Z.min zs' z))
  end.

Definition series_max (s : Series) : result cell :=
  zs <- integers s ;;
  match zs with
  | [] => Ok NaN
  | z :: zs' => Ok (Int (fold_left Z.max zs' z))
  end.

(** The dict that [save_summary] fills. *)
Definition summary (df : DataFrame) : result (list (cell * cell)) :=
  let summary := dict_set (Str "total_titles") (Int (Z.of_nat (nrows df))) [] in
  summary <- (if has_column df "type" then
                s <- getitem df "type" ;;
                Ok (dict_update summary (value_counts s))
              else Ok summary) ;;
  summary <- (if has_column df "year_added" then
                s <- getitem df "year_added" ;;
                lo <- (if negb (Nat.eqb (length (dropna s)) 0) then
                         m <- series_min (dropna s) ;;
                         n <- py_int_cell m ;;
                         Ok (Int n)
                       else Ok NaN) ;;
                let summary := dict_set (Str "earliest_year_added") lo summary in
                hi <- (if negb (Nat.eqb (length (dropna s)) 0) then
                         m <- series_max (dropna s) ;;
                         n <- py_int_cell m ;;
                         Ok (Int n)
                       else Ok NaN) ;;
                Ok (dict_set (Str "latest_year_added") hi summary)
              else Ok summary) ;;
  s <- getitem df "primary_country" ;;
  top <- (if negb (Nat.eqb (length s) 0) then idxmax (value_counts s)
          else Ok (Str "Unknown")) ;;
  Ok (dict_set (Str "top_country") top summary).

Definition save_summary (df : DataFrame) : io unit :=
  summary <~ lift (summary df) ;;
  write_file "output/summary_stats.csv" (Table summary) ;;
  print "Saved summary to output/summary_stats.csv".

Section Main.

Variable parse_date : Series -> cell -> option date.
Variable path_exists : string -> bool.
Variable read_csv : string -> result DataFrame.

Definition main (args : Args) : io unit :=
  ensure_dirs ;;
  df <~ read_data path_exists read_csv (csv args) ;;
  df <~ lift (clean_data parse_date df) ;;
  plot_movies_vs_tv df ;;
  plot_top_genres df (top_genres args) ;;
  plot_yearly_trend df ;;
  plot_top_countries df (top_countries args) ;;
  plot_rating_distribution df 20 ;;
  duration_insights df ;;
  top_directors_actors df (top_people args) ;;
  save_summary df ;;
  print "All done. Plots are in the ./plots directory and summary in ./output.".

(** The run of the script from a fresh state. *)
Definition run (args : Args) : result unit * world := main args initial_world.

End Main.

(** ** Instances used by the examples *)

Definition digits_value (s : string) : option Z := PyStr.int_digits 0 false s.

(** A date parser for the ISO form [YYYY-MM-DD], whatever the column. *)
Definition iso_date (s : Series) (x : cell) : option date :=
  match x with
  | Str t =>
      match PyStr.split "-" t with
      | [y; m; d] =>
          match digits_value y, digits_value m, digits_value d with
          | Some y', Some m', Some d' => Some (mkdate y' m' d')
          | _, _, _ => None
          end
      | _ => None
      end
  | _ => None
  end.

(** The two rows of the end-to-end scenario of the specification. *)
Definition two_dates : Series := [Str "2020-01-15"; Str "2021-03-02"].
Definition two_rows : DataFrame := mkframe 2 [("date_added", two_dates)].

(** A catalogue with a title column only. *)
Definition titles_only : DataFrame :=
  mkframe 1 [("title", [Str "Dick Johnson Is Dead"])].

(** A catalogue with a header and no row. *)
Definition header_only : DataFrame :=
  mkframe 0 [("type", []); ("director", []); ("cast", []); ("listed_in", [])].

(** Two movies, the first without director and without cast. *)
Definition missing_cast : DataFrame :=
  mkframe 2 [("type", [Str "Movie"; Str "Movie"]);
             ("director", [NaN; Str "Jane Doe"]);
             ("cast", [NaN; Str "Ann Lee, Bo Diaz"]);
             ("listed_in", [Str "Dramas"; Str "Dramas, International Movies"])].

(** A catalogue whose file already has a column called [year_added]. *)
Definition with_year_added : DataFrame :=
  mkframe 1 [("title", [Str "Jaws"]); ("year_added", [Int 1999])].

(** A small catalogue with untrimmed labels and missing values. *)
Definition small_catalog : DataFrame :=
  mkframe 2 [(" type", [Str "Movie "; Str "TV Show"]);
             ("listed_in", [Str "Dramas, International Movies"; NaN]);
             ("country ", [Str "Canada, United States"; NaN]);
             ("duration", [Str "90 min"; Str "2 Seasons"])].

Definition eight_names : list string :=
  ["Ann"; " Bo"; " Cy"; " Di"; " Ed"; " Flo"; " Gus"; " Hal"].

(** A file system with one file. *)
Definition one_file (path : string) (df : DataFrame) : string -> result DataFrame :=
  fun p => if String.eqb p path then Ok df else Raise ValueError.

Definition only_path (path : string) : string -> bool := String.eqb path.

(* ================================================================== *)
(** * The vocabulary of the specification *)

(** The characters of [s] up to the first white space. *)
Fixpoint take_token (s : string) : string :=
  match s with
  | EmptyString => EmptyString
  | String c s' => if PyStr.isspace c then EmptyString else String c (take_token s')
  end.

(** The leading token of a text: its first maximal run of characters
    that are not white space, if it has one. *)
Definition leading_token (s : string) : option string :=
  match PyStr.lstrip s with
  | EmptyString => None
  | t => Some (take_token t)
  end.

(** No white space in the text. *)
Fixpoint no_space (s : string) : bool :=
  match s with
  | EmptyString => true
  | String c s' => negb (PyStr.isspace c) && no_space s'
  end.

(** The leading integer token: the leading token read as an integer. *)
Definition leading_integer (s : string) : option Z :=
  match leading_token s with
  | Some t => PyStr.int_of_string t
  | None => None
  end.

(** The substring before the first comma (the whole text when it has
    none). *)
Fixpoint before_comma (s : string) : string :=
  match s with
  | EmptyString => EmptyString
  | String c s' => if Ascii.eqb c "," then EmptyString else String c (before_comma s')
  end.

Fixpoint has_comma (s : string) : bool :=
  match s with
  | EmptyString => false
  | String c s' => Ascii.eqb c "," || has_comma s'
  end.

(** The column of the input whose trimmed label is [k]. *)
Definition column (df : DataFrame) (k : string) : option Series :=
  lookup k (columns (rename_columns PyStr.strip df)).

Fixpoint distinct (l : list string) : bool :=
  match l with
  | [] => true
  | x :: l' => negb (existsb (String.eqb x) l') && distinct l'
  end.

(** A column as [pd.read_csv] builds it: integers only (dtype int64 or
    uint64), or texts and missing values (dtype object, or float64 when
    nothing is there). *)
Definition int_cell (x : cell) : bool :=
  match x with
  | Int z => ((- 2 ^ 63 <=? z) && (z <? 2 ^ 64))%Z
  | _ => false
  end.

Definition text_cell (x : cell) : bool :=
  match x with
  | NaN | Str _ => true
  | _ => false
  end.

Definition csv_column (s : Series) : bool :=
  forallb int_cell s || forallb text_cell s.

(** A frame as read from a file: labels distinct once trimmed, and every
    column a column of the file with one cell per row. *)
Definition well_formed (df : DataFrame) : bool :=
  distinct (map (fun kv => PyStr.strip (fst kv)) (columns df))
  && forallb (fun kv => Nat.eqb (length (snd kv)) (nrows df) && csv_column (snd kv))
             (columns df).

(** The [type] column, when there is one, is one the [.str] accessor
    takes. *)
Definition type_is_text (df : DataFrame) : bool :=
  match column df "type" with
  | Some s => match str_accessor s with Ok _ => true | Raise _ => false end
  | None => true
  end.

(** The fields the Normalizer derives. *)
Definition derived_fields : list string :=
  ["year_added"; "genres_list"; "duration_parsed"; "primary_country"].

Definition is_derived (k : string) : bool := existsb (String.eqb k) derived_fields.

(** Sentinel fill of a missing value. *)
Definition fill_cell (x : cell) : cell := if isna x then Str "Unknown" else x.

(** The years present in a [year_added] column. *)
Fixpoint present_years (s : Series) : list Z :=
  match s with
  | [] => []
  | Int y :: s' => y :: present_years s'
  | _ :: s' => present_years s'
  end.

Definition year_cell (x : cell) : bool :=
  match x with
  | NaN | Int _ => true
  | _ => false
  end.

(** The number of occurrences of [a] in [l]. *)
Definition occurrences {K : Type} (eqb : K -> K -> bool) (a : K) (l : list K) : nat :=
  length (filter (eqb a) l).

(** A well-kept counter: keys distinct, counts positive. *)
Definition counter_ok {K : Type} (c : list (K * nat)) : Prop :=
  NoDup (map fst c) /\ Forall (fun kn => 0 < snd kn) c.

(** The names a tally of actors is made of: for every record with a cast,
    the names among its first five trimmed comma-separated entries that
    are not empty. *)
Definition counted_names (cast : Series) : list string :=
  flat_map (fun c => filter nonempty (firstn 5 (map PyStr.strip (PyStr.split "," c))))
           (map py_str (dropna cast)).

(** ** The columns of a frame as a function of the label *)

Definition view : Type := string -> option Series.

Definition view_of (df : DataFrame) : view := fun k => lookup k (columns df).

Definition set_view (k : string) (v : Series) (c : view) : view :=
  fun k' => if String.eqb k' k then Some v else c k'.

(** A block of [clean_data] returns a frame with the same number of rows
    whose columns are those of the view [c]. *)
Definition block_ok (df : DataFrame) (r : result DataFrame) (c : view) : Prop :=
  exists df', r = Ok df' /\ nrows df' = nrows df /\ forall k, view_of df' k = c k.

(** The value of each lambda of [clean_data] on a cell. *)
Definition genres_cell (x : cell) : cell :=
  Seq (map PyStr.strip (PyStr.split "," (py_str x))).

Definition duration_cell (x : cell) : cell :=
  match x with
  | NaN => NaN
  | _ => match leading_integer (py_str x) with
         | Some n => Int n
         | None => NaN
         end
  end.

Definition country_cell (x : cell) : cell :=
  if isna x || cell_eqb x (Str "Unknown") then Str "Unknown"
  else Str (PyStr.strip (before_comma (py_str x))).

Definition year_of (x : cell) : cell :=
  match x with
  | Date d => Int (year d)
  | _ => NaN
  end.

Section Views.

Variable parse_date : Series -> cell -> option date.

(** What each block of [clean_data] does to the columns; [n] is the
    number of rows. *)
Definition dates_view (n : nat) (c : view) : view :=
  match c "date_added" with
  | Some s =>
      set_view "year_added" (map year_of (to_datetime parse_date s))
               (set_view "date_added" (to_datetime parse_date s) c)
  | None => set_view "year_added" (repeat NaN n) c
  end.

Definition fill_view (col : string) (c : view) : view :=
  match c col with
  | Some s => set_view col (fillna (Str "Unknown") s) c
  | None => c
  end.

Definition missing_view (c : view) : view :=
  fill_view "rating" (fill_view "country" (fill_view "cast" (fill_view "director" c))).

Definition type_view (c : view) : view :=
  match c "type" with
  | Some s => set_view "type" (map (str_method PyStr.strip) s) c
  | None => c
  end.

Definition genres_view (n : nat) (c : view) : view :=
  match c "listed_in" with
  | Some s =>
      set_view "genres_list" (map genres_cell (fillna (Str "Unknown") s))
               (set_view "listed_in" (fillna (Str "Unknown") s) c)
  | None => set_view "genres_list" (repeat (Seq []) n) c
  end.

Definition durations_view (n : nat) (c : view) : view :=
  match c "duration" with
  | Some s => set_view "duration_parsed" (map duration_cell s) c
  | None => set_view "duration_parsed" (repeat NaN n) c
  end.

Definition country_view (n : nat) (c : view) : view :=
  match c "country" with
  | Some s => set_view "primary_country" (map country_cell s) c
  | None => set_view "primary_country" (repeat (Str "Unknown") n) c
  end.

(** The columns of [clean_data df], block after block. *)
Definition clean_view (df : DataFrame) : view :=
  let n := nrows df in
  country_view n
    (durations_view n
       (genres_view n
          (type_view (missing_view (dates_view n (column df)))))).

(** The named normalization of an original column, cell by cell; [s]
    is the column the cell stands in. *)
Definition normalized_cell (k : string) (s : Series) (x : cell) : cell :=
  if String.eqb k "date_added" then
    if isna x then NaN
    else match parse_date s x with
         | Some d => Date d
         | None => NaN
         end
  else if existsb (String.eqb k) ["director"; "cast"; "country"; "rating"; "listed_in"]
       then fill_cell x
  else if String.eqb k "type" then str_method PyStr.strip x
  else x.

End Views.

(** ** Labels and kinds of cells *)

Definition mem (k : string) (l : list string) : bool := existsb (String.eqb k) l.

(** The labels of a frame, and those of an input once trimmed. *)
Definition labels (df : DataFrame) : list string := map fst (columns df).

Definition trimmed_labels (df : DataFrame) : list string :=
  map (fun kv => PyStr.strip (fst kv)) (columns df).

(** The input has a column whose trimmed label is [k]. *)
Definition has_col (df : DataFrame) (k : string) : bool :=
  match column df k with
  | Some _ => true
  | None => false
  end.

Definition is_text (x : cell) : bool :=
  match x with
  | Str _ => true
  | _ => false
  end.

Definition is_list (x : cell) : bool :=
  match x with
  | Seq _ => true
  | _ => false
  end.

Definition is_nonempty_list (x : cell) : bool :=
  match x with
  | Seq (_ :: _) => true
  | _ => false
  end.

(** The columns [clean_data] fills with the sentinel. *)
Definition filled_fields : list string :=
  ["director"; "cast"; "country"; "rating"; "listed_in"].

(** [df[k] = v] seen on the labels: a new label goes last. *)
Definition add_label (k : string) (l : list string) : list string :=
  if mem k l then l else l ++ [k].

(** The genres of a row: the trimmed comma-separated entries of its
    [listed_in], the sentinel for a missing one. *)
Definition row_genres (x : cell) : list string :=
  map PyStr.strip (PyStr.split "," (py_str (fill_cell x))).

(** The rows of a [director] column that name [d]. *)
Definition rows_directed_by (d : string) (director : Series) : Series :=
  filter (fun x => notna x && String.eqb (py_str x) d) director.

(** Decreasing counts. *)
Definition count_ge {K : Type} (a b : K * nat) : Prop := snd b <= snd a.

(** ** The files of a run *)

(** The artifacts of the script, in the order in which [main] makes
    them. *)
Definition artifact_names : list string :=
  ["plots/movies_vs_tv.png"; "plots/top_genres.png";
   "plots/content_added_per_year.png"; "plots/top_countries.png";
   "plots/rating_distribution.png"; "plots/movie_duration_distribution.png";
   "plots/show_seasons_count.png"; "plots/top_directors.png";
   "plots/top_actors.png"; "output/summary_stats.csv"].

(** [l] is [names] with some of its elements left out. *)
Inductive subseq : list string -> list string -> Prop :=
| subseq_nil : subseq [] []
| subseq_skip (l names : list string) (x : string) :
    subseq l names -> subseq l (x :: names)
| subseq_take (l names : list string) (x : string) :
    subseq l names -> subseq (x :: l) (x :: names).

(** From [w] to [w'] lines were printed and files were written, the
    files being some of [names], in that order; nothing else changed. *)
Definition writes_within (names : list string) (w w' : world) : Prop :=
  dirs w' = dirs w
  /\ exists out fs,
       stdout w' = stdout w ++ out
       /\ files w' = files w ++ fs
       /\ subseq (map fst fs) names.

Definition io_writes {A : Type} (names : list string) (m : io A) : Prop :=
  forall w, writes_within names w (snd (m w)).

(** The state after a chart has been saved under [path]. *)
Definition saved (path : string) (w : world) : world :=
  mkworld (stdout w ++ [("Saved " ++ path)%string]) (dirs w) (files w ++ [(path, Image)]).

(** The state after a line has been printed. *)
Definition printed (line : string) (w : world) : world :=
  mkworld (stdout w ++ [line]) (dirs w) (files w).

(** The keys [save_summary] sets after the counts of the types. *)
Definition late_keys : list string :=
  ["earliest_year_added"; "latest_year_added"; "top_country"].

(** Some row of the given kind (the type compared in lower case) has a
    parsed duration. *)
Definition has_parsed (kind : string) (types durations : Series) : bool :=
  existsb (fun td => cell_eqb (str_method lower (fst td)) (Str kind) && notna (snd td))
          (combine types durations).

Definition saved_if (b : bool) (path : string) (w : world) : world :=
  if b then saved path w else w.

(** ** Further instances used by the examples *)

(** A date reader that reads a date as itself and a text in the ISO
    form. *)
Definition date_reader (s : Series) (x : cell) : option date :=
  match x with
  | Date d => Some d
  | _ => iso_date s x
  end.

(** A catalogue with every column the script reads. *)
Definition full_catalog : DataFrame :=
  mkframe 2 [("type", [Str "Movie"; Str "TV Show"]);
             ("director", [Str "Jane Doe"; NaN]);
             ("cast", [Str "Ann Lee, Bo Diaz"; NaN]);
             ("country", [Str "Canada, United States"; NaN]);
             ("date_added", [Str "2020-01-15"; Str "2021-03-02"]);
             ("rating", [Str "PG"; Str "TV-MA"]);
             ("duration", [Str "90 min"; Str "2 Seasons"]);
             ("listed_in", [Str "Dramas, International Movies"; Str "Dramas"])].

(** A frame as [clean_data] leaves one. *)
Definition cleaned_example : DataFrame :=
  mkframe 3 [("type", [Str "Movie"; Str "TV Show"; Str "MOVIE"]);
             ("year_added", [Int 2020; NaN; Int 2019]);
             ("duration_parsed", [NaN; Int 2; Int 90]);
             ("primary_country", [Str "Canada"; Str "Unknown"; Str "Canada"])].

(** ** The lines of a run *)

(** The last line [main] prints. *)
Definition closing_line : string :=
  "All done. Plots are in the ./plots directory and summary in ./output.".

(** A line that reports a file. *)
Definition is_report (line : string) : bool := String.prefix "Saved " line.

(** The line that reports the file written under [path]. *)
Definition report_of (path : string) : string :=
  if String.eqb path "output/summary_stats.csv"
  then ("Saved summary to " ++ path)%string
  else ("Saved " ++ path)%string.

(** From [w] to [w'] lines were printed and files were written; the
    lines that report a file are those of the files written, in the same
    order. *)
Definition reports_between (w w' : world) (out : list string) : Prop :=
  exists fs,
    stdout w' = stdout w ++ out
    /\ files w' = files w ++ fs
    /\ filter is_report out = map (fun f => report_of (fst f)) fs.

(** A step that reports its files and does not print the closing
    line. *)
Definition io_reports {A : Type} (m : io A) : Prop :=
  forall w, exists out,
    reports_between w (snd (m w)) out /\ ~ In closing_line out.

(** A step that reports its files and ends, when it returns, with the
    closing line, printed nowhere else. *)
Definition io_closes (m : io unit) : Prop :=
  forall w, exists out,
    reports_between w (snd (m w)) out
    /\ match fst (m w) with
       | Ok _ => exists before, out = before ++ [closing_line] /\ ~ In closing_line before
       | Raise _ => ~ In closing_line out
       end.

(* ================================================================== *)
(** * Facts about the string operations *)

Module StrFacts.
Import PyStr.

Lemma split_ws_aux_fst (s : string) : fst (split_ws_aux s) = take_token s.
Proof.
  induction s as [|c s IH]; simpl; [reflexivity|].
  destruct (split_ws_aux s) as [t ts]; simpl in IH.
  destruct (isspace c); simpl; congruence.
Qed.

Lemma split_ws_aux_rstrip (s : string) : split_ws_aux (rstrip s) = split_ws_aux s.
Proof.
  induction s as [|c s IH]; simpl; [reflexivity|].
  destruct (rstrip s) as [|c' r] eqn:E.
  - simpl in IH. rewrite <- IH.
    destruct (isspace c) eqn:Ec; simpl; rewrite ?Ec; reflexivity.
  - change (split_ws_aux (String c (String c' r)))
      with (let (t, ts) := split_ws_aux (String c' r) in
            if isspace c then (EmptyString, cons_token t ts) else (String c t, ts)).
    rewrite IH. reflexivity.
Qed.

Lemma split_ws_lstrip (s : string) : split_ws (lstrip s) = split_ws s.
Proof.
  induction s as [|c s IH]; simpl; [reflexivity|].
  destruct (isspace c) eqn:Ec; [|reflexivity].
  rewrite IH. unfold split_ws. simpl.
  destruct (split_ws_aux s) as [t ts]. rewrite Ec. reflexivity.
Qed.

Lemma split_ws_strip (s : string) : split_ws (strip s) = split_ws s.
Proof.
  unfold strip, split_ws. rewrite split_ws_aux_rstrip.
  apply split_ws_lstrip.
Qed.

Lemma lstrip_head (s : string) (c : ascii) (r : string) :
  lstrip s = String c r -> isspace c = false.
Proof.
  induction s as [|c' s IH]; simpl; [discriminate|].
  destruct (isspace c') eqn:Ec; [exact IH|].
  intros H. injection H as -> _. exact Ec.
Qed.

(** The first element of [s.strip().split()] is the leading token. *)
Lemma index0_split_ws (s : string) :
  index0 (split_ws (strip s)) =
  match leading_token s with
  | Some t => Ok t
  | None => Raise IndexError
  end.
Proof.
  rewrite split_ws_strip, <- split_ws_lstrip. unfold leading_token.
  destruct (lstrip s) as [|c r] eqn:E; [reflexivity|].
  pose proof (lstrip_head _ _ _ E) as Hc.
  unfold split_ws. pose proof (split_ws_aux_fst (String c r)) as Hf.
  destruct (split_ws_aux (String c r)) as [t ts]. simpl fst in Hf. subst t.
  simpl. rewrite Hc. reflexivity.
Qed.

Lemma split_aux_fst (s : string) : fst (split_aux "," s) = before_comma s.
Proof.
  induction s as [|c s IH]; simpl; [reflexivity|].
  destruct (split_aux "," s) as [t ts]; simpl in IH.
  destruct (Ascii.eqb c ","); simpl; congruence.
Qed.

(** The first element of [s.split(",")] is what stands before the first
    comma; the list is never empty. *)
Lemma index0_split (s : string) : index0 (split "," s) = Ok (before_comma s).
Proof.
  unfold split. pose proof (split_aux_fst s) as H.
  destruct (split_aux "," s) as [t ts]. simpl in *. congruence.
Qed.

Lemma split_no_comma (s : string) : has_comma s = false -> split_aux "," s = (s, []).
Proof.
  induction s as [|c s IH]; simpl; [reflexivity|].
  destruct (Ascii.eqb c ","); simpl; [discriminate|].
  intros H. rewrite (IH H). reflexivity.
Qed.

Lemma split_aux_app (t s : string) :
  has_comma t = false ->
  split_aux "," (t ++ String "," s) =
  (t, fst (split_aux "," s) :: snd (split_aux "," s)).
Proof.
  induction t as [|c t IH]; simpl.
  - intros _. destruct (split_aux "," s); reflexivity.
  - destruct (Ascii.eqb c ","); simpl; [discriminate|].
    intros H. rewrite (IH H). reflexivity.
Qed.

(** Splitting undoes joining, for names that hold no comma. *)
Lemma split_join (l : list string) :
  l <> [] -> forallb (fun t => negb (has_comma t)) l = true ->
  split "," (join "," l) = l.
Proof.
  induction l as [|t l IH]; [congruence|]. intros _ H.
  simpl in H. apply andb_prop in H as [Ht Hl].
  apply negb_true_iff in Ht.
  destruct l as [|t' l].
  - unfold split. simpl. rewrite (split_no_comma _ Ht). reflexivity.
  - change (join "," (t :: t' :: l)) with (t ++ String "," (join "," (t' :: l)))%string.
    unfold split. rewrite (split_aux_app _ _ Ht).
    assert (IH' := IH ltac:(congruence) Hl). unfold split in IH'.
    destruct (split_aux "," (join "," (t' :: l))) as [a b]. simpl.
    rewrite IH'. reflexivity.
Qed.

End StrFacts.

(** ** Numerals *)

Module Numerals.
Import PyStr.

Lemma rstrip_no_space (s : string) : no_space s = true -> rstrip s = s.
Proof.
  induction s as [|c s IH]; simpl; [reflexivity|].
  intros H. apply andb_prop in H as [Hc Hs]. apply negb_true_iff in Hc.
  rewrite (IH Hs), Hc. destruct s; reflexivity.
Qed.

Lemma strip_no_space (s : string) : no_space s = true -> strip s = s.
Proof.
  intros H. unfold strip.
  assert (lstrip s = s) as ->.
  { destruct s as [|c s]; simpl in *; [reflexivity|].
    apply andb_prop in H as [Hc _]. apply negb_true_iff in Hc. now rewrite Hc. }
  now apply rstrip_no_space.
Qed.

Lemma take_token_app (t rest : string) :
  no_space t = true -> take_token (t ++ String " " rest) = t.
Proof.
  induction t as [|c t IH]; simpl; [reflexivity|].
  intros H. apply andb_prop in H as [Hc Ht]. apply negb_true_iff in Hc.
  rewrite Hc, (IH Ht). reflexivity.
Qed.

(** A text that starts with a token followed by a blank has that token
    as its leading token. *)
Lemma leading_token_app (t rest : string) :
  no_space t = true -> t <> EmptyString ->
  leading_token (t ++ String " " rest) = Some t.
Proof.
  intros H Hne. unfold leading_token.
  destruct t as [|c t]; [congruence|].
  pose proof (take_token_app _ rest H) as Ht. simpl in H.
  apply andb_prop in H as [Hc _]. apply negb_true_iff in Hc.
  simpl in Ht. rewrite Hc in Ht. simpl. rewrite Hc. simpl. rewrite Hc. now rewrite Ht.
Qed.

Lemma take_token_no_space (t : string) : no_space t = true -> take_token t = t.
Proof.
  induction t as [|c t IH]; simpl; [reflexivity|].
  intros H. apply andb_prop in H as [Hc Ht]. apply negb_true_iff in Hc.
  now rewrite Hc, IH.
Qed.

Lemma leading_token_self (t : string) :
  no_space t = true -> t <> EmptyString -> leading_token t = Some t.
Proof.
  intros H Hne. unfold leading_token.
  pose proof (take_token_no_space t H) as Ht.
  destruct t as [|c t]; [congruence|]. simpl in H.
  apply andb_prop in H as [Hc _]. apply negb_true_iff in Hc.
  simpl lstrip. rewrite Hc. now rewrite Ht.
Qed.

Lemma int_digits_acc (d : Decimal.uint) (p : positive) :
  int_digits (Zpos p) true (NilEmpty.string_of_uint d) = Some (Zpos (Pos.of_uint_acc d p)).
Proof.
  revert p. induction d; intros p; cbn [NilEmpty.string_of_uint Pos.of_uint_acc];
    [reflexivity| ..];
    match goal with
    | |- int_digits ?a true (String ?c ?s) = _ =>
        let v := eval vm_compute in (digit_val c) in
        match v with
        | Some ?k => change (int_digits a true (String c s)) with (int_digits (10 * a + k) true s)
        end
    end;
    rewrite <- IHd; f_equal; lia.
Qed.

Lemma int_digits_uint (d : Decimal.uint) (b : bool) :
  b = true \/ d <> Decimal.Nil ->
  int_digits 0 b (NilEmpty.string_of_uint d) = Some (Z.of_N (Pos.of_uint d)).
Proof.
  revert b. induction d; intros b Hb.
  - destruct Hb as [->|Hb]; [reflexivity|congruence].
  - change (int_digits 0 b (NilEmpty.string_of_uint (Decimal.D0 d)))
      with (int_digits 0 true (NilEmpty.string_of_uint d)).
    rewrite (IHd true) by now left. reflexivity.
  - exact (int_digits_acc d 1).
  - exact (int_digits_acc d 2).
  - exact (int_digits_acc d 3).
  - exact (int_digits_acc d 4).
  - exact (int_digits_acc d 5).
  - exact (int_digits_acc d 6).
  - exact (int_digits_acc d 7).
  - exact (int_digits_acc d 8).
  - exact (int_digits_acc d 9).
Qed.

Lemma no_space_uint (d : Decimal.uint) : no_space (NilEmpty.string_of_uint d) = true.
Proof. induction d; simpl; auto. Qed.

Lemma no_space_str_of_int (z : Z) : no_space (str_of_int z) = true.
Proof.
  unfold str_of_int. destruct z as [|p|p]; [reflexivity| |];
    simpl; unfold NilZero.string_of_uint;
    destruct (Pos.to_uint p) eqn:E; try reflexivity;
    rewrite <- E; try apply no_space_uint;
    change (no_space (NilEmpty.string_of_uint (Pos.to_uint p)) = true);
    apply no_space_uint.
Qed.

Lemma str_of_int_nonempty (z : Z) : str_of_int z <> EmptyString.
Proof.
  unfold str_of_int. destruct z as [|p|p]; simpl; try discriminate.
  all: unfold NilZero.string_of_uint; destruct (Pos.to_uint p); discriminate.
Qed.

Lemma first_digit (d : Decimal.uint) (c : ascii) (r : string) :
  NilEmpty.string_of_uint d = String c r -> c <> "+"%char /\ c <> "-"%char.
Proof. destruct d; simpl; intros H; inversion H; split; discriminate. Qed.

Ltac digit_step :=
  match goal with
  | |- context [digit_val ?c] =>
      let v := eval vm_compute in (digit_val c) in
      change (digit_val c) with v
  end.

Lemma count_digits_uint (d : Decimal.uint) :
  count_digits (NilEmpty.string_of_uint d) = N.of_nat (Decimal.nb_digits d).
Proof.
  induction d; cbn [NilEmpty.string_of_uint count_digits Decimal.nb_digits];
    [reflexivity| ..]; digit_step; cbv iota; rewrite IHd; lia.
Qed.

Lemma of_uint_acc_bound (d : Decimal.uint) (acc : positive) :
  (Zpos acc * 10 ^ Z.of_nat (Decimal.nb_digits d) <= Zpos (Pos.of_uint_acc d acc))%Z.
Proof.
  revert acc. induction d; intros acc; cbn [Pos.of_uint_acc Decimal.nb_digits];
    [rewrite Z.pow_0_r; lia| ..];
    (etransitivity; [|apply IHd]);
    rewrite Nat2Z.inj_succ, Z.pow_succ_r by lia;
    pose proof (Z.pow_nonneg 10 (Z.of_nat (Decimal.nb_digits d)) ltac:(lia));
    rewrite ?Pos2Z.inj_add, Pos2Z.inj_mul; nia.
Qed.

Lemma nzhead_not_D0 (d e : Decimal.uint) : Decimal.nzhead d <> Decimal.D0 e.
Proof. induction d; simpl; try discriminate. exact IHd. Qed.

(** The numeral of a positive number has no more digits than its size
    allows. *)
Lemma to_uint_digits (p : positive) :
  exists d', Decimal.nb_digits (Pos.to_uint p) = S (Decimal.nb_digits d')
             /\ (10 ^ Z.of_nat (Decimal.nb_digits d') <= Zpos p)%Z.
Proof.
  pose proof (DecimalPos.Unsigned.of_to p) as Hof.
  pose proof (DecimalPos.Unsigned.to_of (Pos.to_uint p)) as Hto.
  rewrite Hof in Hto. simpl in Hto.
  pose proof (of_uint_acc_bound) as B.
  destruct (Pos.to_uint p) as [|d'|d'|d'|d'|d'|d'|d'|d'|d'|d'] eqn:E;
    [discriminate Hof| | ..].
  - exfalso. unfold Decimal.unorm in Hto. simpl in Hto.
    destruct (Decimal.nzhead d') eqn:En; try discriminate.
    + injection Hto as ->. discriminate Hof.
    + exact (nzhead_not_D0 d' _ En).
  - exists d'. split; [reflexivity|]. simpl in Hof. injection Hof as <-.
    specialize (B d' 1%positive). lia.
  - exists d'. split; [reflexivity|]. simpl in Hof. injection Hof as <-.
    specialize (B d' 2%positive). lia.
  - exists d'. split; [reflexivity|]. simpl in Hof. injection Hof as <-.
    specialize (B d' 3%positive). lia.
  - exists d'. split; [reflexivity|]. simpl in Hof. injection Hof as <-.
    specialize (B d' 4%positive). lia.
  - exists d'. split; [reflexivity|]. simpl in Hof. injection Hof as <-.
    specialize (B d' 5%positive). lia.
  - exists d'. split; [reflexivity|]. simpl in Hof. injection Hof as <-.
    specialize (B d' 6%positive). lia.
  - exists d'. split; [reflexivity|]. simpl in Hof. injection Hof as <-.
    specialize (B d' 7%positive). lia.
  - exists d'. split; [reflexivity|]. simpl in Hof. injection Hof as <-.
    specialize (B d' 8%positive). lia.
  - exists d'. split; [reflexivity|]. simpl in Hof. injection Hof as <-.
    specialize (B d' 9%positive). lia.
Qed.

Lemma int_literal_pos (p : positive) :
  (Zpos p < 10 ^ 4300)%Z ->
  int_literal (NilEmpty.string_of_uint (Pos.to_uint p)) = Some (Zpos p).
Proof.
  intros Hp. unfold int_literal.
  assert ((max_str_digits <? count_digits (NilEmpty.string_of_uint (Pos.to_uint p)))%N
          = false) as ->.
  { apply N.ltb_ge. rewrite count_digits_uint.
    destruct (to_uint_digits p) as (d' & -> & Hd).
    assert (Z.of_nat (Decimal.nb_digits d') < 4300)%Z.
    { apply (Z.pow_lt_mono_r_iff 10); lia. }
    unfold max_str_digits. lia. }
  rewrite (int_digits_uint (Pos.to_uint p) false
             (or_intror (DecimalPos.Unsigned.to_uint_nonnil p))).
  now rewrite DecimalPos.Unsigned.of_to.
Qed.

(** [int(str(n)) == n], for a number the digit limit lets through. *)
Lemma int_of_str (z : Z) :
  (Z.abs z < 10 ^ 4300)%Z -> int_of_string (str_of_int z) = Some z.
Proof.
  intros Hz. unfold int_of_string. rewrite (strip_no_space _ (no_space_str_of_int z)).
  unfold str_of_int. destruct z as [|p|p]; [reflexivity| |].
  - simpl. pose proof (DecimalPos.Unsigned.to_uint_nonnil p) as Hn.
    assert (NilZero.string_of_uint (Pos.to_uint p)
            = NilEmpty.string_of_uint (Pos.to_uint p)) as ->
      by (unfold NilZero.string_of_uint; destruct (Pos.to_uint p); congruence).
    pose proof (int_literal_pos p Hz) as H.
    destruct (NilEmpty.string_of_uint (Pos.to_uint p)) as [|c r] eqn:E; [exact H|].
    destruct (first_digit _ _ _ E) as [H1 H2].
    destruct c as [[|] [|] [|] [|] [|] [|] [|] [|]]; try exact H; congruence.
  - simpl. pose proof (DecimalPos.Unsigned.to_uint_nonnil p) as Hn.
    assert (NilZero.string_of_uint (Pos.to_uint p)
            = NilEmpty.string_of_uint (Pos.to_uint p)) as ->
      by (unfold NilZero.string_of_uint; destruct (Pos.to_uint p); congruence).
    rewrite (int_literal_pos p Hz). reflexivity.
Qed.

End Numerals.

(* ================================================================== *)
(** * Duration parsing *)

Lemma minutes_branch_leading (s : string) :
  minutes_branch (PyStr.strip s) =
  match leading_integer s with
  | Some n => Ok (Int n)
  | None => match leading_token s with
            | Some _ => Raise ValueError
            | None => Raise IndexError
            end
  end.
Proof.
  unfold minutes_branch, leading_integer. rewrite StrFacts.index0_split_ws.
  destruct (leading_token s) as [t|]; [|reflexivity].
  simpl. unfold PyStr.py_int. destruct (PyStr.int_of_string t); reflexivity.
Qed.

Lemma seasons_branch_leading (s : string) :
  seasons_branch (PyStr.strip s) =
  match leading_integer s with
  | Some n => Ok (Int n)
  | None => match leading_token s with
            | Some _ => Raise ValueError
            | None => Raise IndexError
            end
  end.
Proof. exact (minutes_branch_leading s). Qed.

(** What [parse_duration] returns on a text. *)
Lemma parse_duration_text (s : string) :
  parse_duration (Str s) =
  Ok (match leading_integer s with
      | Some n => Int n
      | None => NaN
      end).
Proof.
  unfold parse_duration. cbn [isna py_str].
  rewrite minutes_branch_leading, seasons_branch_leading.
  destruct (PyStr.contains "min" (PyStr.strip s));
    destruct (leading_integer s); try reflexivity;
    destruct (leading_token s); reflexivity.
Qed.

Lemma parse_duration_int (z : Z) :
  (Z.abs z < 10 ^ 4300)%Z -> parse_duration (Int z) = Ok (Int z).
Proof.
  intros Hz. unfold parse_duration. cbn [isna py_str].
  assert (leading_integer (PyStr.str_of_int z) = Some z) as H.
  { unfold leading_integer.
    rewrite (Numerals.leading_token_self _ (Numerals.no_space_str_of_int z)
               (Numerals.str_of_int_nonempty z)).
    now apply Numerals.int_of_str. }
  rewrite minutes_branch_leading, seasons_branch_leading, H.
  destruct (PyStr.contains _ _); reflexivity.
Qed.

(** C2.  Duration parsing.  For every duration text the value is its
    leading token read as an integer, whether or not the text holds "min"
    ("90 min" gives 90 on the minutes branch, "2 Seasons" gives 2 on the
    seasons branch, and so does every decimal numeral that [int] accepts,
    followed by a blank and a unit); when the leading token is not an
    integer or there is no token ("Season", the empty text) the value is
    the missing marker; a missing value gives the missing marker; an
    integer cell gives itself.  So [parse_duration] returns, and never
    raises, on every cell of a column read from a file. *)
Theorem parse_duration_leading_integer :
  (forall s : string,
      parse_duration (Str s) =
      Ok (match leading_integer s with
          | Some n => Int n
          | None => NaN
          end))
  /\ (forall (z : Z) (unit_text : string),
         (Z.abs z < 10 ^ 4300)%Z ->
         parse_duration (Str (PyStr.str_of_int z ++ String " " unit_text)) = Ok (Int z))
  /\ (PyStr.contains "min" "90 min" = true /\ parse_duration (Str "90 min") = Ok (Int 90))
  /\ (PyStr.contains "min" "2 Seasons" = false /\ parse_duration (Str "2 Seasons") = Ok (Int 2))
  /\ parse_duration (Str "Season") = Ok NaN
  /\ parse_duration (Str "") = Ok NaN
  /\ parse_duration NaN = Ok NaN
  /\ (forall z : Z, (Z.abs z < 10 ^ 4300)%Z -> parse_duration (Int z) = Ok (Int z)).
Proof.
  split; [exact parse_duration_text|].
  split.
  { intros z u Hz. rewrite parse_duration_text. unfold leading_integer.
    rewrite (Numerals.leading_token_app _ u (Numerals.no_space_str_of_int z)
               (Numerals.str_of_int_nonempty z)).
    now rewrite Numerals.int_of_str. }
  repeat split; try reflexivity. exact parse_duration_int.
Qed.

Lemma parse_duration_leading_integer_witness :
  (Z.abs 120 < 10 ^ 4300)%Z
  /\ parse_duration (Str "120 min") = Ok (Int 120).
Proof.
  split; [reflexivity|].
  exact (proj1 (proj2 parse_duration_leading_integer) 120%Z "min" eq_refl).
Defined.

(** C10.  When the leading token of a duration text is an integer, the
    parsed duration is that integer whether the text holds "min" or not:
    the minutes branch and the seasons branch return the same value. *)
Theorem duration_unit_irrelevant (s : string) (n : Z) :
  leading_integer s = Some n ->
  parse_duration (Str s) = Ok (Int n)
  /\ minutes_branch (PyStr.strip s) = Ok (Int n)
  /\ seasons_branch (PyStr.strip s) = Ok (Int n)
  /\ (forall s' : string, minutes_branch s' = seasons_branch s').
Proof.
  intros H. rewrite parse_duration_text, minutes_branch_leading, seasons_branch_leading, H.
  repeat split.
Qed.

Lemma duration_unit_irrelevant_witness :
  leading_integer "90 min" = Some 90%Z
  /\ leading_integer "90 Seasons" = Some 90%Z
  /\ parse_duration (Str "90 min") = Ok (Int 90)
  /\ parse_duration (Str "90 Seasons") = Ok (Int 90).
Proof.
  split; [reflexivity|]. split; [reflexivity|]. split.
  - exact (proj1 (duration_unit_irrelevant "90 min" 90 eq_refl)).
  - exact (proj1 (duration_unit_irrelevant "90 Seasons" 90 eq_refl)).
Defined.

(* ================================================================== *)
(** * Facts about frames *)

Lemma mapM_pure {A B : Type} (f : A -> result B) (g : A -> B) (l : list A) :
  (forall x, f x = Ok (g x)) -> mapM f l = Ok (map g l).
Proof.
  intros H. induction l as [|x l IH]; simpl; [reflexivity|].
  now rewrite H, IH.
Qed.

Lemma lookup_replace (k k' : string) (v : Series) (cols : list (string * Series)) :
  lookup k' (replace_column k v cols) =
  if String.eqb k' k then Some v else lookup k' cols.
Proof.
  induction cols as [|[k0 v0] cols IH]; simpl.
  - destruct (String.eqb k' k); reflexivity.
  - destruct (String.eqb_spec k k0) as [->|Hk]; simpl.
    + destruct (String.eqb k' k0); reflexivity.
    + rewrite IH. destruct (String.eqb_spec k' k0) as [->|Hk'].
      * destruct (String.eqb_spec k0 k); [congruence|reflexivity].
      * reflexivity.
Qed.

Lemma view_setitem (df : DataFrame) (k : string) (v : Series) (k' : string) :
  view_of (setitem df k v) k' = set_view k v (view_of df) k'.
Proof. apply lookup_replace. Qed.

Lemma has_column_some (df : DataFrame) (k : string) (s : Series) :
  view_of df k = Some s -> has_column df k = true /\ getitem df k = Ok s.
Proof. unfold view_of, has_column, getitem. intros ->. now split. Qed.

Lemma has_column_none (df : DataFrame) (k : string) :
  view_of df k = None -> has_column df k = false.
Proof. unfold view_of, has_column. now intros ->. Qed.

Lemma set_view_ext (k : string) (v : Series) (c c' : view) :
  (forall x, c x = c' x) -> forall x, set_view k v c x = set_view k v c' x.
Proof. intros H x. unfold set_view. now rewrite H. Qed.

Lemma set_view_same (k : string) (v : Series) (c : view) : set_view k v c k = Some v.
Proof. unfold set_view. now rewrite String.eqb_refl. Qed.

(** ** The lambdas of [clean_data] never raise *)

Lemma genres_of_cell (x : cell) : genres_of x = Ok (genres_cell x).
Proof. reflexivity. Qed.

Lemma parse_duration_cell (x : cell) : parse_duration x = Ok (duration_cell x).
Proof.
  destruct x as [|s|z|d|l]; try reflexivity.
  - apply parse_duration_text.
  - exact (parse_duration_text (py_str (Int z))).
  - exact (parse_duration_text (py_str (Date d))).
  - exact (parse_duration_text (py_str (Seq l))).
Qed.

Lemma primary_country_of_cell (x : cell) : primary_country_of x = Ok (country_cell x).
Proof.
  unfold primary_country_of, country_cell, notna.
  destruct (isna x); simpl; [reflexivity|].
  destruct (cell_eqb x (Str "Unknown")); simpl; [reflexivity|].
  now rewrite StrFacts.index0_split.
Qed.

Section CleanFacts.

Variable parse_date : Series -> cell -> option date.

Lemma to_datetime_cells (s : Series) :
  forallb datetime_cell (to_datetime parse_date s) = true.
Proof.
  unfold to_datetime. generalize s at 1. intros s0.
  induction s as [|x s IH]; simpl; [reflexivity|].
  rewrite IH, andb_true_r.
  destruct (isna x); [reflexivity|]. destruct (parse_date s0 x); reflexivity.
Qed.

Lemma dt_year_to_datetime (s : Series) :
  dt_year (to_datetime parse_date s) = Ok (map year_of (to_datetime parse_date s)).
Proof. unfold dt_year. now rewrite to_datetime_cells. Qed.

Lemma parse_dates_view (df : DataFrame) (c : view) :
  (forall k, view_of df k = c k) ->
  block_ok df (parse_dates parse_date df) (dates_view parse_date (nrows df) c).
Proof.
  intros H. unfold parse_dates, dates_view, block_ok. rewrite <- (H "date_added").
  destruct (view_of df "date_added") as [s|] eqn:E.
  - destruct (has_column_some _ _ _ E) as [-> ->]. cbn [bind].
    set (df1 := setitem df "date_added" (to_datetime parse_date s)).
    assert (view_of df1 "date_added" = Some (to_datetime parse_date s)) as E1
        by (unfold df1; rewrite view_setitem; apply set_view_same).
    destruct (has_column_some _ _ _ E1) as [_ ->]. cbn [bind].
    rewrite dt_year_to_datetime. cbn [bind].
    eexists. split; [reflexivity|]. split; [reflexivity|].
    intros k. rewrite view_setitem. apply set_view_ext. intros k'.
    unfold df1. rewrite view_setitem. now apply set_view_ext.
  - rewrite (has_column_none _ _ E).
    eexists. split; [reflexivity|]. split; [reflexivity|].
    intros k. unfold setitem_scalar. rewrite view_setitem. now apply set_view_ext.
Qed.

Lemma fill_unknown_view (df : DataFrame) (col : string) (c : view) :
  (forall k, view_of df k = c k) ->
  block_ok df (fill_unknown df col) (fill_view col c).
Proof.
  intros H. unfold fill_unknown, fill_view, block_ok. rewrite <- (H col).
  destruct (view_of df col) as [s|] eqn:E.
  - destruct (has_column_some _ _ _ E) as [-> ->]. cbn [bind].
    eexists. split; [reflexivity|]. split; [reflexivity|].
    intros k. rewrite view_setitem. now apply set_view_ext.
  - rewrite (has_column_none _ _ E). eauto.
Qed.

Lemma fill_missing_view (df : DataFrame) (c : view) :
  (forall k, view_of df k = c k) ->
  block_ok df (fill_missing df) (missing_view c).
Proof.
  intros H. unfold fill_missing, missing_view. cbn [for_each].
  destruct (fill_unknown_view df "director" c H) as (d1 & -> & N1 & H1). cbn [bind].
  destruct (fill_unknown_view d1 "cast" _ H1) as (d2 & -> & N2 & H2). cbn [bind].
  destruct (fill_unknown_view d2 "country" _ H2) as (d3 & -> & N3 & H3). cbn [bind].
  destruct (fill_unknown_view d3 "rating" _ H3) as (d4 & -> & N4 & H4). cbn [bind].
  exists d4. split; [reflexivity|]. split; [congruence|exact H4].
Qed.

Lemma normalize_type_view (df : DataFrame) (c : view) :
  (forall k, view_of df k = c k) ->
  match c "type" with
  | Some s => str_accessor s = Ok s
  | None => True
  end ->
  block_ok df (normalize_type df) (type_view c).
Proof.
  intros H Ht. unfold normalize_type, type_view, block_ok.
  rewrite <- (H "type") in *.
  destruct (view_of df "type") as [s|] eqn:E.
  - destruct (has_column_some _ _ _ E) as [-> ->]. cbn [bind].
    unfold str_strip. rewrite Ht. cbn [bind].
    eexists. split; [reflexivity|]. split; [reflexivity|].
    intros k. rewrite view_setitem. now apply set_view_ext.
  - rewrite (has_column_none _ _ E). eauto.
Qed.

Lemma split_listed_in_view (df : DataFrame) (c : view) :
  (forall k, view_of df k = c k) ->
  block_ok df (split_listed_in df) (genres_view (nrows df) c).
Proof.
  intros H. unfold split_listed_in, genres_view, block_ok. rewrite <- (H "listed_in").
  destruct (view_of df "listed_in") as [s|] eqn:E.
  - destruct (has_column_some _ _ _ E) as [-> ->]. cbn [bind].
    set (df1 := setitem df "listed_in" (fillna (Str "Unknown") s)).
    assert (view_of df1 "listed_in" = Some (fillna (Str "Unknown") s)) as E1
        by (unfold df1; rewrite view_setitem; apply set_view_same).
    destruct (has_column_some _ _ _ E1) as [_ ->]. cbn [bind].
    unfold apply. rewrite (mapM_pure _ _ _ genres_of_cell). cbn [bind].
    eexists. split; [reflexivity|]. split; [reflexivity|].
    intros k. rewrite view_setitem. apply set_view_ext. intros k'.
    unfold df1. rewrite view_setitem. now apply set_view_ext.
  - rewrite (has_column_none _ _ E).
    eexists. split; [reflexivity|]. split; [reflexivity|].
    intros k. rewrite view_setitem. now apply set_view_ext.
Qed.

Lemma parse_durations_view (df : DataFrame) (c : view) :
  (forall k, view_of df k = c k) ->
  block_ok df (parse_durations df) (durations_view (nrows df) c).
Proof.
  intros H. unfold parse_durations, durations_view, block_ok. rewrite <- (H "duration").
  destruct (view_of df "duration") as [s|] eqn:E.
  - destruct (has_column_some _ _ _ E) as [-> ->]. cbn [bind].
    unfold apply. rewrite (mapM_pure _ _ _ parse_duration_cell). cbn [bind].
    eexists. split; [reflexivity|]. split; [reflexivity|].
    intros k. rewrite view_setitem. now apply set_view_ext.
  - rewrite (has_column_none _ _ E).
    eexists. split; [reflexivity|]. split; [reflexivity|].
    intros k. unfold setitem_scalar. rewrite view_setitem. now apply set_view_ext.
Qed.

Lemma clean_country_view (df : DataFrame) (c : view) :
  (forall k, view_of df k = c k) ->
  block_ok df (clean_country df) (country_view (nrows df) c).
Proof.
  intros H. unfold clean_country, country_view, block_ok. rewrite <- (H "country").
  destruct (view_of df "country") as [s|] eqn:E.
  - destruct (has_column_some _ _ _ E) as [-> ->]. cbn [bind].
    unfold apply. rewrite (mapM_pure _ _ _ primary_country_of_cell). cbn [bind].
    eexists. split; [reflexivity|]. split; [reflexivity|].
    intros k. rewrite view_setitem. now apply set_view_ext.
  - rewrite (has_column_none _ _ E).
    eexists. split; [reflexivity|]. split; [reflexivity|].
    intros k. unfold setitem_scalar. rewrite view_setitem. now apply set_view_ext.
Qed.

End CleanFacts.

(** ** The views away from the columns a block writes *)

Section ViewFacts.

Variable parse_date : Series -> cell -> option date.

Lemma set_view_other (k k' : string) (v : Series) (c : view) :
  String.eqb k' k = false -> set_view k v c k' = c k'.
Proof. unfold set_view. now intros ->. Qed.

Lemma dates_view_other (n : nat) (c : view) (k : string) :
  String.eqb k "date_added" = false -> String.eqb k "year_added" = false ->
  dates_view parse_date n c k = c k.
Proof.
  intros H1 H2. unfold dates_view.
  destruct (c "date_added"); now rewrite ?set_view_other.
Qed.

Lemma fill_view_other (col : string) (c : view) (k : string) :
  String.eqb k col = false -> fill_view col c k = c k.
Proof. intros H. unfold fill_view. destruct (c col); now rewrite ?set_view_other. Qed.

Lemma fill_view_same (col : string) (c : view) :
  fill_view col c col = option_map (fillna (Str "Unknown")) (c col).
Proof.
  unfold fill_view. destruct (c col) eqn:E; simpl; [apply set_view_same|exact E].
Qed.

Lemma missing_view_other (c : view) (k : string) :
  existsb (String.eqb k) ["director"; "cast"; "country"; "rating"] = false ->
  missing_view c k = c k.
Proof.
  cbn [existsb]. intros H.
  apply orb_false_elim in H as [H1 H]. apply orb_false_elim in H as [H2 H].
  apply orb_false_elim in H as [H3 H]. apply orb_false_elim in H as [H4 _].
  unfold missing_view. now rewrite !fill_view_other.
Qed.

Lemma type_view_other (c : view) (k : string) :
  String.eqb k "type" = false -> type_view c k = c k.
Proof. intros H. unfold type_view. destruct (c "type"); now rewrite ?set_view_other. Qed.

Lemma genres_view_other (n : nat) (c : view) (k : string) :
  String.eqb k "genres_list" = false -> String.eqb k "listed_in" = false ->
  genres_view n c k = c k.
Proof.
  intros H1 H2. unfold genres_view.
  destruct (c "listed_in"); now rewrite ?set_view_other.
Qed.

Lemma durations_view_other (n : nat) (c : view) (k : string) :
  String.eqb k "duration_parsed" = false -> durations_view n c k = c k.
Proof.
  intros H. unfold durations_view. destruct (c "duration"); now rewrite ?set_view_other.
Qed.

Lemma country_view_other (n : nat) (c : view) (k : string) :
  String.eqb k "primary_country" = false -> country_view n c k = c k.
Proof.
  intros H. unfold country_view. destruct (c "country"); now rewrite ?set_view_other.
Qed.

(** [clean_data] returns when the [type] column is text, and its
    columns are those of [clean_view]. *)
Lemma clean_data_view (df : DataFrame) :
  type_is_text df = true ->
  block_ok df (clean_data parse_date df) (clean_view parse_date df).
Proof.
  intros Ht. unfold clean_data, clean_view.
  set (df0 := rename_columns PyStr.strip df).
  assert (forall k, view_of df0 k = column df k) as H0 by reflexivity.
  change (nrows df) with (nrows df0).
  destruct (parse_dates_view parse_date df0 _ H0) as (d1 & -> & N1 & H1). cbn [bind].
  destruct (fill_missing_view d1 _ H1) as (d2 & -> & N2 & H2). cbn [bind].
  destruct (normalize_type_view d2 _ H2) as (d3 & -> & N3 & H3).
  { rewrite missing_view_other, dates_view_other by reflexivity.
    unfold type_is_text in Ht. destruct (column df "type") as [s|]; [|exact I].
    unfold str_accessor in *. destruct s as [|x s]; [reflexivity|].
    destruct (forallb numeric_cell (x :: s) || forallb datetime_cell (x :: s));
      [discriminate|reflexivity]. }
  cbn [bind].
  destruct (split_listed_in_view d3 _ H3) as (d4 & -> & N4 & H4). cbn [bind].
  destruct (parse_durations_view d4 _ H4) as (d5 & -> & N5 & H5). cbn [bind].
  destruct (clean_country_view d5 _ H5) as (d6 & -> & N6 & H6). cbn [bind].
  assert (nrows df0 = nrows df) as N0 by reflexivity.
  exists d6. split; [reflexivity|]. split; [congruence|].
  intros k. rewrite H6.
  replace (nrows d5) with (nrows df0) by congruence.
  replace (nrows d4) with (nrows df0) by congruence.
  replace (nrows d3) with (nrows df0) by congruence.
  reflexivity.
Qed.

(** [clean_data] raises when the [type] column is not text. *)
Lemma clean_data_raises (df : DataFrame) :
  type_is_text df = false -> clean_data parse_date df = Raise AttributeError.
Proof.
  intros Ht. unfold clean_data.
  set (df0 := rename_columns PyStr.strip df).
  assert (forall k, view_of df0 k = column df k) as H0 by reflexivity.
  destruct (parse_dates_view parse_date df0 _ H0) as (d1 & -> & N1 & H1). cbn [bind].
  destruct (fill_missing_view d1 _ H1) as (d2 & -> & N2 & H2). cbn [bind].
  pose proof (H2 "type") as E.
  rewrite missing_view_other, dates_view_other in E by reflexivity.
  unfold type_is_text in Ht. destruct (column df "type") as [s|]; [|discriminate].
  unfold normalize_type. destruct (has_column_some _ _ _ E) as [-> ->]. cbn [bind].
  unfold str_strip, str_accessor in *. destruct s as [|x s]; [discriminate|].
  destruct (forallb numeric_cell (x :: s) || forallb datetime_cell (x :: s));
    [reflexivity|discriminate].
Qed.

End ViewFacts.

(* ================================================================== *)
(** * The derived fields *)

Section DerivedFields.

Variable parse_date : Series -> cell -> option date.

Lemma clean_view_genres (df : DataFrame) :
  clean_view parse_date df "genres_list" =
  Some (match column df "listed_in" with
        | Some s => map genres_cell (fillna (Str "Unknown") s)
        | None => repeat (Seq []) (nrows df)
        end).
Proof.
  unfold clean_view.
  rewrite country_view_other, durations_view_other by reflexivity.
  unfold genres_view.
  rewrite type_view_other, missing_view_other, dates_view_other by reflexivity.
  destruct (column df "listed_in"); apply set_view_same.
Qed.

Lemma clean_view_country (df : DataFrame) :
  clean_view parse_date df "primary_country" =
  Some (match column df "country" with
        | Some s => map country_cell (fillna (Str "Unknown") s)
        | None => repeat (Str "Unknown") (nrows df)
        end).
Proof.
  unfold clean_view, country_view.
  rewrite durations_view_other, genres_view_other, type_view_other by reflexivity.
  unfold missing_view.
  rewrite fill_view_other, fill_view_same by reflexivity.
  rewrite !fill_view_other, dates_view_other by reflexivity.
  destruct (column df "country"); apply set_view_same.
Qed.

Lemma clean_view_year (df : DataFrame) :
  clean_view parse_date df "year_added" =
  Some (match column df "date_added" with
        | Some s => map year_of (to_datetime parse_date s)
        | None => repeat NaN (nrows df)
        end).
Proof.
  unfold clean_view.
  rewrite country_view_other, durations_view_other, genres_view_other,
    type_view_other, missing_view_other by reflexivity.
  unfold dates_view. destruct (column df "date_added"); apply set_view_same.
Qed.

Lemma country_cell_fill (x : cell) : country_cell (fill_cell x) = country_cell x.
Proof. destruct x; reflexivity. Qed.

Lemma nth_error_fillna (s : Series) (i : nat) (x : cell) :
  nth_error s i = Some x ->
  nth_error (fillna (Str "Unknown") s) i = Some (fill_cell x).
Proof. intros H. unfold fillna. rewrite nth_error_map, H. reflexivity. Qed.

(** C5.  For a frame as read from a file whose [type] column, if any,
    is text, [clean_data] returns, and: when the frame has a
    [listed_in] column, the [genres_list] of every row is the
    comma-split of its [listed_in] text with each token trimmed
    ("Dramas, International Movies" gives the two genres), and a row
    whose [listed_in] is missing gets the one-element sequence
    ["Unknown"]; when the frame has no [listed_in] column, the
    [genres_list] of every row is the empty sequence. *)
Theorem genres_list_split (df : DataFrame) :
  well_formed df = true -> type_is_text df = true ->
  exists out,
    clean_data parse_date df = Ok out
    /\ nrows out = nrows df
    /\ match column df "listed_in" with
       | Some s =>
           exists g,
             lookup "genres_list" (columns out) = Some g
             /\ length g = length s
             /\ (forall i t, nth_error s i = Some (Str t) ->
                   nth_error g i = Some (Seq (map PyStr.strip (PyStr.split "," t))))
             /\ (forall i, nth_error s i = Some NaN ->
                   nth_error g i = Some (Seq ["Unknown"]))
             /\ (forall i x, nth_error s i = Some x ->
                   nth_error g i =
                   Some (Seq (map PyStr.strip (PyStr.split "," (py_str (fill_cell x))))))
       | None =>
           lookup "genres_list" (columns out) = Some (repeat (Seq []) (nrows df))
           /\ (forall i, i < nrows df ->
                 exists g, lookup "genres_list" (columns out) = Some g
                           /\ nth_error g i = Some (Seq []))
       end
    /\ genres_of (Str "Dramas, International Movies")
       = Ok (Seq ["Dramas"; "International Movies"]).
Proof.
  intros _ Ht.
  destruct (clean_data_view parse_date df Ht) as (out & E & N & H).
  exists out. split; [exact E|]. split; [exact N|]. split; [|reflexivity].
  pose proof (H "genres_list") as G. rewrite clean_view_genres in G.
  unfold view_of in G.
  destruct (column df "listed_in") as [s|].
  - eexists. split; [exact G|]. split.
    { unfold fillna. now rewrite !length_map. }
    assert (forall i x, nth_error s i = Some x ->
              nth_error (map genres_cell (fillna (Str "Unknown") s)) i
              = Some (genres_cell (fill_cell x))) as K.
    { intros i x Hx. rewrite nth_error_map, (nth_error_fillna _ _ _ Hx). reflexivity. }
    split; [|split].
    + intros i t Hx. exact (K i _ Hx).
    + intros i Hx. exact (K i _ Hx).
    + intros i x Hx. exact (K i _ Hx).
  - split; [exact G|]. intros i Hi.
    eexists. split; [exact G|].
    rewrite nth_error_repeat by exact Hi. reflexivity.
Qed.

(** C6.  For a frame as read from a file whose [type] column, if any,
    is text, [clean_data] returns, and: when the frame has a [country]
    column, the [primary_country] of every row is "Unknown" if its
    [country] is missing or is the sentinel "Unknown", and otherwise
    the text of [country] before the first comma, trimmed ("Canada,
    United States" gives "Canada"); when the frame has no [country]
    column, the [primary_country] of every row is "Unknown". *)
Theorem primary_country_first (df : DataFrame) :
  well_formed df = true -> type_is_text df = true ->
  exists out,
    clean_data parse_date df = Ok out
    /\ nrows out = nrows df
    /\ match column df "country" with
       | Some s =>
           exists p,
             lookup "primary_country" (columns out) = Some p
             /\ length p = length s
             /\ (forall i x, nth_error s i = Some x ->
                   nth_error p i =
                   Some (if isna x || cell_eqb x (Str "Unknown")
                         then Str "Unknown"
                         else Str (PyStr.strip (before_comma (py_str x)))))
       | None =>
           lookup "primary_country" (columns out)
           = Some (repeat (Str "Unknown") (nrows df))
           /\ (forall i, i < nrows df ->
                 exists p, lookup "primary_country" (columns out) = Some p
                           /\ nth_error p i = Some (Str "Unknown"))
       end
    /\ primary_country_of (Str "Canada, United States") = Ok (Str "Canada").
Proof.
  intros _ Ht.
  destruct (clean_data_view parse_date df Ht) as (out & E & N & H).
  exists out. split; [exact E|]. split; [exact N|]. split; [|reflexivity].
  pose proof (H "primary_country") as G. rewrite clean_view_country in G.
  unfold view_of in G.
  destruct (column df "country") as [s|].
  - eexists. split; [exact G|]. split.
    { unfold fillna. now rewrite !length_map. }
    intros i x Hx.
    rewrite nth_error_map, (nth_error_fillna _ _ _ Hx). cbn [option_map].
    rewrite country_cell_fill. reflexivity.
  - split; [exact G|]. intros i Hi.
    eexists. split; [exact G|].
    rewrite nth_error_repeat by exact Hi. reflexivity.
Qed.

End DerivedFields.

(* ================================================================== *)
(** * The frame of [clean_data] *)

Lemma column_length (df : DataFrame) (k : string) (s : Series) :
  well_formed df = true -> column df k = Some s -> length s = nrows df.
Proof.
  unfold well_formed, column, rename_columns. cbn [columns].
  intros H. apply andb_prop in H as [_ H]. revert H.
  induction (columns df) as [|[k0 s0] cols IH]; simpl; [discriminate|].
  intros H. apply andb_prop in H as [H0 H]. apply andb_prop in H0 as [H0 _].
  destruct (String.eqb k (PyStr.strip k0)).
  - intros [= <-]. now apply Nat.eqb_eq.
  - now apply IH.
Qed.

Section Frame.

Variable parse_date : Series -> cell -> option date.

Lemma clean_view_duration (df : DataFrame) :
  clean_view parse_date df "duration_parsed" =
  Some (match column df "duration" with
        | Some s => map duration_cell s
        | None => repeat NaN (nrows df)
        end).
Proof.
  unfold clean_view.
  rewrite country_view_other by reflexivity. unfold durations_view.
  rewrite genres_view_other, type_view_other, missing_view_other, dates_view_other
    by reflexivity.
  destruct (column df "duration"); apply set_view_same.
Qed.

Lemma to_datetime_normalized (s : Series) :
  to_datetime parse_date s = map (normalized_cell parse_date "date_added" s) s.
Proof. reflexivity. Qed.

Lemma fillna_normalized (k : string) (s : Series) :
  String.eqb k "date_added" = false ->
  existsb (String.eqb k) ["director"; "cast"; "country"; "rating"; "listed_in"] = true ->
  fillna (Str "Unknown") s = map (normalized_cell parse_date k s) s.
Proof.
  intros H1 H2. unfold fillna. apply map_ext. intros x.
  unfold normalized_cell. now rewrite H1, H2.
Qed.

(** The columns of [clean_data df] that are not derived fields. *)
Lemma clean_view_original (df : DataFrame) (k : string) :
  is_derived k = false ->
  clean_view parse_date df k =
  match column df k with
  | Some s => Some (map (normalized_cell parse_date k s) s)
  | None => None
  end.
Proof.
  intros Hd. unfold is_derived, derived_fields in Hd. cbn [existsb] in Hd.
  apply orb_false_elim in Hd as [D1 Hd]. apply orb_false_elim in Hd as [D2 Hd].
  apply orb_false_elim in Hd as [D3 Hd]. apply orb_false_elim in Hd as [D4 _].
  unfold clean_view.
  rewrite country_view_other, durations_view_other by assumption.
  destruct (String.eqb_spec k "listed_in") as [->|N1].
  { unfold genres_view.
    rewrite type_view_other, missing_view_other, dates_view_other by reflexivity.
    destruct (column df "listed_in") as [s|] eqn:E.
    - rewrite set_view_other by reflexivity. rewrite set_view_same.
      now rewrite <- fillna_normalized.
    - rewrite set_view_other by reflexivity.
      now rewrite type_view_other, missing_view_other, dates_view_other by reflexivity. }
  apply String.eqb_neq in N1. rewrite genres_view_other by assumption.
  destruct (String.eqb_spec k "type") as [->|N2].
  { unfold type_view. rewrite missing_view_other, dates_view_other by reflexivity.
    destruct (column df "type") as [s|] eqn:E.
    - rewrite set_view_same. reflexivity.
    - now rewrite missing_view_other, dates_view_other by reflexivity. }
  apply String.eqb_neq in N2. rewrite type_view_other by assumption.
  unfold missing_view.
  destruct (String.eqb_spec k "rating") as [->|N3].
  { rewrite fill_view_same, !fill_view_other, dates_view_other by reflexivity.
    destruct (column df "rating"); simpl; [|reflexivity].
    now rewrite <- fillna_normalized. }
  apply String.eqb_neq in N3. rewrite (fill_view_other "rating") by assumption.
  destruct (String.eqb_spec k "country") as [->|N4].
  { rewrite fill_view_same, !fill_view_other, dates_view_other by reflexivity.
    destruct (column df "country"); simpl; [|reflexivity].
    now rewrite <- fillna_normalized. }
  apply String.eqb_neq in N4. rewrite (fill_view_other "country") by assumption.
  destruct (String.eqb_spec k "cast") as [->|N5].
  { rewrite fill_view_same, !fill_view_other, dates_view_other by reflexivity.
    destruct (column df "cast"); simpl; [|reflexivity].
    now rewrite <- fillna_normalized. }
  apply String.eqb_neq in N5. rewrite (fill_view_other "cast") by assumption.
  destruct (String.eqb_spec k "director") as [->|N6].
  { rewrite fill_view_same, dates_view_other by reflexivity.
    destruct (column df "director"); simpl; [|reflexivity].
    now rewrite <- fillna_normalized. }
  apply String.eqb_neq in N6. rewrite (fill_view_other "director") by assumption.
  unfold dates_view.
  destruct (String.eqb_spec k "date_added") as [->|N7].
  { destruct (column df "date_added") as [s|] eqn:E.
    - rewrite set_view_other by reflexivity. rewrite set_view_same. reflexivity.
    - rewrite set_view_other by reflexivity. exact E. }
  apply String.eqb_neq in N7.
  assert (column df k
          = match column df k with
            | Some s => Some (map (normalized_cell parse_date k s) s)
            | None => None
            end) as K.
  { destruct (column df k) as [s|]; [|reflexivity]. f_equal.
    rewrite <- (map_id s) at 1. apply map_ext. intros x.
    unfold normalized_cell. cbn [existsb].
    now rewrite N7, N6, N5, N4, N3, N1, N2. }
  destruct (column df "date_added"); rewrite ?set_view_other by assumption; exact K.
Qed.

Lemma clean_view_derived (df : DataFrame) (k : string) :
  well_formed df = true -> is_derived k = true ->
  exists s, clean_view parse_date df k = Some s /\ length s = nrows df.
Proof.
  intros W Hd. unfold is_derived, derived_fields in Hd. cbn [existsb] in Hd.
  pose proof (column_length df) as L.
  destruct (String.eqb_spec k "year_added") as [->|_].
  { rewrite clean_view_year. eexists. split; [reflexivity|].
    destruct (column df "date_added") as [s|] eqn:E.
    - unfold to_datetime. rewrite !length_map. now apply (L "date_added").
    - apply repeat_length. }
  destruct (String.eqb_spec k "genres_list") as [->|_].
  { rewrite clean_view_genres. eexists. split; [reflexivity|].
    destruct (column df "listed_in") as [s|] eqn:E.
    - unfold fillna. rewrite !length_map. now apply (L "listed_in").
    - apply repeat_length. }
  destruct (String.eqb_spec k "duration_parsed") as [->|_].
  { rewrite clean_view_duration. eexists. split; [reflexivity|].
    destruct (column df "duration") as [s|] eqn:E.
    - rewrite length_map. now apply (L "duration").
    - apply repeat_length. }
  destruct (String.eqb_spec k "primary_country") as [->|_].
  { rewrite clean_view_country. eexists. split; [reflexivity|].
    destruct (column df "country") as [s|] eqn:E.
    - unfold fillna. rewrite !length_map. now apply (L "country").
    - apply repeat_length. }
  discriminate.
Qed.

(** C9, amended.  For a frame as read from a file whose [type]
    column, if any, is text, [clean_data] returns a frame with the same
    number of rows, every column of which has one cell per row; the
    four derived fields are columns of it; a label that is neither a
    derived field nor a column of the input is not a column of it; and
    every column of the input whose trimmed label is not the name of a
    derived field is there with, row by row in the same order, its
    named normalization (date parsing for [date_added], sentinel fill
    for [director], [cast], [country], [rating] and [listed_in],
    trimming for [type]) and otherwise the same cell. *)
Theorem clean_data_keeps_rows (df : DataFrame) :
  well_formed df = true -> type_is_text df = true ->
  exists out,
    clean_data parse_date df = Ok out
    /\ nrows out = nrows df
    /\ (forall k s, lookup k (columns out) = Some s -> length s = nrows df)
    /\ (forall k, is_derived k = true -> exists s, lookup k (columns out) = Some s)
    /\ (forall k, is_derived k = false -> column df k = None ->
          lookup k (columns out) = None)
    /\ (forall k s, is_derived k = false -> column df k = Some s ->
          exists s',
            lookup k (columns out) = Some s'
            /\ length s' = length s
            /\ forall i x, nth_error s i = Some x ->
                 nth_error s' i = Some (normalized_cell parse_date k s x))
    /\ (forall k s x,
          String.eqb k "date_added" = false -> String.eqb k "type" = false ->
          existsb (String.eqb k) ["director"; "cast"; "country"; "rating"; "listed_in"]
          = false ->
          normalized_cell parse_date k s x = x).
Proof.
  intros W Ht.
  destruct (clean_data_view parse_date df Ht) as (out & E & N & H).
  unfold view_of in H.
  exists out. split; [exact E|]. split; [exact N|].
  split; [|split; [|split; [|split]]].
  - intros k s Hs. rewrite H in Hs.
    destruct (is_derived k) eqn:Hd.
    + destruct (clean_view_derived df k W Hd) as (s' & Hs' & L). congruence.
    + rewrite (clean_view_original df k Hd) in Hs.
      destruct (column df k) as [s0|] eqn:E0; [|discriminate].
      injection Hs as <-. rewrite length_map. exact (column_length df k s0 W E0).
  - intros k Hd. destruct (clean_view_derived df k W Hd) as (s & Hs & _).
    exists s. now rewrite H.
  - intros k Hd E0. now rewrite H, (clean_view_original df k Hd), E0.
  - intros k s Hd E0. rewrite H, (clean_view_original df k Hd), E0.
    eexists. split; [reflexivity|]. split; [apply length_map|].
    intros i x Hx. now rewrite nth_error_map, Hx.
  - intros k s x H1 H2 H3. unfold normalized_cell. now rewrite H1, H3, H2.
Qed.

End Frame.

(* ================================================================== *)
(** * Facts about tallies *)

Section TallyFacts.

Context {K : Type} (eqb : K -> K -> bool).
Hypothesis eqb_spec : forall a b, reflect (a = b) (eqb a b).

Lemma count_of_incr (a k : K) (c : list (K * nat)) :
  count_of eqb a (incr eqb k c) =
  if eqb a k then S (count_of eqb a c) else count_of eqb a c.
Proof.
  induction c as [|[k0 n0] c IH]; simpl.
  - destruct (eqb a k); reflexivity.
  - destruct (eqb_spec k k0) as [->|Hk]; simpl.
    + destruct (eqb a k0); reflexivity.
    + rewrite IH. destruct (eqb_spec a k0) as [->|Ha]; [|reflexivity].
      destruct (eqb_spec k0 k); [congruence|reflexivity].
Qed.

Lemma count_of_fold (a : K) (l : list K) (c : list (K * nat)) :
  count_of eqb a (fold_left (fun c k => incr eqb k c) l c) =
  occurrences eqb a l + count_of eqb a c.
Proof.
  revert c. induction l as [|k l IH]; intros c; simpl; [reflexivity|].
  rewrite IH, count_of_incr. unfold occurrences. simpl.
  destruct (eqb a k); simpl; lia.
Qed.

(** The tally of a list counts the occurrences of each key. *)
Lemma count_of_tally (a : K) (l : list K) :
  count_of eqb a (tally eqb l) = occurrences eqb a l.
Proof. unfold tally. rewrite count_of_fold. simpl. lia. Qed.

Lemma incr_keys (k : K) (c : list (K * nat)) (x : K) :
  In x (map fst (incr eqb k c)) -> x = k \/ In x (map fst c).
Proof.
  induction c as [|[k0 n0] c IH]; simpl.
  - intros [<-|[]]. now left.
  - destruct (eqb_spec k k0) as [->|Hk]; simpl.
    + intros [<-|H]; auto.
    + intros [<-|H]; auto. destruct (IH H); auto.
Qed.

Lemma incr_ok (k : K) (c : list (K * nat)) : counter_ok c -> counter_ok (incr eqb k c).
Proof.
  intros [Hn Hp]. induction c as [|[k0 n0] c IH]; simpl.
  - split; repeat constructor. intros [].
  - inversion Hn as [|? ? Hk0 Hn']; subst. inversion Hp as [|? ? Hp0 Hp']; subst.
    destruct (eqb_spec k k0) as [->|Hk].
    + split; simpl; constructor; auto. simpl. lia.
    + destruct (IH Hn' Hp') as [IHn IHp].
      split; simpl; constructor; auto.
      intros H. destruct (incr_keys _ _ _ H); [congruence|contradiction].
Qed.

Lemma fold_ok (l : list K) (c : list (K * nat)) :
  counter_ok c -> counter_ok (fold_left (fun c k => incr eqb k c) l c).
Proof.
  revert c. induction l as [|k l IH]; intros c H; simpl; [exact H|].
  apply IH. now apply incr_ok.
Qed.

Lemma tally_ok (l : list K) : counter_ok (tally eqb l).
Proof. apply fold_ok. split; constructor. Qed.

Lemma count_of_absent (a : K) (c : list (K * nat)) :
  ~ In a (map fst c) -> count_of eqb a c = 0.
Proof.
  induction c as [|[k0 n0] c IH]; simpl; [reflexivity|].
  intros H. destruct (eqb_spec a k0) as [->|Ha]; [tauto|]. apply IH. tauto.
Qed.

(** The entries of a well-kept counter are its positive counts. *)
Lemma counter_entries (c : list (K * nat)) (a : K) (n : nat) :
  counter_ok c -> (In (a, n) c <-> n = count_of eqb a c /\ 0 < n).
Proof.
  intros [Hn Hp]. induction c as [|[k0 n0] c IH]; simpl.
  - split; [intros []|intros [-> H]; lia].
  - inversion Hn as [|? ? Hk0 Hn']; subst. inversion Hp as [|? ? Hp0 Hp']; subst.
    simpl in Hp0. specialize (IH Hn' Hp').
    destruct (eqb_spec a k0) as [->|Ha].
    + split.
      * intros [[= <-]|H]; [split; [reflexivity|exact Hp0]|].
        exfalso. apply Hk0. change k0 with (fst (k0, n)). now apply in_map.
      * intros [-> _]. now left.
    + split.
      * intros [[= <- <-]|H]; [congruence|]. now apply IH.
      * intros H. right. now apply IH.
Qed.

Lemma insert_desc_perm (x : K * nat) (l : list (K * nat)) :
  Permutation (insert_desc x l) (x :: l).
Proof.
  induction l as [|y l IH]; simpl; [reflexivity|].
  destruct (Nat.leb (snd y) (snd x)); [reflexivity|].
  rewrite IH. apply perm_swap.
Qed.

Lemma sort_desc_perm (l : list (K * nat)) : Permutation (sort_desc l) l.
Proof.
  induction l as [|x l IH]; simpl; [reflexivity|].
  rewrite insert_desc_perm. now constructor.
Qed.

End TallyFacts.

Lemma insert_index_perm (x : Z * nat) (l : list (Z * nat)) :
  Permutation (insert_index x l) (x :: l).
Proof.
  induction l as [|y l IH]; simpl; [reflexivity|].
  destruct (fst x <=? fst y)%Z; [reflexivity|].
  rewrite IH. apply perm_swap.
Qed.

Lemma sort_index_perm (l : list (Z * nat)) : Permutation (sort_index l) l.
Proof.
  induction l as [|x l IH]; simpl; [reflexivity|].
  rewrite insert_index_perm. now constructor.
Qed.

Lemma insert_index_sorted (x : Z * nat) (l : list (Z * nat)) :
  ~ In (fst x) (map fst l) ->
  StronglySorted Z.lt (map fst l) ->
  StronglySorted Z.lt (map fst (insert_index x l)).
Proof.
  induction l as [|y l IH]; simpl; intros Hx Hs.
  - repeat constructor.
  - inversion Hs as [|? ? Hs' Hy]; subst.
    destruct (Z.leb_spec (fst x) (fst y)) as [Hle|Hgt]; simpl.
    + assert (fst x < fst y)%Z as Hlt by (assert (fst y <> fst x) by tauto; lia).
      constructor; [exact Hs|]. constructor; [exact Hlt|].
      rewrite Forall_forall in *. intros z Hz. specialize (Hy z Hz). lia.
    + constructor; [apply IH; tauto|].
      rewrite Forall_forall in *. intros z Hz.
      apply (Permutation_in _ (Permutation_map fst (insert_index_perm x l))) in Hz.
      destruct Hz as [<-|Hz]; [lia|auto].
Qed.

(** Sorting a table with distinct keys by key gives strictly increasing
    keys. *)
Lemma sort_index_sorted (l : list (Z * nat)) :
  NoDup (map fst l) -> StronglySorted Z.lt (map fst (sort_index l)).
Proof.
  induction l as [|x l IH]; simpl; intros H; [constructor|].
  inversion H as [|? ? Hx Hn]; subst.
  apply insert_index_sorted; [|now apply IH].
  intros Hin. apply Hx.
  exact (Permutation_in _ (Permutation_map fst (sort_index_perm l)) Hin).
Qed.

(* ================================================================== *)
(** * The tally of actors *)

Lemma occurrences_app {K : Type} (eqb : K -> K -> bool) (a : K) (l l' : list K) :
  occurrences eqb a (l ++ l') = occurrences eqb a l + occurrences eqb a l'.
Proof. unfold occurrences. now rewrite filter_app, length_app. Qed.

Lemma actor_loop (l : list string) (c : list (string * nat)) :
  fold_left (fun counter actor =>
               if nonempty actor then incr String.eqb actor counter else counter) l c
  = fold_left (fun c k => incr String.eqb k c) (filter nonempty l) c.
Proof.
  revert c. induction l as [|x l IH]; intros c; simpl; [reflexivity|].
  rewrite IH. destruct (nonempty x); reflexivity.
Qed.

Lemma cast_loop (casts : list string) (c : list (string * nat)) :
  fold_left
    (fun counter x =>
       fold_left (fun counter actor =>
                    if nonempty actor then incr String.eqb actor counter else counter)
                 (first_five x) counter) casts c
  = fold_left (fun c k => incr String.eqb k c)
              (flat_map (fun x => filter nonempty (first_five x)) casts) c.
Proof.
  revert c. induction casts as [|x casts IH]; intros c; simpl; [reflexivity|].
  now rewrite IH, actor_loop, fold_left_app.
Qed.

(** The two loops build the tally of the counted names. *)
Lemma actor_counter_tally (cast : Series) :
  actor_counter cast = tally String.eqb (counted_names cast).
Proof. unfold actor_counter. now rewrite cast_loop. Qed.

Lemma counted_names_cons (x : cell) (cast : Series) :
  counted_names (x :: cast) = counted_names [x] ++ counted_names cast.
Proof.
  unfold counted_names, dropna. simpl. destruct (notna x); simpl; [|reflexivity].
  now rewrite app_nil_r.
Qed.

Lemma filter_all {A : Type} (f : A -> bool) (l : list A) :
  forallb f l = true -> filter f l = l.
Proof.
  induction l as [|x l IH]; simpl; [reflexivity|].
  intros H. apply andb_prop in H as [-> H]. now rewrite IH.
Qed.

Lemma In_firstn {A : Type} (n : nat) (l : list A) (x : A) :
  In x (firstn n l) -> In x l.
Proof.
  intros H. rewrite <- (firstn_skipn n l). apply in_or_app. now left.
Qed.

(** C7.  The tally of actors counts, for each name, its occurrences
    among the first five trimmed comma-separated entries of the records
    that have a cast; and a record whose cast is eight names (none empty
    once trimmed) separated by commas adds exactly its first five names
    to the tally, whatever the other records are. *)
Theorem actors_first_five (names : list string) (cast : Series) (a : string) :
  length names = 8 ->
  forallb (fun t => negb (has_comma t)) names = true ->
  forallb (fun t => nonempty (PyStr.strip t)) names = true ->
  count_of String.eqb a (actor_counter cast)
  = occurrences String.eqb a (counted_names cast)
  /\ counted_names [Str (PyStr.join "," names)] = map PyStr.strip (firstn 5 names)
  /\ actor_counter [Str (PyStr.join "," names)]
     = tally String.eqb (map PyStr.strip (firstn 5 names))
  /\ count_of String.eqb a (actor_counter (Str (PyStr.join "," names) :: cast))
     = occurrences String.eqb a (map PyStr.strip (firstn 5 names))
       + count_of String.eqb a (actor_counter cast).
Proof.
  intros Hlen Hc Hn.
  assert (counted_names [Str (PyStr.join "," names)] = map PyStr.strip (firstn 5 names)) as E.
  { unfold counted_names. cbn [dropna filter notna isna negb map py_str flat_map].
    rewrite app_nil_r, StrFacts.split_join; [|destruct names; [discriminate|congruence]|exact Hc].
    rewrite firstn_map. apply filter_all.
    rewrite forallb_forall in *. intros t Ht.
    apply in_map_iff in Ht as (t0 & <- & Ht0).
    apply Hn. now apply (In_firstn 5). }
  split; [|split; [exact E|split]].
  - rewrite actor_counter_tally. apply (count_of_tally String.eqb String.eqb_spec).
  - now rewrite actor_counter_tally, E.
  - rewrite !actor_counter_tally, counted_names_cons, E.
    rewrite !(count_of_tally String.eqb String.eqb_spec). apply occurrences_app.
Qed.

(* ================================================================== *)
(** * Equality of cells and dicts *)

Lemma strings_eqb_eq (a b : list string) : strings_eqb a b = true <-> a = b.
Proof.
  revert b. induction a as [|x a IH]; intros [|y b]; simpl; split;
    try discriminate; try reflexivity.
  - intros H. apply andb_prop in H as [H1 H2].
    apply String.eqb_eq in H1. apply IH in H2. congruence.
  - intros [= -> ->]. rewrite String.eqb_refl. now apply IH.
Qed.

Lemma date_eqb_eq (a b : date) : date_eqb a b = true <-> a = b.
Proof.
  destruct a as [y m d], b as [y' m' d']. unfold date_eqb. simpl. split.
  - intros H. apply andb_prop in H as [H H3]. apply andb_prop in H as [H1 H2].
    apply Z.eqb_eq in H1, H2, H3. congruence.
  - intros [= -> -> ->]. now rewrite !Z.eqb_refl.
Qed.

Lemma cell_eqb_eq (x y : cell) : cell_eqb x y = true <-> x = y.
Proof.
  destruct x, y; simpl; split; try discriminate; try reflexivity.
  - intros H. apply String.eqb_eq in H. congruence.
  - intros [= ->]. apply String.eqb_refl.
  - intros H. apply Z.eqb_eq in H. congruence.
  - intros [= ->]. apply Z.eqb_refl.
  - intros H. apply date_eqb_eq in H. congruence.
  - intros [= ->]. now apply date_eqb_eq.
  - intros H. apply strings_eqb_eq in H. congruence.
  - intros [= ->]. now apply strings_eqb_eq.
Qed.

Lemma cell_eqb_spec (x y : cell) : reflect (x = y) (cell_eqb x y).
Proof. apply iff_reflect. symmetry. apply cell_eqb_eq. Qed.

Lemma dict_get_set (k k' v : cell) (d : list (cell * cell)) :
  dict_get k (dict_set k' v d) = if cell_eqb k k' then Some v else dict_get k d.
Proof.
  induction d as [|[k0 v0] d IH]; simpl.
  - destruct (cell_eqb k k'); reflexivity.
  - destruct (cell_eqb_spec k' k0) as [->|Hk]; simpl.
    + destruct (cell_eqb k k0); reflexivity.
    + rewrite IH. destruct (cell_eqb_spec k k0) as [->|Hk0]; [|reflexivity].
      destruct (cell_eqb_spec k0 k'); [congruence|reflexivity].
Qed.

(* ================================================================== *)
(** * The yearly trend and the range of years *)

Lemma dropna_years (s : Series) :
  forallb year_cell s = true -> dropna s = map Int (present_years s).
Proof.
  induction s as [|x s IH]; simpl; [reflexivity|].
  intros H. apply andb_prop in H as [Hx Hs].
  destruct x; try discriminate; simpl; now rewrite IH.
Qed.

Lemma astype_int_years (l : list Z) : astype_int (map Int l) = Ok l.
Proof.
  unfold astype_int. induction l as [|z l IH]; simpl; [reflexivity|]. now rewrite IH.
Qed.

Lemma integers_years (l : list Z) : integers (map Int l) = Ok l.
Proof.
  unfold integers. induction l as [|z l IH]; simpl; [reflexivity|]. now rewrite IH.
Qed.

Lemma fold_min (l : list Z) (z : Z) :
  In (fold_left Z.min l z) (z :: l)
  /\ forall y, In y (z :: l) -> (fold_left Z.min l z <= y)%Z.
Proof.
  revert z. induction l as [|x l IH]; intros z; simpl.
  - split; [now left|]. intros y [<-|[]]. lia.
  - destruct (IH (Z.min z x)) as [Hin Hle]. split.
    + destruct Hin as [Hm|Hin]; [|now right; right].
      rewrite <- Hm. destruct (Z.min_spec z x) as [[_ ->]|[_ ->]]; auto.
    + intros y [Hy|[Hy|Hy]].
      * specialize (Hle (Z.min z x) (or_introl eq_refl)). lia.
      * specialize (Hle (Z.min z x) (or_introl eq_refl)). lia.
      * apply Hle. now right.
Qed.

Lemma fold_max (l : list Z) (z : Z) :
  In (fold_left Z.max l z) (z :: l)
  /\ forall y, In y (z :: l) -> (y <= fold_left Z.max l z)%Z.
Proof.
  revert z. induction l as [|x l IH]; intros z; simpl.
  - split; [now left|]. intros y [<-|[]]. lia.
  - destruct (IH (Z.max z x)) as [Hin Hle]. split.
    + destruct Hin as [Hm|Hin]; [|now right; right].
      rewrite <- Hm. destruct (Z.max_spec z x) as [[_ ->]|[_ ->]]; auto.
    + intros y [Hy|[Hy|Hy]].
      * specialize (Hle (Z.max z x) (or_introl eq_refl)). lia.
      * specialize (Hle (Z.max z x) (or_introl eq_refl)). lia.
      * apply Hle. now right.
Qed.

(** The series of the yearly trend: the tally of the present years,
    sorted by year. *)
Lemma yearly_series_years (s : Series) :
  forallb year_cell s = true ->
  yearly_series s = Ok (sort_index (value_counts_int (present_years s))).
Proof.
  intros H. unfold yearly_series.
  now rewrite (dropna_years s H), astype_int_years.
Qed.

Lemma yearly_series_entries (l : list Z) (y : Z) (n : nat) :
  In (y, n) (sort_index (value_counts_int l)) <->
  n = occurrences Z.eqb y l /\ 0 < n.
Proof.
  unfold value_counts_int.
  rewrite <- (count_of_tally Z.eqb Z.eqb_spec).
  rewrite <- (counter_entries Z.eqb Z.eqb_spec _ y n (tally_ok Z.eqb Z.eqb_spec l)).
  split; intros H.
  - apply (Permutation_in _ (sort_desc_perm _)).
    now apply (Permutation_in _ (sort_index_perm _)).
  - apply (Permutation_in _ (Permutation_sym (sort_index_perm _))).
    now apply (Permutation_in _ (Permutation_sym (sort_desc_perm _))).
Qed.

Lemma yearly_series_sorted (l : list Z) :
  StronglySorted Z.lt (map fst (sort_index (value_counts_int l))).
Proof.
  apply sort_index_sorted. unfold value_counts_int.
  apply (Permutation_NoDup (Permutation_sym (Permutation_map fst (sort_desc_perm _)))).
  apply (tally_ok Z.eqb Z.eqb_spec l).
Qed.

Lemma value_counts_nonempty (x : cell) (p : Series) :
  forallb notna (x :: p) = true -> value_counts (x :: p) <> [].
Proof.
  intros H E. unfold value_counts in E.
  assert (dropna (x :: p) = x :: p) as D by (apply filter_all; exact H).
  rewrite D in E.
  pose proof (count_of_tally cell_eqb cell_eqb_spec x (x :: p)) as C.
  unfold occurrences in C. simpl in C.
  destruct (cell_eqb_spec x x) as [_|N]; [|congruence]. simpl in C.
  pose proof (sort_desc_perm (tally cell_eqb (x :: p))) as P. rewrite E in P.
  apply Permutation_nil in P. rewrite P in C. simpl in C. lia.
Qed.

Lemma summary_years (df : DataFrame) (s p : Series) :
  view_of df "year_added" = Some s -> forallb year_cell s = true ->
  view_of df "primary_country" = Some p -> forallb notna p = true ->
  exists d,
    summary df = Ok d
    /\ match present_years s with
       | [] =>
           dict_get (Str "earliest_year_added") d = Some NaN
           /\ dict_get (Str "latest_year_added") d = Some NaN
       | z :: zs =>
           dict_get (Str "earliest_year_added") d = Some (Int (fold_left Z.min zs z))
           /\ dict_get (Str "latest_year_added") d = Some (Int (fold_left Z.max zs z))
       end.
Proof.
  intros Hs Ys Hp Np. unfold summary.
  assert (exists d1,
             (if has_column df "type"
              then s0 <- getitem df "type" ;;
                   Ok (dict_update
                         (dict_set (Str "total_titles") (Int (Z.of_nat (nrows df))) [])
                         (value_counts s0))
              else Ok (dict_set (Str "total_titles") (Int (Z.of_nat (nrows df))) []))
             = Ok d1) as [d1 ->].
  { unfold has_column, getitem. destruct (lookup "type" (columns df)); simpl; eauto. }
  cbn [bind].
  destruct (has_column_some _ _ _ Hs) as [-> ->]. cbn [bind].
  destruct (has_column_some _ _ _ Hp) as [_ ->].
  rewrite (dropna_years s Ys).
  assert (exists top,
             (if negb (Nat.eqb (length p) 0) then idxmax (value_counts p)
              else Ok (Str "Unknown")) = Ok top) as [top Etop].
  { destruct p as [|x p]; simpl; [eauto|].
    pose proof (value_counts_nonempty x p Np) as N.
    destruct (value_counts (x :: p)); [congruence|]. simpl. eauto. }
  destruct (present_years s) as [|z zs].
  - cbn [map length Nat.eqb negb bind]. rewrite Etop. cbn [bind].
    eexists. split; [reflexivity|].
    rewrite !dict_get_set. split; reflexivity.
  - cbn [map length Nat.eqb negb].
    unfold series_min, series_max.
    change (Int z :: map Int zs) with (map Int (z :: zs)).
    rewrite integers_years. cbn [bind py_int_cell int_of_cell].
    rewrite Etop. cbn [bind].
    eexists. split; [reflexivity|].
    rewrite !dict_get_set. split; reflexivity.
Qed.

Section YearlyTrend.

Variable parse_date : Series -> cell -> option date.

(** C8.  On a frame whose [year_added] column holds years and missing
    markers, the series of the yearly trend lists, by strictly
    increasing year, exactly the years that are present, each with its
    number of occurrences; the summary gives as earliest and latest
    year the least and the greatest present year.  With a date reader
    that reads "2020-01-15" and "2021-03-02" as days of 2020 and 2021,
    the two rows with these dates give the trend {2020: 1, 2021: 1} and
    the summary earliest 2020, latest 2021. *)
Theorem yearly_trend_and_range (df : DataFrame) (s p : Series) :
  lookup "year_added" (columns df) = Some s ->
  forallb year_cell s = true ->
  lookup "primary_country" (columns df) = Some p ->
  forallb notna p = true ->
  (exists series,
      yearly_series s = Ok series
      /\ StronglySorted Z.lt (map fst series)
      /\ (forall y n, In (y, n) series <->
                      n = occurrences Z.eqb y (present_years s) /\ 0 < n))
  /\ (exists d,
        summary df = Ok d
        /\ match present_years s with
           | [] =>
               dict_get (Str "earliest_year_added") d = Some NaN
               /\ dict_get (Str "latest_year_added") d = Some NaN
           | _ =>
               exists lo hi,
                 dict_get (Str "earliest_year_added") d = Some (Int lo)
                 /\ dict_get (Str "latest_year_added") d = Some (Int hi)
                 /\ In lo (present_years s) /\ In hi (present_years s)
                 /\ forall y, In y (present_years s) -> (lo <= y <= hi)%Z
           end)
  /\ (forall d1 d2,
        parse_date two_dates (Str "2020-01-15") = Some d1 -> year d1 = 2020%Z ->
        parse_date two_dates (Str "2021-03-02") = Some d2 -> year d2 = 2021%Z ->
        exists out years d,
          clean_data parse_date two_rows = Ok out
          /\ lookup "year_added" (columns out) = Some years
          /\ yearly_series years = Ok [(2020%Z, 1); (2021%Z, 1)]
          /\ summary out = Ok d
          /\ dict_get (Str "earliest_year_added") d = Some (Int 2020)
          /\ dict_get (Str "latest_year_added") d = Some (Int 2021)).
Proof.
  intros Hs Ys Hp Np. split; [|split].
  - exists (sort_index (value_counts_int (present_years s))).
    split; [exact (yearly_series_years s Ys)|].
    split; [apply yearly_series_sorted|].
    intros y n. apply yearly_series_entries.
  - destruct (summary_years df s p Hs Ys Hp Np) as (d & E & H).
    exists d. split; [exact E|].
    destruct (present_years s) as [|z zs]; [exact H|].
    destruct H as [H1 H2].
    destruct (fold_min zs z) as [I1 L1]. destruct (fold_max zs z) as [I2 L2].
    exists (fold_left Z.min zs z), (fold_left Z.max zs z).
    repeat split; auto.
  - intros d1 d2 P1 Y1 P2 Y2.
    assert (clean_data parse_date two_rows
            = Ok (mkframe 2 [("date_added", [Date d1; Date d2]);
                             ("year_added", [Int 2020; Int 2021]);
                             ("genres_list", [Seq []; Seq []]);
                             ("duration_parsed", [NaN; NaN]);
                             ("primary_country", [Str "Unknown"; Str "Unknown"])])) as E.
    { unfold clean_data, parse_dates. cbn [rename_columns columns nrows map fst snd].
      assert (to_datetime parse_date two_dates = [Date d1; Date d2]) as T.
      { unfold to_datetime. unfold two_dates at 2. cbn [map isna].
        now rewrite P1, P2. }
      unfold two_rows, has_column, getitem. cbn -[to_datetime two_dates].
      rewrite T. cbn. rewrite Y1, Y2. reflexivity. }
    eexists. exists [Int 2020; Int 2021]. eexists.
    split; [exact E|]. split; [reflexivity|]. split; [reflexivity|].
    split; [reflexivity|]. split; reflexivity.
Qed.

End YearlyTrend.

(* ================================================================== *)
(** * Renderers and the run *)

Lemma directors_no_unknown (director : Series) :
  ~ In (Str "Unknown") (directors director).
Proof.
  unfold directors. intros H. apply filter_In in H as [_ H]. discriminate.
Qed.

(** A renderer that reads a column without looking for it first raises
    on every frame that lacks the column. *)
Lemma plot_movies_vs_tv_no_type (df : DataFrame) (w : world) :
  has_column df "type" = false ->
  plot_movies_vs_tv df w = (Raise (KeyError "type"), w).
Proof.
  unfold has_column, plot_movies_vs_tv, io_bind, lift, getitem.
  destruct (lookup "type" (columns df)); [discriminate|reflexivity].
Qed.

Lemma top_directors_actors_no_director (df : DataFrame) (top_n : nat) (w : world) :
  has_column df "director" = false ->
  top_directors_actors df top_n w = (Raise (KeyError "director"), w).
Proof.
  unfold has_column, top_directors_actors, io_bind, lift, getitem.
  destruct (lookup "director" (columns df)); [discriminate|reflexivity].
Qed.

Lemma all_genres_nothing (s : Series) (c : list (string * nat)) :
  forallb (fun x => cell_eqb x (Seq [])) s = true ->
  for_each (fun c gl => l <- iterate gl ;; Ok (fold_left (fun c g => incr String.eqb g c) l c))
           s c = Ok c.
Proof.
  induction s as [|x s IH]; simpl; [reflexivity|].
  intros H. apply andb_prop in H as [Hx Hs].
  destruct x as [| | | |l]; try discriminate. destruct l; [|discriminate].
  simpl. now apply IH.
Qed.

(** [plot_top_genres] raises on every frame without a single genre. *)
Lemma plot_top_genres_no_genre (df : DataFrame) (s : Series) (top_n : nat) (w : world) :
  lookup "genres_list" (columns df) = Some s ->
  forallb (fun x => cell_eqb x (Seq [])) s = true ->
  plot_top_genres df top_n w = (Raise ValueError, w).
Proof.
  intros Hs He. unfold plot_top_genres, io_bind, lift, getitem, all_genres.
  rewrite Hs, (all_genres_nothing s [] He).
  unfold most_common. simpl. now rewrite firstn_nil.
Qed.

(** [plot_rating_distribution] looks for its column first. *)
Lemma plot_rating_distribution_no_rating (df : DataFrame) (top_n : nat) (w : world) :
  has_column df "rating" = false ->
  plot_rating_distribution df top_n w
  = (Ok tt, mkworld (stdout w ++ ["No rating column present"]) (dirs w) (files w)).
Proof. unfold plot_rating_distribution. now intros ->. Qed.

(** Every record whose cast is missing is counted under "Unknown" once
    [clean_data] has filled the column. *)
Lemma unknown_counted_per_missing_cast (cast : Series) :
  length (filter isna cast)
  <= count_of String.eqb "Unknown" (actor_counter (fillna (Str "Unknown") cast)).
Proof.
  rewrite actor_counter_tally, (count_of_tally String.eqb String.eqb_spec).
  unfold fillna.
  induction cast as [|x cast IH]; cbn [map filter length]; [lia|].
  rewrite counted_names_cons, occurrences_app.
  destruct (isna x); cbn [length]; [|lia].
  change (occurrences String.eqb "Unknown" (counted_names [Str "Unknown"])) with 1.
  lia.
Qed.

Section Run.

Variable parse_date : Series -> cell -> option date.
Variable path_exists : string -> bool.
Variable read_csv : string -> result DataFrame.

(** C1.  The renderers at a catalogue without the columns they read.
    With a title column only, [plot_movies_vs_tv] raises [KeyError]
    for [type], [plot_top_genres] raises [ValueError] when it unpacks
    the empty list of top genres, and [top_directors_actors] raises
    [KeyError] for [director]; the run stops at the first of them with
    exit status 1, nothing written.  [plot_top_genres] raises as well
    on a catalogue with every column and no row.
    [plot_rating_distribution], on the same input, prints its message
    and returns. *)
Theorem renderers_raise_without_columns :
  exists out,
    clean_data parse_date titles_only = Ok out
    /\ plot_movies_vs_tv out initial_world = (Raise (KeyError "type"), initial_world)
    /\ plot_top_genres out 12 initial_world = (Raise ValueError, initial_world)
    /\ top_directors_actors out 10 initial_world
       = (Raise (KeyError "director"), initial_world)
    /\ plot_rating_distribution out 20 initial_world
       = (Ok tt, mkworld ["No rating column present"] [] [])
    /\ main parse_date (only_path "titles.csv") (one_file "titles.csv" titles_only)
            (mkargs "titles.csv" 12 10 10) initial_world
       = (Raise (KeyError "type"), mkworld [] ["plots"; "output"] [])
    /\ exit_status (A := unit) (Raise (KeyError "type")) = 1%Z
    /\ exists out0,
         clean_data parse_date header_only = Ok out0
         /\ plot_top_genres out0 12 initial_world = (Raise ValueError, initial_world).
Proof.
  eexists. split; [reflexivity|].
  repeat (split; [reflexivity|]).
  eexists. split; reflexivity.
Qed.

(** C3.  The sentinel in the two tallies of people.  A record whose
    director is missing is left out of the directors (no tally of
    directors ever holds "Unknown"), but a record whose cast is missing
    is counted under the name "Unknown" in the tally of actors. *)
Theorem unknown_cast_is_counted :
  (forall director : Series, ~ In (Str "Unknown") (directors director))
  /\ exists out director cast,
       clean_data parse_date missing_cast = Ok out
       /\ lookup "director" (columns out) = Some director
       /\ lookup "cast" (columns out) = Some cast
       /\ value_counts (directors director) = [(Str "Jane Doe", 1)]
       /\ actor_counter cast = [("Unknown", 1); ("Ann Lee", 1); ("Bo Diaz", 1)]
       /\ most_common 10 (actor_counter cast)
          = [("Unknown", 1); ("Ann Lee", 1); ("Bo Diaz", 1)]
       /\ count_of String.eqb "Unknown" (actor_counter cast) = 1.
Proof.
  split; [exact directors_no_unknown|].
  eexists. eexists. eexists.
  split; [reflexivity|]. repeat (split; [reflexivity|]). reflexivity.
Qed.

(** C4.  When the path given to the script is not that of an existing
    file, the run ends in [sys.exit(1)]: the exit status is 1, the one
    line printed is the diagnostic, the two output directories have
    been created and no file has been written. *)
Theorem missing_file_aborts (args : Args) :
  path_exists (csv args) = false ->
  run parse_date path_exists read_csv args
  = (Raise (SystemExit 1),
     mkworld [("ERROR: CSV file not found at " ++ csv args)%string]
             ["plots"; "output"] [])
  /\ exit_status (fst (run parse_date path_exists read_csv args)) = 1%Z
  /\ files (snd (run parse_date path_exists read_csv args)) = [].
Proof.
  intros H.
  assert (run parse_date path_exists read_csv args
          = (Raise (SystemExit 1),
             mkworld [("ERROR: CSV file not found at " ++ csv args)%string]
                     ["plots"; "output"] [])) as E.
  { unfold run, main, read_data. rewrite H. reflexivity. }
  rewrite E. repeat split.
Qed.

End Run.

(* ================================================================== *)
(** * The statements at concrete catalogues *)

Lemma missing_file_aborts_witness :
  only_path "netflix_titles.csv" "missing.csv" = false
  /\ run iso_date (only_path "netflix_titles.csv")
         (one_file "netflix_titles.csv" small_catalog)
         (mkargs "missing.csv" 12 10 10)
     = (Raise (SystemExit 1),
        mkworld ["ERROR: CSV file not found at missing.csv"] ["plots"; "output"] []).
Proof.
  split; [reflexivity|].
  exact (proj1 (missing_file_aborts iso_date (only_path "netflix_titles.csv")
                  (one_file "netflix_titles.csv" small_catalog)
                  (mkargs "missing.csv" 12 10 10) eq_refl)).
Defined.

Lemma genres_list_split_witness :
  well_formed small_catalog = true
  /\ type_is_text small_catalog = true
  /\ exists out g,
       clean_data iso_date small_catalog = Ok out
       /\ lookup "genres_list" (columns out) = Some g
       /\ nth_error g 0 = Some (Seq ["Dramas"; "International Movies"])
       /\ nth_error g 1 = Some (Seq ["Unknown"]).
Proof.
  split; [reflexivity|]. split; [reflexivity|].
  destruct (genres_list_split iso_date small_catalog eq_refl eq_refl)
    as (out & E & _ & H & _).
  change (column small_catalog "listed_in")
    with (Some [Str "Dramas, International Movies"; NaN]) in H.
  destruct H as (g & G & _ & Ht & Hn & _).
  exists out, g. split; [exact E|]. split; [exact G|]. split.
  - exact (Ht 0 "Dramas, International Movies" eq_refl).
  - exact (Hn 1 eq_refl).
Defined.

Lemma primary_country_first_witness :
  well_formed small_catalog = true
  /\ type_is_text small_catalog = true
  /\ exists out p,
       clean_data iso_date small_catalog = Ok out
       /\ lookup "primary_country" (columns out) = Some p
       /\ nth_error p 0 = Some (Str "Canada")
       /\ nth_error p 1 = Some (Str "Unknown").
Proof.
  split; [reflexivity|]. split; [reflexivity|].
  destruct (primary_country_first iso_date small_catalog eq_refl eq_refl)
    as (out & E & _ & H & _).
  change (column small_catalog "country")
    with (Some [Str "Canada, United States"; NaN]) in H.
  destruct H as (p & P & _ & K).
  exists out, p. split; [exact E|]. split; [exact P|]. split.
  - exact (K 0 (Str "Canada, United States") eq_refl).
  - exact (K 1 NaN eq_refl).
Defined.

Lemma actors_first_five_witness :
  length eight_names = 8
  /\ counted_names [Str (PyStr.join "," eight_names)] = ["Ann"; "Bo"; "Cy"; "Di"; "Ed"]
  /\ count_of String.eqb "Hal"
       (actor_counter [Str (PyStr.join "," eight_names); Str "Hal, Ann"])
     = 1.
Proof.
  split; [reflexivity|].
  pose proof (actors_first_five eight_names [Str "Hal, Ann"] "Hal"
                eq_refl eq_refl eq_refl) as (_ & H2 & _ & H4).
  split; [exact H2|exact H4].
Defined.

Lemma yearly_trend_and_range_witness :
  exists out years countries series d,
    clean_data iso_date two_rows = Ok out
    /\ lookup "year_added" (columns out) = Some years
    /\ forallb year_cell years = true
    /\ lookup "primary_country" (columns out) = Some countries
    /\ forallb notna countries = true
    /\ yearly_series years = Ok series
    /\ StronglySorted Z.lt (map fst series)
    /\ summary out = Ok d.
Proof.
  pose (out := mkframe 2 [("date_added", [Date (mkdate 2020 1 15); Date (mkdate 2021 3 2)]);
                          ("year_added", [Int 2020; Int 2021]);
                          ("genres_list", [Seq []; Seq []]);
                          ("duration_parsed", [NaN; NaN]);
                          ("primary_country", [Str "Unknown"; Str "Unknown"])]).
  destruct (yearly_trend_and_range iso_date out [Int 2020; Int 2021]
              [Str "Unknown"; Str "Unknown"] eq_refl eq_refl eq_refl eq_refl)
    as ((series & S1 & S2 & _) & (d & D & _) & _).
  exists out, [Int 2020; Int 2021], [Str "Unknown"; Str "Unknown"], series, d.
  repeat (split; [reflexivity|]).
  split; [exact S1|]. split; [exact S2|exact D].
Defined.

Lemma clean_data_keeps_rows_witness :
  well_formed small_catalog = true
  /\ type_is_text small_catalog = true
  /\ exists out duration,
       clean_data iso_date small_catalog = Ok out
       /\ nrows out = 2
       /\ lookup "duration" (columns out) = Some duration
       /\ nth_error duration 0 = Some (Str "90 min").
Proof.
  split; [reflexivity|]. split; [reflexivity|].
  destruct (clean_data_keeps_rows iso_date small_catalog eq_refl eq_refl)
    as (out & E & N & _ & _ & _ & H & _).
  destruct (H "duration" [Str "90 min"; Str "2 Seasons"] eq_refl eq_refl)
    as (s' & L & _ & K).
  exists out, s'. split; [exact E|]. split; [exact N|]. split; [exact L|].
  exact (K 0 (Str "90 min") eq_refl).
Defined.

(** C9 as stated fails: a column of the input whose label is the name of
    a derived field does not keep its values.  The file of
    [with_year_added] has a [year_added] column holding 1999 and no
    [date_added] column; after [clean_data] the column holds the missing
    marker. *)
Lemma derived_name_overwritten :
  ~ (forall (df out : DataFrame) (k : string) (s : Series),
        well_formed df = true ->
        clean_data iso_date df = Ok out ->
        column df k = Some s ->
        exists s',
          lookup k (columns out) = Some s'
          /\ forall i x, nth_error s i = Some x ->
               nth_error s' i = Some (normalized_cell iso_date k s x)).
Proof.
  intros H.
  destruct (H with_year_added
              (mkframe 1 [("title", [Str "Jaws"]); ("year_added", [NaN]);
                          ("genres_list", [Seq []]); ("duration_parsed", [NaN]);
                          ("primary_country", [Str "Unknown"])])
              "year_added" [Int 1999] eq_refl eq_refl eq_refl) as (s' & E & K).
  injection E as <-.
  specialize (K 0 (Int 1999) eq_refl). discriminate K.
Qed.

(* ================================================================== *)
(** * What [clean_data] leaves in the derived and the filled columns *)

Lemma forallb_map_all {A B : Type} (f : A -> B) (p : B -> bool) (l : list A) :
  (forall x, p (f x) = true) -> forallb p (map f l) = true.
Proof. intros H. induction l as [|x l IH]; simpl; [reflexivity|]. now rewrite H, IH. Qed.

Lemma forallb_repeat {A : Type} (p : A -> bool) (x : A) (n : nat) :
  p x = true -> forallb p (repeat x n) = true.
Proof. intros H. induction n as [|n IH]; simpl; [reflexivity|]. now rewrite H, IH. Qed.

Lemma duration_cell_year (x : cell) : year_cell (duration_cell x) = true.
Proof.
  destruct x; simpl; try reflexivity;
    match goal with |- context [leading_integer ?t] => destruct (leading_integer t) end;
    reflexivity.
Qed.

Lemma genres_cell_nonempty (x : cell) : is_nonempty_list (genres_cell x) = true.
Proof.
  unfold genres_cell, PyStr.split. destruct (PyStr.split_aux "," (py_str x)). reflexivity.
Qed.

Lemma country_cell_text (x : cell) : is_text (country_cell x) = true.
Proof. unfold country_cell. destruct (isna x || cell_eqb x (Str "Unknown")); reflexivity. Qed.

Section Populated.

Variable parse_date : Series -> cell -> option date.

Lemma to_datetime_year_cells (s : Series) :
  forallb year_cell (map year_of (to_datetime parse_date s)) = true.
Proof.
  apply forallb_map_all. intros x. destruct x; reflexivity.
Qed.

Lemma clean_view_filled (df : DataFrame) (k : string) :
  mem k filled_fields = true ->
  clean_view parse_date df k = option_map (fillna (Str "Unknown")) (column df k).
Proof.
  intros Hk. assert (is_derived k = false) as Hd.
  { unfold mem, filled_fields in Hk. cbn [existsb] in Hk.
    repeat (apply orb_prop in Hk as [Hk|Hk];
            [apply String.eqb_eq in Hk; subst k; reflexivity|]).
    discriminate. }
  rewrite (clean_view_original parse_date df k Hd).
  destruct (column df k) as [s|]; [|reflexivity]. cbn [option_map].
  apply (f_equal Some). symmetry. apply fillna_normalized; [|exact Hk].
  unfold mem, filled_fields in Hk. cbn [existsb] in Hk.
  repeat (apply orb_prop in Hk as [Hk|Hk];
          [apply String.eqb_eq in Hk; subst k; reflexivity|]).
  discriminate.
Qed.

(** X1.  The [year_added] column of [clean_data]: with a [date_added]
    column, the year of the date read from each row, and the missing
    marker where the date is missing or does not parse; without one, the
    missing marker in every row.  Its cells are years or missing
    markers, one per row. *)
Theorem year_added_from_dates (df : DataFrame) :
  well_formed df = true -> type_is_text df = true ->
  exists out ys,
    clean_data parse_date df = Ok out
    /\ lookup "year_added" (columns out) = Some ys
    /\ length ys = nrows df
    /\ forallb year_cell ys = true
    /\ match column df "date_added" with
       | Some s =>
           forall i x, nth_error s i = Some x ->
             nth_error ys i =
             Some (if isna x then NaN
                   else match parse_date s x with
                        | Some d => Int (year d)
                        | None => NaN
                        end)
       | None => ys = repeat NaN (nrows df)
       end.
Proof.
  intros W Ht.
  destruct (clean_data_view parse_date df Ht) as (out & E & N & H).
  pose proof (H "year_added") as Y. rewrite clean_view_year in Y. unfold view_of in Y.
  exists out. eexists. split; [exact E|]. split; [exact Y|].
  destruct (column df "date_added") as [s|] eqn:Es.
  - split; [|split].
    + unfold to_datetime. rewrite !length_map. exact (column_length df _ s W Es).
    + apply to_datetime_year_cells.
    + intros i x Hx. unfold to_datetime. rewrite !nth_error_map, Hx. cbn [option_map].
      destruct (isna x); [reflexivity|]. destruct (parse_date s x); reflexivity.
  - split; [apply repeat_length|]. split; [now apply forallb_repeat|reflexivity].
Qed.

(** X2.  The [duration_parsed] column of [clean_data]: with a
    [duration] column, for each row the leading integer of the text, and
    the missing marker where the duration is missing or its leading token
    is not an integer; without one, the missing marker in every row. *)
Theorem duration_parsed_column (df : DataFrame) :
  well_formed df = true -> type_is_text df = true ->
  exists out ds,
    clean_data parse_date df = Ok out
    /\ lookup "duration_parsed" (columns out) = Some ds
    /\ length ds = nrows df
    /\ forallb year_cell ds = true
    /\ match column df "duration" with
       | Some s =>
           (forall i t, nth_error s i = Some (Str t) ->
              nth_error ds i = Some (match leading_integer t with
                                     | Some n => Int n
                                     | None => NaN
                                     end))
           /\ (forall i, nth_error s i = Some NaN -> nth_error ds i = Some NaN)
       | None => ds = repeat NaN (nrows df)
       end.
Proof.
  intros W Ht.
  destruct (clean_data_view parse_date df Ht) as (out & E & N & H).
  pose proof (H "duration_parsed") as D. rewrite clean_view_duration in D.
  unfold view_of in D.
  exists out. eexists. split; [exact E|]. split; [exact D|].
  destruct (column df "duration") as [s|] eqn:Es.
  - split; [|split; [|split]].
    + rewrite length_map. exact (column_length df _ s W Es).
    + apply forallb_map_all. exact duration_cell_year.
    + intros i t Hx. now rewrite nth_error_map, Hx.
    + intros i Hx. now rewrite nth_error_map, Hx.
  - split; [apply repeat_length|]. split; [now apply forallb_repeat|reflexivity].
Qed.

(** X3.  After [clean_data] no field is left unpopulated: the columns
    [director], [cast], [country], [rating] and [listed_in], where
    present, hold no missing value; [primary_country] is a text in every
    row; [genres_list] is a list in every row, and a list with at least
    one genre when the input has a [listed_in] column. *)
Theorem normalized_fields_populated (df : DataFrame) :
  well_formed df = true -> type_is_text df = true ->
  exists out,
    clean_data parse_date df = Ok out
    /\ (forall k s, mem k filled_fields = true ->
          lookup k (columns out) = Some s -> forallb notna s = true)
    /\ (exists p,
          lookup "primary_country" (columns out) = Some p
          /\ length p = nrows df
          /\ forallb is_text p = true)
    /\ (exists g,
          lookup "genres_list" (columns out) = Some g
          /\ length g = nrows df
          /\ forallb is_list g = true
          /\ (has_col df "listed_in" = true -> forallb is_nonempty_list g = true)).
Proof.
  intros W Ht.
  destruct (clean_data_view parse_date df Ht) as (out & E & N & H).
  unfold view_of in H.
  exists out. split; [exact E|]. split; [|split].
  - intros k s Hk Hs. rewrite H, (clean_view_filled df k Hk) in Hs.
    destruct (column df k) as [s0|]; [|discriminate]. injection Hs as <-.
    unfold fillna. apply forallb_map_all. intros x. destruct x; reflexivity.
  - pose proof (H "primary_country") as P. rewrite clean_view_country in P.
    eexists. split; [exact P|].
    destruct (column df "country") as [s|] eqn:Es.
    + split; [unfold fillna; rewrite !length_map; exact (column_length df _ s W Es)|].
      apply forallb_map_all. exact country_cell_text.
    + split; [apply repeat_length|now apply forallb_repeat].
  - pose proof (H "genres_list") as G. rewrite clean_view_genres in G.
    eexists. split; [exact G|]. unfold has_col.
    destruct (column df "listed_in") as [s|] eqn:Es.
    + split; [unfold fillna; rewrite !length_map; exact (column_length df _ s W Es)|].
      split; [apply forallb_map_all; reflexivity|].
      intros _. apply forallb_map_all. exact genres_cell_nonempty.
    + split; [apply repeat_length|]. split; [now apply forallb_repeat|discriminate].
Qed.

(** X4.  The one way [clean_data] fails: it raises [AttributeError]
    exactly when the input has a [type] column that the [.str] accessor
    refuses (a column that is not empty and holds no text), and it
    raises nothing else. *)
Theorem clean_data_raises_iff (df : DataFrame) :
  (clean_data parse_date df = Raise AttributeError <-> type_is_text df = false)
  /\ (forall e, clean_data parse_date df = Raise e -> e = AttributeError).
Proof.
  destruct (type_is_text df) eqn:Ht.
  - destruct (clean_data_view parse_date df Ht) as (out & E & _).
    rewrite E. split; [split; discriminate|discriminate].
  - rewrite (clean_data_raises parse_date df Ht).
    split; [split; reflexivity|]. now intros e [= <-].
Qed.

End Populated.

(* ================================================================== *)
(** * The labels of the frame [clean_data] returns *)

Lemma labels_replace (k : string) (v : Series) (cols : list (string * Series)) :
  map fst (replace_column k v cols) = add_label k (map fst cols).
Proof.
  unfold add_label, mem. induction cols as [|[k0 v0] cols IH]; simpl; [reflexivity|].
  destruct (String.eqb k k0); simpl; [reflexivity|].
  rewrite IH. destruct (existsb (String.eqb k) (map fst cols)); reflexivity.
Qed.

Lemma labels_setitem (df : DataFrame) (k : string) (v : Series) :
  labels (setitem df k v) = add_label k (labels df).
Proof. apply labels_replace. Qed.

Lemma has_column_mem (df : DataFrame) (k : string) : has_column df k = mem k (labels df).
Proof.
  unfold has_column, labels, mem. induction (columns df) as [|[k0 v0] cols IH]; simpl;
    [reflexivity|].
  destruct (String.eqb k k0); [reflexivity|exact IH].
Qed.

Lemma labels_setitem_present (df : DataFrame) (k : string) (v : Series) :
  has_column df k = true -> labels (setitem df k v) = labels df.
Proof.
  intros H. rewrite labels_setitem. unfold add_label. now rewrite <- has_column_mem, H.
Qed.

Lemma mem_app_one (k k' : string) (l : list string) :
  mem k (l ++ [k']) = mem k l || String.eqb k k'.
Proof. unfold mem. rewrite existsb_app. simpl. now rewrite orb_false_r. Qed.

Section Labels.

Variable parse_date : Series -> cell -> option date.

Lemma parse_dates_labels (df df' : DataFrame) :
  parse_dates parse_date df = Ok df' ->
  labels df' = add_label "year_added" (labels df).
Proof.
  unfold parse_dates. destruct (has_column df "date_added") eqn:Hc.
  - unfold getitem at 1. unfold has_column in Hc.
    destruct (lookup "date_added" (columns df)) as [s|] eqn:El; [|discriminate].
    cbn [bind]. unfold getitem. cbn [setitem columns].
    rewrite lookup_replace, String.eqb_refl. cbn [bind].
    rewrite dt_year_to_datetime. cbn [bind]. intros [= <-].
    rewrite labels_setitem, labels_setitem_present; [reflexivity|].
    unfold has_column. now rewrite El.
  - intros [= <-]. apply labels_setitem.
Qed.

Lemma fill_unknown_labels (df df' : DataFrame) (col : string) :
  fill_unknown df col = Ok df' -> labels df' = labels df.
Proof.
  unfold fill_unknown. destruct (has_column df col) eqn:Hc; [|now intros [= <-]].
  unfold getitem. unfold has_column in Hc.
  destruct (lookup col (columns df)) as [s|] eqn:El; [|discriminate].
  cbn [bind]. intros [= <-]. apply labels_setitem_present.
  unfold has_column. now rewrite El.
Qed.

Lemma fill_missing_labels (df df' : DataFrame) :
  fill_missing df = Ok df' -> labels df' = labels df.
Proof.
  unfold fill_missing. cbn [for_each].
  destruct (fill_unknown df "director") as [d1|] eqn:E1; [|discriminate]. cbn [bind].
  destruct (fill_unknown d1 "cast") as [d2|] eqn:E2; [|discriminate]. cbn [bind].
  destruct (fill_unknown d2 "country") as [d3|] eqn:E3; [|discriminate]. cbn [bind].
  destruct (fill_unknown d3 "rating") as [d4|] eqn:E4; [|discriminate]. cbn [bind].
  intros [= <-].
  rewrite (fill_unknown_labels _ _ _ E4), (fill_unknown_labels _ _ _ E3),
    (fill_unknown_labels _ _ _ E2). exact (fill_unknown_labels _ _ _ E1).
Qed.

Lemma normalize_type_labels (df df' : DataFrame) :
  normalize_type df = Ok df' -> labels df' = labels df.
Proof.
  unfold normalize_type. destruct (has_column df "type") eqn:Hc; [|now intros [= <-]].
  unfold getitem. unfold has_column in Hc.
  destruct (lookup "type" (columns df)) as [s|] eqn:El; [|discriminate].
  cbn [bind]. destruct (str_strip s) as [s'|]; [|discriminate]. cbn [bind].
  intros [= <-]. apply labels_setitem_present. unfold has_column. now rewrite El.
Qed.

Lemma split_listed_in_labels (df df' : DataFrame) :
  split_listed_in df = Ok df' -> labels df' = add_label "genres_list" (labels df).
Proof.
  unfold split_listed_in. destruct (has_column df "listed_in") eqn:Hc.
  - unfold getitem at 1. unfold has_column in Hc.
    destruct (lookup "listed_in" (columns df)) as [s|] eqn:El; [|discriminate].
    cbn [bind]. unfold getitem. cbn [setitem columns].
    rewrite lookup_replace, String.eqb_refl. cbn [bind].
    unfold apply. rewrite (mapM_pure _ _ _ genres_of_cell). cbn [bind]. intros [= <-].
    rewrite labels_setitem, labels_setitem_present; [reflexivity|].
    unfold has_column. now rewrite El.
  - intros [= <-]. apply labels_setitem.
Qed.

Lemma parse_durations_labels (df df' : DataFrame) :
  parse_durations df = Ok df' -> labels df' = add_label "duration_parsed" (labels df).
Proof.
  unfold parse_durations. destruct (has_column df "duration") eqn:Hc.
  - unfold getitem. unfold has_column in Hc.
    destruct (lookup "duration" (columns df)) as [s|] eqn:El; [|discriminate].
    cbn [bind]. unfold apply. rewrite (mapM_pure _ _ _ parse_duration_cell).
    cbn [bind]. intros [= <-]. apply labels_setitem.
  - intros [= <-]. apply labels_setitem.
Qed.

Lemma clean_country_labels (df df' : DataFrame) :
  clean_country df = Ok df' -> labels df' = add_label "primary_country" (labels df).
Proof.
  unfold clean_country. destruct (has_column df "country") eqn:Hc.
  - unfold getitem. unfold has_column in Hc.
    destruct (lookup "country" (columns df)) as [s|] eqn:El; [|discriminate].
    cbn [bind]. unfold apply. rewrite (mapM_pure _ _ _ primary_country_of_cell).
    cbn [bind]. intros [= <-]. apply labels_setitem.
  - intros [= <-]. apply labels_setitem.
Qed.

Lemma clean_data_add_labels (df out : DataFrame) :
  clean_data parse_date df = Ok out ->
  labels out =
  add_label "primary_country"
    (add_label "duration_parsed"
       (add_label "genres_list" (add_label "year_added" (trimmed_labels df)))).
Proof.
  unfold clean_data.
  set (df0 := rename_columns PyStr.strip df).
  assert (labels df0 = trimmed_labels df) as L0.
  { unfold labels, trimmed_labels, df0, rename_columns. cbn [columns].
    now rewrite map_map. }
  destruct (parse_dates parse_date df0) as [d1|] eqn:E1; [|discriminate]. cbn [bind].
  destruct (fill_missing d1) as [d2|] eqn:E2; [|discriminate]. cbn [bind].
  destruct (normalize_type d2) as [d3|] eqn:E3; [|discriminate]. cbn [bind].
  destruct (split_listed_in d3) as [d4|] eqn:E4; [|discriminate]. cbn [bind].
  destruct (parse_durations d4) as [d5|] eqn:E5; [|discriminate]. cbn [bind].
  destruct (clean_country d5) as [d6|] eqn:E6; [|discriminate]. cbn [bind].
  intros [= <-].
  rewrite (clean_country_labels _ _ E6), (parse_durations_labels _ _ E5),
    (split_listed_in_labels _ _ E4), (normalize_type_labels _ _ E3),
    (fill_missing_labels _ _ E2), (parse_dates_labels _ _ E1), L0.
  reflexivity.
Qed.

(** X5.  The columns of the frame [clean_data] returns, in order: those
    of the input under their trimmed labels, then the derived fields
    [year_added], [genres_list], [duration_parsed], [primary_country]
    that the input does not already have, in that order. *)
Theorem clean_data_labels (df : DataFrame) :
  well_formed df = true -> type_is_text df = true ->
  exists out,
    clean_data parse_date df = Ok out
    /\ labels out =
       trimmed_labels df
       ++ filter (fun k => negb (mem k (trimmed_labels df))) derived_fields.
Proof.
  intros _ Ht.
  destruct (clean_data_view parse_date df Ht) as (out & E & _).
  exists out. split; [exact E|].
  rewrite (clean_data_add_labels df out E).
  generalize (trimmed_labels df) as l. intros l.
  unfold derived_fields, add_label. cbn [filter].
  destruct (mem "year_added" l) eqn:M1; destruct (mem "genres_list" l) eqn:M2;
    destruct (mem "duration_parsed" l) eqn:M3; destruct (mem "primary_country" l) eqn:M4;
    cbn [negb];
    repeat (rewrite ?mem_app_one, ?M1, ?M2, ?M3, ?M4;
            repeat match goal with
                   | |- context [String.eqb ?a ?b] =>
                       let v := eval vm_compute in (String.eqb a b) in
                       change (String.eqb a b) with v
                   end;
            cbn [orb]);
    rewrite ?app_nil_r, <- ?app_assoc; reflexivity.
Qed.

End Labels.

(* ================================================================== *)
(** * Cleaning twice *)

Lemma rstrip_idem (s : string) : PyStr.rstrip (PyStr.rstrip s) = PyStr.rstrip s.
Proof.
  induction s as [|c s IH]; [reflexivity|].
  cbn [PyStr.rstrip]. destruct (PyStr.rstrip s) as [|c' r] eqn:E.
  - destruct (PyStr.isspace c) eqn:Ec; [reflexivity|].
    cbn [PyStr.rstrip]. now rewrite Ec.
  - change (PyStr.rstrip (String c (String c' r)))
      with (match PyStr.rstrip (String c' r) with
            | EmptyString =>
                if PyStr.isspace c then EmptyString else String c EmptyString
            | r0 => String c r0
            end).
    now rewrite IH.
Qed.

Lemma rstrip_head (c : ascii) (s : string) :
  PyStr.isspace c = false -> exists r, PyStr.rstrip (String c s) = String c r.
Proof.
  intros Hc. cbn [PyStr.rstrip]. destruct (PyStr.rstrip s); [rewrite Hc|]; eauto.
Qed.

(** [s.strip().strip() == s.strip()] *)
Lemma strip_idem (s : string) : PyStr.strip (PyStr.strip s) = PyStr.strip s.
Proof.
  unfold PyStr.strip. destruct (PyStr.lstrip s) as [|c r] eqn:E; [reflexivity|].
  pose proof (StrFacts.lstrip_head _ _ _ E) as Hc.
  destruct (rstrip_head c r Hc) as [r' Hr]. rewrite Hr.
  cbn [PyStr.lstrip]. rewrite Hc, <- Hr. apply rstrip_idem.
Qed.

Lemma replace_same (k : string) (v : Series) (cols : list (string * Series)) :
  lookup k cols = Some v -> replace_column k v cols = cols.
Proof.
  induction cols as [|[k0 v0] cols IH]; simpl; [discriminate|].
  destruct (String.eqb k k0); [now intros [= ->]|].
  intros H. now rewrite IH.
Qed.

Lemma setitem_same (df : DataFrame) (k : string) (v : Series) :
  lookup k (columns df) = Some v -> setitem df k v = df.
Proof. intros H. unfold setitem. rewrite (replace_same _ _ _ H). now destruct df. Qed.

Lemma fillna_idem (v : cell) (s : Series) :
  isna v = false -> fillna v (fillna v s) = fillna v s.
Proof.
  intros Hv. unfold fillna. rewrite map_map. apply map_ext. intros x.
  destruct (isna x) eqn:Ex; [now rewrite Hv|now rewrite Ex].
Qed.

Lemma str_method_strip_idem (s : Series) :
  map (str_method PyStr.strip) (map (str_method PyStr.strip) s)
  = map (str_method PyStr.strip) s.
Proof.
  rewrite map_map. apply map_ext. intros x. destruct x; simpl; try reflexivity.
  now rewrite strip_idem.
Qed.

Lemma column_csv (df : DataFrame) (k : string) (s : Series) :
  well_formed df = true -> column df k = Some s -> csv_column s = true.
Proof.
  unfold well_formed, column, rename_columns. cbn [columns].
  intros H. apply andb_prop in H as [_ H]. revert H.
  induction (columns df) as [|[k0 s0] cols IH]; simpl; [discriminate|].
  intros H. apply andb_prop in H as [H0 H]. apply andb_prop in H0 as [_ H0].
  destruct (String.eqb k (PyStr.strip k0)).
  - now intros [= <-].
  - now apply IH.
Qed.

Lemma stripped_has_text (f : string -> string) (s : Series) :
  forallb text_cell s = true -> forallb numeric_cell s = false ->
  forallb numeric_cell (map (str_method f) s) = false
  /\ forallb datetime_cell (map (str_method f) s) = false.
Proof.
  induction s as [|x s IH]; simpl; [discriminate|].
  intros Ht Hn. apply andb_prop in Ht as [Hx Ht].
  destruct x; try discriminate; simpl in *.
  - now apply IH.
  - split; reflexivity.
Qed.

(** A column of the file that [.str] takes is still one after a [.str]
    method. *)
Lemma str_accessor_after (f : string -> string) (s : Series) :
  csv_column s = true -> str_accessor s = Ok s ->
  str_accessor (map (str_method f) s) = Ok (map (str_method f) s).
Proof.
  intros Hc Ha. destruct s as [|x s]; [reflexivity|].
  unfold str_accessor in Ha.
  destruct (forallb numeric_cell (x :: s)) eqn:Hn; [discriminate|].
  unfold csv_column in Hc. apply orb_prop in Hc as [Hi|Ht].
  - exfalso. assert (forallb numeric_cell (x :: s) = true) as K; [|congruence].
    clear Hn Ha. revert Hi. generalize (x :: s) as l.
    induction l as [|y l IH]; simpl; [reflexivity|].
    intros H. apply andb_prop in H as [Hy Hl].
    destruct y; try discriminate. simpl. now apply IH.
  - destruct (stripped_has_text f _ Ht Hn) as [K1 K2].
    unfold str_accessor. cbn [map] in *. now rewrite K1, K2.
Qed.

Lemma map_fixed {A : Type} (f : A -> A) (l : list A) :
  (forall x, In x l -> f x = x) -> map f l = l.
Proof.
  induction l as [|x l IH]; simpl; [reflexivity|].
  intros H. rewrite (H x (or_introl eq_refl)), IH; [reflexivity|].
  intros y Hy. apply H. now right.
Qed.

Section Idempotent.

Variable parse_date : Series -> cell -> option date.

Lemma to_datetime_idem (s : Series) :
  (forall col d, parse_date col (Date d) = Some d) ->
  to_datetime parse_date (to_datetime parse_date s) = to_datetime parse_date s.
Proof.
  intros Hp. unfold to_datetime at 1. apply map_fixed. intros x Hx.
  unfold to_datetime in Hx. apply in_map_iff in Hx as (x0 & <- & _).
  destruct (isna x0); [reflexivity|].
  destruct (parse_date s x0); [|reflexivity]. cbn [isna]. now rewrite Hp.
Qed.

Lemma labels_fixed (df out : DataFrame) :
  clean_data parse_date df = Ok out ->
  Forall (fun k => PyStr.strip k = k) (labels out).
Proof.
  intros E. rewrite (clean_data_add_labels parse_date df out E).
  assert (Forall (fun k => PyStr.strip k = k) (trimmed_labels df)) as F0.
  { unfold trimmed_labels. apply Forall_forall. intros k Hk.
    apply in_map_iff in Hk as (kv & <- & _). apply strip_idem. }
  assert (forall k l, PyStr.strip k = k ->
                      Forall (fun k => PyStr.strip k = k) l ->
                      Forall (fun k => PyStr.strip k = k) (add_label k l)) as A.
  { intros k l Hk Hl. unfold add_label. destruct (mem k l); [exact Hl|].
    apply Forall_app. split; [exact Hl|]. now constructor. }
  repeat apply A; try reflexivity. exact F0.
Qed.

Lemma rename_fixed (df : DataFrame) :
  Forall (fun k => PyStr.strip k = k) (labels df) ->
  rename_columns PyStr.strip df = df.
Proof.
  destruct df as [n cols]. unfold rename_columns, labels. cbn [nrows columns].
  intros H. f_equal. induction cols as [|[k v] cols IH]; simpl in *; [reflexivity|].
  inversion H as [|? ? Hk Hl]; subst. simpl in Hk. now rewrite Hk, IH.
Qed.

(** X6.  Running [clean_data] on its own result changes nothing, for a
    date reader that reads a date as itself. *)
Theorem clean_data_idempotent (df out : DataFrame) :
  well_formed df = true ->
  (forall col d, parse_date col (Date d) = Some d) ->
  clean_data parse_date df = Ok out ->
  clean_data parse_date out = Ok out.
Proof.
  intros W Hp E.
  assert (type_is_text df = true) as Ht.
  { destruct (type_is_text df) eqn:T; [reflexivity|].
    rewrite (clean_data_raises parse_date df T) in E. discriminate. }
  destruct (clean_data_view parse_date df Ht) as (out' & E' & N & H).
  rewrite E in E'. injection E' as <-. unfold view_of in H.
  assert (forall k, lookup k (columns out) = clean_view parse_date df k) as V by exact H.
  (* parse dates *)
  assert (parse_dates parse_date out = Ok out) as B1.
  { unfold parse_dates, has_column, getitem, setitem_scalar.
    pose proof (V "date_added") as D. pose proof (V "year_added") as Y.
    rewrite (clean_view_original parse_date df "date_added" eq_refl) in D.
    rewrite clean_view_year in Y.
    destruct (column df "date_added") as [s|].
    - rewrite <- to_datetime_normalized in D. rewrite D. cbn [bind].
      rewrite (to_datetime_idem s Hp), (setitem_same _ _ _ D), D. cbn [bind].
      rewrite dt_year_to_datetime. cbn [bind]. now rewrite (setitem_same _ _ _ Y).
    - rewrite D, N. now rewrite (setitem_same _ _ _ Y). }
  (* fill missing *)
  assert (forall col, mem col filled_fields = true -> fill_unknown out col = Ok out) as B2.
  { intros col Hc. unfold fill_unknown, has_column, getitem.
    pose proof (V col) as C. rewrite (clean_view_filled parse_date df col Hc) in C.
    destruct (column df col) as [s|]; cbn [option_map] in C; rewrite C; [|reflexivity].
    cbn [bind]. rewrite fillna_idem by reflexivity. now rewrite (setitem_same _ _ _ C). }
  assert (fill_missing out = Ok out) as B2'.
  { unfold fill_missing. cbn [for_each].
    rewrite (B2 "director" eq_refl). cbn [bind].
    rewrite (B2 "cast" eq_refl). cbn [bind].
    rewrite (B2 "country" eq_refl). cbn [bind].
    now rewrite (B2 "rating" eq_refl). }
  (* type *)
  assert (normalize_type out = Ok out) as B3.
  { unfold normalize_type, has_column, getitem.
    pose proof (V "type") as T.
    rewrite (clean_view_original parse_date df "type" eq_refl) in T.
    unfold type_is_text in Ht.
    destruct (column df "type") as [s|] eqn:Es; rewrite T; [|reflexivity].
    cbn [bind]. unfold str_strip.
    assert (str_accessor s = Ok s) as Ha.
    { unfold str_accessor in *. destruct s as [|x s]; [reflexivity|].
      destruct (forallb numeric_cell (x :: s) || forallb datetime_cell (x :: s));
        [discriminate|reflexivity]. }
    change (map (normalized_cell parse_date "type" s) s)
      with (map (str_method PyStr.strip) s) in *.
    rewrite (str_accessor_after PyStr.strip s (column_csv df "type" s W Es) Ha).
    cbn [bind]. rewrite str_method_strip_idem. now rewrite (setitem_same _ _ _ T). }
  (* genres *)
  assert (split_listed_in out = Ok out) as B4.
  { unfold split_listed_in, has_column, getitem.
    pose proof (V "listed_in") as L. pose proof (V "genres_list") as G.
    rewrite (clean_view_filled parse_date df "listed_in" eq_refl) in L.
    rewrite clean_view_genres in G.
    destruct (column df "listed_in") as [s|]; cbn [option_map] in L; rewrite L.
    - cbn [bind]. rewrite fillna_idem by reflexivity.
      rewrite (setitem_same _ _ _ L), L. cbn [bind].
      unfold apply. rewrite (mapM_pure _ _ _ genres_of_cell). cbn [bind].
      now rewrite (setitem_same _ _ _ G).
    - rewrite N. now rewrite (setitem_same _ _ _ G). }
  (* durations *)
  assert (parse_durations out = Ok out) as B5.
  { unfold parse_durations, has_column, getitem, setitem_scalar.
    pose proof (V "duration") as D. pose proof (V "duration_parsed") as P.
    rewrite (clean_view_original parse_date df "duration" eq_refl) in D.
    rewrite clean_view_duration in P.
    destruct (column df "duration") as [s|]; rewrite D.
    - cbn [bind]. unfold apply. rewrite (mapM_pure _ _ _ parse_duration_cell).
      cbn [bind].
      assert (map (normalized_cell parse_date "duration" s) s = s) as ->
          by (apply map_fixed; reflexivity).
      now rewrite (setitem_same _ _ _ P).
    - rewrite N. now rewrite (setitem_same _ _ _ P). }
  (* country *)
  assert (clean_country out = Ok out) as B6.
  { unfold clean_country, has_column, getitem, setitem_scalar.
    pose proof (V "country") as C. pose proof (V "primary_country") as P.
    rewrite (clean_view_filled parse_date df "country" eq_refl) in C.
    rewrite clean_view_country in P.
    destruct (column df "country") as [s|]; cbn [option_map] in C; rewrite C.
    - cbn [bind]. unfold apply. rewrite (mapM_pure _ _ _ primary_country_of_cell).
      cbn [bind]. now rewrite (setitem_same _ _ _ P).
    - rewrite N. now rewrite (setitem_same _ _ _ P). }
  unfold clean_data. rewrite (rename_fixed out (labels_fixed df out E)).
  rewrite B1. cbn [bind]. rewrite B2'. cbn [bind]. rewrite B3. cbn [bind].
  rewrite B4. cbn [bind]. rewrite B5. cbn [bind]. now rewrite B6.
Qed.

End Idempotent.

(* ================================================================== *)
(** * Top-N tables *)

Section TopN.

Context {K : Type}.

Lemma insert_desc_sorted (x : K * nat) (l : list (K * nat)) :
  StronglySorted count_ge l -> StronglySorted count_ge (insert_desc x l).
Proof.
  induction l as [|y l IH]; simpl; intros Hs.
  - repeat constructor.
  - inversion Hs as [|? ? Hs' Hy]; subst.
    destruct (Nat.leb_spec (snd y) (snd x)) as [Hle|Hgt].
    + constructor; [exact Hs|]. constructor; [exact Hle|].
      rewrite Forall_forall in *. intros z Hz. specialize (Hy z Hz).
      unfold count_ge in *. lia.
    + constructor; [now apply IH|].
      rewrite Forall_forall in *. intros z Hz.
      apply (Permutation_in _ (insert_desc_perm x l)) in Hz.
      destruct Hz as [<-|Hz]; [unfold count_ge; lia|auto].
Qed.

Lemma sort_desc_sorted (l : list (K * nat)) : StronglySorted count_ge (sort_desc l).
Proof.
  induction l as [|x l IH]; simpl; [constructor|]. now apply insert_desc_sorted.
Qed.

Lemma insert_desc_stable (m : nat) (x : K * nat) (l : list (K * nat)) :
  filter (fun kn => Nat.eqb (snd kn) m) (insert_desc x l)
  = filter (fun kn => Nat.eqb (snd kn) m) (x :: l).
Proof.
  induction l as [|y l IH]; [reflexivity|].
  cbn [insert_desc]. destruct (Nat.leb_spec (snd y) (snd x)) as [Hle|Hgt]; [reflexivity|].
  cbn [filter] in *. rewrite IH.
  destruct (Nat.eqb_spec (snd y) m) as [Hy|Hy];
    destruct (Nat.eqb_spec (snd x) m) as [Hx|Hx]; try reflexivity. lia.
Qed.

(** Sorting by count keeps the entries of equal count in their order. *)
Lemma sort_desc_stable (m : nat) (l : list (K * nat)) :
  filter (fun kn => Nat.eqb (snd kn) m) (sort_desc l)
  = filter (fun kn => Nat.eqb (snd kn) m) l.
Proof.
  induction l as [|x l IH]; [reflexivity|].
  cbn [sort_desc fold_right]. fold (sort_desc l).
  rewrite insert_desc_stable. cbn [filter]. now rewrite IH.
Qed.

Lemma sorted_split (l1 l2 : list (K * nat)) :
  StronglySorted count_ge (l1 ++ l2) ->
  StronglySorted count_ge l1
  /\ forall x y, In x l1 -> In y l2 -> snd y <= snd x.
Proof.
  induction l1 as [|a l1 IH]; simpl; intros H.
  - split; [constructor|]. intros x y [].
  - inversion H as [|? ? Hs Ha]; subst. destruct (IH Hs) as [IH1 IH2]. split.
    + constructor; [exact IH1|]. rewrite Forall_forall in *.
      intros z Hz. apply Ha. apply in_or_app. now left.
    + intros x y [<-|Hx] Hy; [|now apply IH2].
      rewrite Forall_forall in Ha. apply (Ha y). apply in_or_app. now right.
Qed.

(** X7.  [most_common(n)], which picks the genres and the actors to
    plot: it returns the [n] entries of the counter with the largest
    counts (all of them when there are fewer), by decreasing count,
    entries of equal count in the order in which the counter first saw
    them; no entry left out has a larger count than an entry kept. *)
Theorem most_common_top (n : nat) (c : list (K * nat)) :
  length (most_common n c) = Nat.min n (length c)
  /\ StronglySorted count_ge (most_common n c)
  /\ (exists rest,
        Permutation (most_common n c ++ rest) c
        /\ forall x y, In x (most_common n c) -> In y rest -> snd y <= snd x)
  /\ (forall m, exists later,
        filter (fun kn => Nat.eqb (snd kn) m) c
        = filter (fun kn => Nat.eqb (snd kn) m) (most_common n c) ++ later).
Proof.
  unfold most_common.
  pose proof (sort_desc_sorted c) as S.
  rewrite <- (firstn_skipn n (sort_desc c)) in S.
  destruct (sorted_split _ _ S) as [S1 S2].
  split; [|split; [exact S1|split]].
  - rewrite length_firstn. f_equal.
    exact (Permutation_length (sort_desc_perm c)).
  - exists (skipn n (sort_desc c)). split; [|exact S2].
    rewrite firstn_skipn. apply sort_desc_perm.
  - intros m. exists (filter (fun kn => Nat.eqb (snd kn) m) (skipn n (sort_desc c))).
    rewrite <- filter_app, firstn_skipn. symmetry. apply sort_desc_stable.
Qed.

Lemma incr_total (eqb : K -> K -> bool) (k : K) (c : list (K * nat)) :
  list_sum (map snd (incr eqb k c)) = S (list_sum (map snd c)).
Proof.
  induction c as [|[k0 n0] c IH]; simpl; [reflexivity|].
  destruct (eqb k k0); simpl; [reflexivity|]. rewrite IH. lia.
Qed.

Lemma fold_total (eqb : K -> K -> bool) (l : list K) (c : list (K * nat)) :
  list_sum (map snd (fold_left (fun c k => incr eqb k c) l c))
  = length l + list_sum (map snd c).
Proof.
  revert c. induction l as [|k l IH]; intros c; simpl; [reflexivity|].
  rewrite IH, incr_total. lia.
Qed.

(** The counts of a tally add up to the number of things counted. *)
Lemma tally_total (eqb : K -> K -> bool) (l : list K) :
  list_sum (map snd (tally eqb l)) = length l.
Proof. unfold tally. rewrite fold_total. simpl. lia. Qed.

Lemma total_perm (l l' : list (K * nat)) :
  Permutation l l' -> list_sum (map snd l) = list_sum (map snd l').
Proof.
  induction 1; simpl; try lia.
Qed.

End TopN.

(** The entries of [s.value_counts()]: each value that occurs among the
    values present, with its number of occurrences. *)
Lemma value_counts_entries (s : Series) (k : cell) (n : nat) :
  In (k, n) (value_counts s) <-> n = occurrences cell_eqb k (dropna s) /\ 0 < n.
Proof.
  unfold value_counts.
  rewrite <- (count_of_tally cell_eqb cell_eqb_spec).
  rewrite <- (counter_entries cell_eqb cell_eqb_spec _ k n
                (tally_ok cell_eqb cell_eqb_spec (dropna s))).
  split; intros H.
  - now apply (Permutation_in _ (sort_desc_perm _)).
  - now apply (Permutation_in _ (Permutation_sym (sort_desc_perm _))).
Qed.

Lemma value_counts_total (s : Series) :
  list_sum (map snd (value_counts s)) = length (dropna s).
Proof.
  unfold value_counts. rewrite (total_perm _ _ (sort_desc_perm _)).
  apply tally_total.
Qed.

(* ================================================================== *)
(** * The tallies of genres and of people *)

Lemma all_genres_loop (ls : list (list string)) (c : list (string * nat)) :
  for_each (fun c gl => l <- iterate gl ;; Ok (fold_left (fun c g => incr String.eqb g c) l c))
           (map Seq ls) c
  = Ok (fold_left (fun c g => incr String.eqb g c) (concat ls) c).
Proof.
  revert c. induction ls as [|l ls IH]; intros c; simpl; [reflexivity|].
  now rewrite IH, fold_left_app.
Qed.

(** The two loops of [plot_top_genres] over a column of lists. *)
Lemma all_genres_tally (ls : list (list string)) :
  all_genres (map Seq ls) = Ok (tally String.eqb (concat ls)).
Proof. apply all_genres_loop. Qed.

Lemma occurrences_absent {K : Type} (eqb : K -> K -> bool) (a : K) (l : list K) :
  (forall x, In x l -> eqb a x = false) -> occurrences eqb a l = 0.
Proof.
  unfold occurrences. induction l as [|x l IH]; simpl; [reflexivity|].
  intros H. rewrite (H x (or_introl eq_refl)). apply IH. intros y Hy. apply H. now right.
Qed.

Lemma counted_names_nonempty (cast : Series) (a : string) :
  In a (counted_names cast) -> nonempty a = true.
Proof.
  unfold counted_names. intros H. apply in_flat_map in H as (c & _ & H).
  now apply filter_In in H.
Qed.

Lemma counted_names_length (cast : Series) :
  length (counted_names cast) <= 5 * length (dropna cast).
Proof.
  unfold counted_names. rewrite <- (length_map py_str (dropna cast)).
  induction (map py_str (dropna cast)) as [|c l IH]; cbn [flat_map length]; [lia|].
  rewrite length_app.
  pose proof (filter_length_le nonempty
                (firstn 5 (map PyStr.strip (PyStr.split "," c)))) as H1.
  pose proof (firstn_le_length 5 (map PyStr.strip (PyStr.split "," c))) as H2.
  lia.
Qed.

(** X8.  The tally of actors is a well-kept counter (each name once,
    with a positive count), it never has the empty name as a key, and
    its counts add up to at most five per record that has a cast. *)
Theorem actor_tally_bounds (cast : Series) :
  counter_ok (actor_counter cast)
  /\ count_of String.eqb "" (actor_counter cast) = 0
  /\ (forall n, ~ In (EmptyString, n) (actor_counter cast))
  /\ list_sum (map snd (actor_counter cast)) <= 5 * length (dropna cast).
Proof.
  rewrite actor_counter_tally.
  pose proof (tally_ok String.eqb String.eqb_spec (counted_names cast)) as Hok.
  assert (count_of String.eqb "" (tally String.eqb (counted_names cast)) = 0) as H0.
  { rewrite (count_of_tally String.eqb String.eqb_spec).
    apply occurrences_absent. intros x Hx.
    pose proof (counted_names_nonempty cast x Hx). now destruct x. }
  split; [exact Hok|]. split; [exact H0|]. split.
  - intros n Hn.
    apply (counter_entries String.eqb String.eqb_spec _ _ _ Hok) in Hn as [-> Hn].
    rewrite H0 in Hn. lia.
  - rewrite tally_total. apply counted_names_length.
Qed.

Section GenreTally.

Variable parse_date : Series -> cell -> option date.

(** X9.  The genre counter that [plot_top_genres] builds on the frame
    [clean_data] returns, for an input with a [listed_in] column: every
    trimmed comma-separated entry of every row is counted, the sentinel
    of a row without genres and empty entries included; the count of a
    genre is its number of occurrences over all rows. *)
Theorem genre_counter_counts (df : DataFrame) (s : Series) :
  well_formed df = true -> type_is_text df = true ->
  column df "listed_in" = Some s ->
  exists out g c,
    clean_data parse_date df = Ok out
    /\ lookup "genres_list" (columns out) = Some g
    /\ all_genres g = Ok c
    /\ counter_ok c
    /\ (forall name, count_of String.eqb name c
                     = occurrences String.eqb name (flat_map row_genres s))
    /\ list_sum (map snd c) = length (flat_map row_genres s)
    /\ length s <= list_sum (map snd c).
Proof.
  intros _ Ht Hs.
  destruct (clean_data_view parse_date df Ht) as (out & E & N & H).
  pose proof (H "genres_list") as G. rewrite clean_view_genres, Hs in G.
  unfold view_of in G.
  assert (map genres_cell (fillna (Str "Unknown") s) = map Seq (map row_genres s)) as Eg.
  { unfold fillna. rewrite !map_map. apply map_ext. reflexivity. }
  rewrite Eg in G.
  assert (concat (map row_genres s) = flat_map row_genres s) as Ec
      by (symmetry; apply flat_map_concat_map).
  exists out, (map Seq (map row_genres s)), (tally String.eqb (flat_map row_genres s)).
  split; [exact E|]. split; [exact G|].
  split; [now rewrite all_genres_tally, Ec|].
  split; [apply (tally_ok String.eqb String.eqb_spec)|].
  split; [intros name; apply (count_of_tally String.eqb String.eqb_spec)|].
  split; [apply tally_total|].
  rewrite tally_total. clear. induction s as [|x s IH]; simpl; [lia|].
  rewrite length_app. unfold row_genres at 1. rewrite length_map.
  unfold PyStr.split. destruct (PyStr.split_aux "," (py_str (fill_cell x))). simpl. lia.
Qed.

End GenreTally.

Lemma directors_known (s : Series) :
  directors s
  = map (fun x => Str (py_str x))
        (filter (fun x => notna x && negb (String.eqb (py_str x) "Unknown")) s).
Proof.
  unfold directors, astype_str, dropna.
  induction s as [|x s IH]; simpl; [reflexivity|].
  destruct (notna x); simpl; [|exact IH].
  destruct (String.eqb (py_str x) "Unknown"); simpl; now rewrite IH.
Qed.

Lemma occurrences_directed (d : string) (s : Series) :
  String.eqb d "Unknown" = false ->
  occurrences cell_eqb (Str d) (directors s) = length (rows_directed_by d s).
Proof.
  intros Hd. rewrite directors_known. unfold occurrences, rows_directed_by.
  induction s as [|x s IH]; simpl; [reflexivity|].
  destruct (notna x); simpl; [|exact IH].
  destruct (String.eqb_spec (py_str x) "Unknown") as [Hu|Hu]; simpl.
  - rewrite Hu. rewrite String.eqb_sym, Hd. exact IH.
  - rewrite (String.eqb_sym (py_str x) d).
    destruct (String.eqb d (py_str x)); simpl; now rewrite IH.
Qed.

Lemma directors_text (s : Series) : dropna (directors s) = directors s.
Proof.
  rewrite directors_known. unfold dropna. apply filter_all.
  apply forallb_map_all. reflexivity.
Qed.

(** X10.  The director counts that [top_directors_actors] plots: a
    director [d] other than "Unknown" is an entry exactly when some row
    names it, with the number of rows that name it; "Unknown" and the
    missing marker are never entries; the counts add up to the number of
    rows with a known director. *)
Theorem director_counts (director : Series) (d : string) (n : nat) :
  String.eqb d "Unknown" = false ->
  (In (Str d, n) (value_counts (directors director))
   <-> n = length (rows_directed_by d director) /\ 0 < n)
  /\ (forall m, ~ In (Str "Unknown", m) (value_counts (directors director)))
  /\ (forall m, ~ In (NaN, m) (value_counts (directors director)))
  /\ list_sum (map snd (value_counts (directors director)))
     = length (filter (fun x => notna x && negb (String.eqb (py_str x) "Unknown"))
                      director).
Proof.
  intros Hd. split; [|split; [|split]].
  - rewrite value_counts_entries, directors_text, (occurrences_directed d _ Hd).
    reflexivity.
  - intros m Hm. apply value_counts_entries in Hm as [-> Hm].
    rewrite directors_text in Hm.
    rewrite occurrences_absent in Hm; [lia|].
    intros x Hx. unfold directors in Hx. apply filter_In in Hx as [_ Hx].
    destruct (cell_eqb_spec (Str "Unknown") x) as [<-|]; [discriminate|reflexivity].
  - intros m Hm. apply value_counts_entries in Hm as [-> Hm].
    rewrite directors_text in Hm.
    rewrite occurrences_absent in Hm; [lia|].
    intros x Hx. rewrite directors_known in Hx.
    apply in_map_iff in Hx as (x0 & <- & _). reflexivity.
  - rewrite value_counts_total, directors_text, directors_known. apply length_map.
Qed.

(* ================================================================== *)
(** * What a run writes *)

Lemma subseq_nil_l (names : list string) : subseq [] names.
Proof. induction names; constructor; assumption. Qed.

Lemma subseq_refl (l : list string) : subseq l l.
Proof. induction l; [constructor|apply subseq_take; assumption]. Qed.

Lemma subseq_app (l1 l2 n1 n2 : list string) :
  subseq l1 n1 -> subseq l2 n2 -> subseq (l1 ++ l2) (n1 ++ n2).
Proof.
  intros H1 H2. induction H1; simpl;
    [exact H2|apply subseq_skip|apply subseq_take]; assumption.
Qed.

Lemma subseq_trans (l m n : list string) : subseq l m -> subseq m n -> subseq l n.
Proof.
  intros H1 H2. revert l H1. induction H2; intros l0 H1.
  - exact H1.
  - apply subseq_skip. now apply IHsubseq.
  - inversion H1; subst.
    + apply subseq_skip. now apply IHsubseq.
    + apply subseq_take. now apply IHsubseq.
Qed.

Lemma subseq_In (l names : list string) (x : string) :
  subseq l names -> In x l -> In x names.
Proof.
  induction 1; simpl; intros Hx; [contradiction|auto|].
  destruct Hx; auto.
Qed.

Lemma subseq_NoDup (l names : list string) :
  subseq l names -> NoDup names -> NoDup l.
Proof.
  induction 1; intros Hn; [constructor| |].
  - inversion Hn; auto.
  - inversion Hn as [|? ? Hx Hn']; subst. constructor; [|auto].
    intros Hin. apply Hx. exact (subseq_In _ _ _ H Hin).
Qed.

Lemma writes_within_refl (names : list string) (w : world) : writes_within names w w.
Proof.
  split; [reflexivity|]. exists [], []. rewrite !app_nil_r.
  repeat split. apply subseq_nil_l.
Qed.

Lemma writes_within_trans (n1 n2 : list string) (w1 w2 w3 : world) :
  writes_within n1 w1 w2 -> writes_within n2 w2 w3 ->
  writes_within (n1 ++ n2) w1 w3.
Proof.
  intros (D1 & o1 & f1 & S1 & F1 & Q1) (D2 & o2 & f2 & S2 & F2 & Q2).
  split; [congruence|]. exists (o1 ++ o2), (f1 ++ f2).
  rewrite S2, S1, F2, F1, !app_assoc, map_app. repeat split.
  now apply subseq_app.
Qed.

Lemma writes_within_weaken (n n' : list string) (w w' : world) :
  subseq n n' -> writes_within n w w' -> writes_within n' w w'.
Proof.
  intros Hs (D & o & f & S & F & Q). split; [exact D|].
  exists o, f. repeat split; auto. exact (subseq_trans _ _ _ Q Hs).
Qed.

Lemma io_writes_ret {A : Type} (a : A) : io_writes [] (io_ret a).
Proof. intros w. apply writes_within_refl. Qed.

Lemma io_writes_lift {A : Type} (r : result A) : io_writes [] (lift r).
Proof. intros w. apply writes_within_refl. Qed.

Lemma io_writes_print (s : string) : io_writes [] (print s).
Proof.
  intros w. split; [reflexivity|]. exists [s], []. simpl. rewrite app_nil_r.
  repeat split. constructor.
Qed.

Lemma io_writes_file (path : string) (a : artifact) : io_writes [path] (write_file path a).
Proof.
  intros w. split; [reflexivity|]. exists [], [(path, a)]. simpl. rewrite app_nil_r.
  repeat split. apply subseq_refl.
Qed.

Lemma io_writes_bind {A B : Type} (n1 n2 : list string) (m : io A) (k : A -> io B) :
  io_writes n1 m -> (forall a, io_writes n2 (k a)) -> io_writes (n1 ++ n2) (io_bind m k).
Proof.
  intros Hm Hk w. unfold io_bind. specialize (Hm w).
  destruct (m w) as [[a|e] w']; simpl in *.
  - exact (writes_within_trans _ _ _ _ _ Hm (Hk a w')).
  - apply (writes_within_weaken n1); [|exact Hm].
    rewrite <- (app_nil_r n1) at 1. apply subseq_app; [apply subseq_refl|apply subseq_nil_l].
Qed.

Lemma io_writes_weaken {A : Type} (n n' : list string) (m : io A) :
  subseq n n' -> io_writes n m -> io_writes n' m.
Proof. intros Hs Hm w. exact (writes_within_weaken _ _ _ _ Hs (Hm w)). Qed.

(** A chart: the file, then the line that reports it. *)
Lemma io_writes_chart (path line : string) :
  io_writes [path] (savefig path ;; print line).
Proof.
  apply (io_writes_bind [path] []); [apply io_writes_file|].
  intros _. apply io_writes_print.
Qed.

Lemma io_writes_nothing {A : Type} (names : list string) (m : io A) :
  io_writes [] m -> io_writes names m.
Proof. apply io_writes_weaken. apply subseq_nil_l. Qed.

Lemma plot_movies_vs_tv_writes (df : DataFrame) :
  io_writes ["plots/movies_vs_tv.png"] (plot_movies_vs_tv df).
Proof.
  unfold plot_movies_vs_tv.
  apply (io_writes_bind [] [_]); [apply io_writes_lift|]. intros s.
  apply io_writes_chart.
Qed.

Lemma plot_top_genres_writes (df : DataFrame) (n : nat) :
  io_writes ["plots/top_genres.png"] (plot_top_genres df n).
Proof.
  unfold plot_top_genres.
  apply (io_writes_bind [] [_]); [apply io_writes_lift|]. intros s.
  apply (io_writes_bind [] [_]); [apply io_writes_lift|]. intros c.
  apply (io_writes_bind [] [_]); [apply io_writes_lift|]. intros gc.
  apply io_writes_chart.
Qed.

Lemma plot_yearly_trend_writes (df : DataFrame) :
  io_writes ["plots/content_added_per_year.png"] (plot_yearly_trend df).
Proof.
  unfold plot_yearly_trend.
  destruct (negb (has_column df "year_added") || _).
  - apply io_writes_nothing, io_writes_print.
  - apply (io_writes_bind [] [_]); [apply io_writes_lift|]. intros s.
    apply (io_writes_bind [] [_]); [apply io_writes_lift|]. intros c.
    apply io_writes_chart.
Qed.

Lemma plot_top_countries_writes (df : DataFrame) (n : nat) :
  io_writes ["plots/top_countries.png"] (plot_top_countries df n).
Proof.
  unfold plot_top_countries.
  apply (io_writes_bind [] [_]); [apply io_writes_lift|]. intros s.
  apply io_writes_chart.
Qed.

Lemma plot_rating_distribution_writes (df : DataFrame) (n : nat) :
  io_writes ["plots/rating_distribution.png"] (plot_rating_distribution df n).
Proof.
  unfold plot_rating_distribution. destruct (negb (has_column df "rating")).
  - apply io_writes_nothing, io_writes_print.
  - apply (io_writes_bind [] [_]); [apply io_writes_lift|]. intros s.
    apply io_writes_chart.
Qed.

Lemma duration_chart_writes (df : DataFrame) (path line : string) :
  io_writes [path]
    (if negb (frame_empty df) && has_column df "duration_parsed" then
       s <~ lift (getitem df "duration_parsed") ;;
       (if negb (Nat.eqb (length (dropna s)) 0) then savefig path ;; print line
        else io_ret tt)
     else io_ret tt).
Proof.
  destruct (negb (frame_empty df) && has_column df "duration_parsed").
  - apply (io_writes_bind [] [_]); [apply io_writes_lift|]. intros s.
    destruct (negb (Nat.eqb (length (dropna s)) 0)).
    + apply io_writes_chart.
    + apply io_writes_nothing, io_writes_ret.
  - apply io_writes_nothing, io_writes_ret.
Qed.

Lemma duration_insights_writes (df : DataFrame) :
  io_writes ["plots/movie_duration_distribution.png"; "plots/show_seasons_count.png"]
            (duration_insights df).
Proof.
  unfold duration_insights.
  apply (io_writes_bind [] [_; _]); [apply io_writes_lift|]. intros movies.
  apply (io_writes_bind [] [_; _]); [apply io_writes_lift|]. intros shows.
  apply (io_writes_bind [_] [_]); [apply duration_chart_writes|]. intros _.
  apply duration_chart_writes.
Qed.

Lemma top_directors_actors_writes (df : DataFrame) (n : nat) :
  io_writes ["plots/top_directors.png"; "plots/top_actors.png"]
            (top_directors_actors df n).
Proof.
  unfold top_directors_actors.
  apply (io_writes_bind [] [_; _]); [apply io_writes_lift|]. intros s.
  apply (io_writes_bind [_] [_]).
  - destruct (negb (Nat.eqb (length (directors s)) 0)).
    + apply io_writes_chart.
    + apply io_writes_nothing, io_writes_ret.
  - intros _. destruct (has_column df "cast").
    + apply (io_writes_bind [] [_]); [apply io_writes_lift|]. intros c.
      destruct (most_common n (actor_counter c)).
      * apply io_writes_nothing, io_writes_ret.
      * apply (io_writes_bind [] [_]); [apply io_writes_lift|]. intros ac.
        apply io_writes_chart.
    + apply io_writes_nothing, io_writes_ret.
Qed.

Lemma save_summary_writes (df : DataFrame) :
  io_writes ["output/summary_stats.csv"] (save_summary df).
Proof.
  unfold save_summary.
  apply (io_writes_bind [] [_]); [apply io_writes_lift|]. intros d.
  apply (io_writes_bind [_] []); [apply io_writes_file|]. intros _.
  apply io_writes_print.
Qed.

Lemma makedirs_present (d : string) (w : world) :
  existsb (String.eqb d) (dirs w) = true -> makedirs d w = (Ok tt, w).
Proof. intros H. unfold makedirs. rewrite H. now destruct w. Qed.

Lemma makedirs_result (d : string) (w : world) :
  exists w',
    makedirs d w = (Ok tt, w')
    /\ existsb (String.eqb d) (dirs w') = true
    /\ (forall d', existsb (String.eqb d') (dirs w) = true ->
                   existsb (String.eqb d') (dirs w') = true)
    /\ incl (dirs w) (dirs w')
    /\ stdout w' = stdout w /\ files w' = files w.
Proof.
  unfold makedirs. eexists. split; [reflexivity|]. cbn [dirs stdout files].
  destruct (existsb (String.eqb d) (dirs w)) eqn:E.
  - repeat split; auto. apply incl_refl.
  - repeat split.
    + rewrite existsb_app. simpl. now rewrite String.eqb_refl, orb_true_r.
    + intros d' H. rewrite existsb_app, H. reflexivity.
    + apply incl_appl, incl_refl.
Qed.

Lemma existsb_eqb_In (d : string) (l : list string) :
  existsb (String.eqb d) l = true -> In d l.
Proof.
  intros H. apply existsb_exists in H as (x & Hx & Ex).
  apply String.eqb_eq in Ex. now subst.
Qed.

(** X11.  [ensure_dirs] can be run again: after it the two directories
    exist, the directories that were there are still there, nothing is
    printed and no file is written; run a second time it changes
    nothing. *)
Theorem ensure_dirs_idempotent (w : world) :
  exists w',
    ensure_dirs w = (Ok tt, w')
    /\ ensure_dirs w' = (Ok tt, w')
    /\ In "plots" (dirs w') /\ In "output" (dirs w')
    /\ incl (dirs w) (dirs w')
    /\ stdout w' = stdout w /\ files w' = files w.
Proof.
  destruct (makedirs_result "plots" w) as (w1 & E1 & P1 & K1 & I1 & S1 & F1).
  destruct (makedirs_result "output" w1) as (w2 & E2 & P2 & K2 & I2 & S2 & F2).
  exists w2. unfold ensure_dirs, io_bind. rewrite E1, E2.
  rewrite (makedirs_present "plots" w2 (K2 _ P1)), (makedirs_present "output" w2 P2).
  repeat split.
  - apply existsb_eqb_In. exact (K2 _ P1).
  - apply existsb_eqb_In. exact P2.
  - exact (incl_tran I1 I2).
  - congruence.
  - congruence.
Qed.

Section RunWrites.

Variable parse_date : Series -> cell -> option date.
Variable path_exists : string -> bool.
Variable read_csv : string -> result DataFrame.

Lemma read_data_writes (path : string) :
  io_writes [] (read_data path_exists read_csv path).
Proof.
  unfold read_data. destruct (negb (path_exists path)).
  - apply (io_writes_bind [] []); [apply io_writes_print|]. intros _.
    apply io_writes_lift.
  - apply io_writes_lift.
Qed.

Lemma pipeline_writes (args : Args) :
  io_writes artifact_names
    (df <~ read_data path_exists read_csv (csv args) ;;
     df <~ lift (clean_data parse_date df) ;;
     plot_movies_vs_tv df ;;
     plot_top_genres df (top_genres args) ;;
     plot_yearly_trend df ;;
     plot_top_countries df (top_countries args) ;;
     plot_rating_distribution df 20 ;;
     duration_insights df ;;
     top_directors_actors df (top_people args) ;;
     save_summary df ;;
     print "All done. Plots are in the ./plots directory and summary in ./output.").
Proof.
  apply (io_writes_bind [] artifact_names); [apply read_data_writes|]. intros df0.
  apply (io_writes_bind [] artifact_names); [apply io_writes_lift|]. intros df.
  unfold artifact_names.
  apply (io_writes_bind [_] (_ :: _)); [apply plot_movies_vs_tv_writes|]. intros _.
  apply (io_writes_bind [_] (_ :: _)); [apply plot_top_genres_writes|]. intros _.
  apply (io_writes_bind [_] (_ :: _)); [apply plot_yearly_trend_writes|]. intros _.
  apply (io_writes_bind [_] (_ :: _)); [apply plot_top_countries_writes|]. intros _.
  apply (io_writes_bind [_] (_ :: _)); [apply plot_rating_distribution_writes|]. intros _.
  apply (io_writes_bind [_; _] (_ :: _)); [apply duration_insights_writes|]. intros _.
  apply (io_writes_bind [_; _] (_ :: _)); [apply top_directors_actors_writes|]. intros _.
  apply (io_writes_bind [_] []); [apply save_summary_writes|]. intros _.
  apply io_writes_print.
Qed.

(** X12.  Whatever the file and however the run ends, [main] creates
    the directories [plots] and [output] and nothing else, and the files
    it writes are some of the ten artifacts, in the order of the list:
    none is written twice and no other file is written. *)
Theorem main_writes_artifacts (args : Args) :
  let w := snd (run parse_date path_exists read_csv args) in
  dirs w = ["plots"; "output"]
  /\ subseq (map fst (files w)) artifact_names
  /\ NoDup (map fst (files w))
  /\ (forall path, In path (map fst (files w)) -> In path artifact_names).
Proof.
  cbv zeta. unfold run, main.
  set (rest := io_bind (read_data path_exists read_csv (csv args)) _).
  assert (io_writes artifact_names rest) as Hr by apply pipeline_writes.
  set (w' := mkworld [] ["plots"; "output"] []).
  assert (dirs w' = ["plots"; "output"]) as D by reflexivity.
  assert (io_bind ensure_dirs (fun _ => rest) initial_world = rest w') as ->
      by reflexivity.
  destruct (Hr w') as (D' & o & fs & So & Fs & Q).
  simpl in Fs.
  assert (subseq (map fst (files (snd (rest w')))) artifact_names) as Q'
      by now rewrite Fs.
  split; [congruence|]. split; [exact Q'|]. split.
  - apply (subseq_NoDup _ _ Q'). unfold artifact_names.
    repeat (constructor; [simpl; intuition discriminate|]).
    constructor.
  - intros path. exact (subseq_In _ _ _ Q').
Qed.

End RunWrites.

(* ================================================================== *)
(** * How each renderer ends *)

Lemma fst_bind {A B : Type} (m : io A) (k : A -> io B) (w : world) :
  fst (io_bind m k w) =
  match fst (m w) with
  | Ok a => fst (k a (snd (m w)))
  | Raise e => Raise e
  end.
Proof. unfold io_bind. destruct (m w) as [[a|e] w']; reflexivity. Qed.

Lemma chart_saved (path : string) (w : world) :
  (savefig path ;; print ("Saved " ++ path)%string) w = (Ok tt, saved path w).
Proof. reflexivity. Qed.

Lemma tally_nil {K : Type} (eqb : K -> K -> bool) (l : list K) :
  tally eqb l = [] -> l = [].
Proof.
  intros H. pose proof (tally_total eqb l) as T. rewrite H in T.
  destruct l; [reflexivity|discriminate].
Qed.

Lemma most_common_nil {K : Type} (n : nat) (c : list (K * nat)) :
  most_common n c = [] <-> n = 0 \/ c = [].
Proof.
  split.
  - intros H. destruct n; [now left|]. right.
    destruct c as [|x c]; [reflexivity|]. exfalso.
    unfold most_common in H.
    pose proof (Permutation_length (sort_desc_perm (x :: c))) as L.
    destruct (sort_desc (x :: c)); simpl in L, H; discriminate.
  - intros [->| ->]; [reflexivity|]. unfold most_common. simpl. apply firstn_nil.
Qed.

(** [plot_top_genres] on a column of lists: it raises when it has no
    genre to plot, and saves its chart otherwise. *)
Lemma plot_top_genres_result (df : DataFrame) (ls : list (list string)) (n : nat)
      (w : world) :
  lookup "genres_list" (columns df) = Some (map Seq ls) ->
  plot_top_genres df n w =
  if Nat.eqb n 0 || Nat.eqb (length (concat ls)) 0
  then (Raise ValueError, w)
  else (Ok tt, saved "plots/top_genres.png" w).
Proof.
  intros H. unfold plot_top_genres, io_bind, lift, getitem at 1.
  rewrite H, all_genres_tally.
  destruct (most_common n (tally String.eqb (concat ls))) as [|x top] eqn:E.
  - apply most_common_nil in E. simpl.
    destruct E as [->|E]; [reflexivity|].
    apply tally_nil in E. rewrite E. simpl. now rewrite orb_true_r.
  - assert (Nat.eqb n 0 || Nat.eqb (length (concat ls)) 0 = false) as ->.
    { apply orb_false_intro.
      - apply Nat.eqb_neq. intros ->. discriminate E.
      - apply Nat.eqb_neq. intros Hl. destruct (concat ls); [|discriminate].
        unfold most_common in E. simpl in E. rewrite firstn_nil in E. discriminate. }
    reflexivity.
Qed.

Lemma isna_years (ys : Series) :
  forallb year_cell ys = true ->
  forallb isna ys = match present_years ys with [] => true | _ => false end.
Proof.
  induction ys as [|y ys IH]; simpl; [reflexivity|].
  intros H. apply andb_prop in H as [Hy Hs].
  destruct y; try discriminate; simpl; [now apply IH|reflexivity].
Qed.

(** X13.  [plot_yearly_trend] on a [year_added] column of years and
    missing markers: with no year at all it prints its message and
    writes nothing; with at least one year it saves its chart; it never
    raises. *)
Theorem yearly_chart_rule (df : DataFrame) (ys : Series) (w : world) :
  lookup "year_added" (columns df) = Some ys ->
  forallb year_cell ys = true ->
  plot_yearly_trend df w =
  match present_years ys with
  | [] => (Ok tt, printed "No year_added information available to plot yearly trend." w)
  | _ => (Ok tt, saved "plots/content_added_per_year.png" w)
  end.
Proof.
  intros H Y. unfold plot_yearly_trend, has_column. rewrite H. cbn [negb orb].
  rewrite (isna_years ys Y).
  destruct (present_years ys) as [|z zs] eqn:E; [reflexivity|].
  unfold io_bind, lift, getitem. rewrite H, (yearly_series_years ys Y). reflexivity.
Qed.

Lemma plot_yearly_trend_no_column (df : DataFrame) (w : world) :
  lookup "year_added" (columns df) = None ->
  plot_yearly_trend df w
  = (Ok tt, printed "No year_added information available to plot yearly trend." w).
Proof. intros H. unfold plot_yearly_trend, has_column. now rewrite H. Qed.

Lemma plot_movies_vs_tv_saved (df : DataFrame) (s : Series) (w : world) :
  lookup "type" (columns df) = Some s ->
  plot_movies_vs_tv df w = (Ok tt, saved "plots/movies_vs_tv.png" w).
Proof. intros H. unfold plot_movies_vs_tv, io_bind, lift, getitem. now rewrite H. Qed.

Lemma plot_top_countries_saved (df : DataFrame) (s : Series) (n : nat) (w : world) :
  lookup "primary_country" (columns df) = Some s ->
  plot_top_countries df n w = (Ok tt, saved "plots/top_countries.png" w).
Proof. intros H. unfold plot_top_countries, io_bind, lift, getitem. now rewrite H. Qed.

Lemma plot_rating_distribution_ok (df : DataFrame) (n : nat) (w : world) :
  fst (plot_rating_distribution df n w) = Ok tt.
Proof.
  unfold plot_rating_distribution, has_column, io_bind, lift, getitem.
  destruct (lookup "rating" (columns df)); reflexivity.
Qed.

Lemma duration_block_ok (fr : DataFrame) (path line : string) (w : world) :
  fst ((if negb (frame_empty fr) && has_column fr "duration_parsed" then
          s <~ lift (getitem fr "duration_parsed") ;;
          (if negb (Nat.eqb (length (dropna s)) 0) then savefig path ;; print line
           else io_ret tt)
        else io_ret tt) w) = Ok tt.
Proof.
  destruct (negb (frame_empty fr)); cbn [andb]; [|reflexivity].
  unfold has_column, io_bind, lift, getitem.
  destruct (lookup "duration_parsed" (columns fr)) as [s|]; [|reflexivity].
  destruct (negb (Nat.eqb (length (dropna s)) 0)); reflexivity.
Qed.

Lemma rows_of_type_ok (df : DataFrame) (ts : Series) (name : string) :
  lookup "type" (columns df) = Some ts -> str_accessor ts = Ok ts ->
  rows_of_type df name
  = Ok (filter_rows (map (fun x => cell_eqb x (Str name)) (map (str_method lower) ts)) df).
Proof.
  intros H Ha. unfold rows_of_type, getitem, str_lower. rewrite H. cbn [bind].
  now rewrite Ha.
Qed.

(** [duration_insights] returns when [.str] takes the [type] column, or
    when there is none. *)
Lemma duration_insights_ok (df : DataFrame) (w : world) :
  match lookup "type" (columns df) with
  | Some ts => str_accessor ts = Ok ts
  | None => True
  end ->
  fst (duration_insights df w) = Ok tt.
Proof.
  intros H. unfold duration_insights, has_column.
  destruct (lookup "type" (columns df)) as [ts|] eqn:E.
  - rewrite !(rows_of_type_ok df ts _ E H).
    rewrite fst_bind. cbn [lift fst snd]. rewrite fst_bind. cbn [lift fst snd].
    rewrite fst_bind, duration_block_ok. apply duration_block_ok.
  - rewrite fst_bind. cbn [lift fst snd]. rewrite fst_bind. cbn [lift fst snd].
    rewrite fst_bind, duration_block_ok. apply duration_block_ok.
Qed.

Lemma top_directors_actors_ok (df : DataFrame) (s : Series) (n : nat) (w : world) :
  lookup "director" (columns df) = Some s ->
  fst (top_directors_actors df n w) = Ok tt.
Proof.
  intros H. unfold top_directors_actors, getitem. rewrite H.
  rewrite fst_bind. cbn [lift fst snd]. rewrite fst_bind.
  assert (forall w0,
             fst ((if negb (Nat.eqb (length (directors s)) 0)
                   then savefig "plots/top_directors.png" ;;
                        print "Saved plots/top_directors.png"
                   else io_ret tt) w0) = Ok tt) as ->
      by (intros w0; destruct (negb (Nat.eqb (length (directors s)) 0)); reflexivity).
  unfold has_column. destruct (lookup "cast" (columns df)) as [c|]; [|reflexivity].
  rewrite fst_bind. cbn [lift fst snd].
  destruct (most_common n (actor_counter c)); reflexivity.
Qed.

Lemma save_summary_ok (df : DataFrame) (d : list (cell * cell)) (w : world) :
  summary df = Ok d ->
  save_summary df w
  = (Ok tt,
     printed "Saved summary to output/summary_stats.csv"
       (mkworld (stdout w) (dirs w) (files w ++ [("output/summary_stats.csv", Table d)]))).
Proof. intros H. unfold save_summary, io_bind, lift. now rewrite H. Qed.

(* ================================================================== *)
(** * How a run ends *)

Lemma concat_repeat_nil {A : Type} (n : nat) : concat (repeat (@nil A) n) = [].
Proof. induction n; simpl; auto. Qed.

Lemma row_genres_length (s : Series) : length s <= length (concat (map row_genres s)).
Proof.
  induction s as [|x s IH]; simpl; [lia|]. rewrite length_app.
  unfold row_genres at 1. rewrite length_map. unfold PyStr.split.
  destruct (PyStr.split_aux "," (py_str (fill_cell x))). simpl. lia.
Qed.

Section Outcome.

Variable parse_date : Series -> cell -> option date.
Variable path_exists : string -> bool.
Variable read_csv : string -> result DataFrame.

(** The steps of [main] after [clean_data], on the frame it returns. *)
Lemma renderers_outcome (df out : DataFrame) (args : Args) (w : world) :
  well_formed df = true -> type_is_text df = true ->
  clean_data parse_date df = Ok out ->
  fst ((plot_movies_vs_tv out ;;
        plot_top_genres out (top_genres args) ;;
        plot_yearly_trend out ;;
        plot_top_countries out (top_countries args) ;;
        plot_rating_distribution out 20 ;;
        duration_insights out ;;
        top_directors_actors out (top_people args) ;;
        save_summary out ;;
        print "All done. Plots are in the ./plots directory and summary in ./output.") w)
  = if negb (has_col df "type") then Raise (KeyError "type")
    else if negb (has_col df "listed_in") || Nat.eqb (nrows df) 0
            || Nat.eqb (top_genres args) 0
         then Raise ValueError
    else if negb (has_col df "director") then Raise (KeyError "director")
    else Ok tt.
Proof.
  intros W Ht E.
  destruct (clean_data_view parse_date df Ht) as (out' & E' & N & V).
  rewrite E in E'. injection E' as <-. unfold view_of in V.
  pose proof (V "type") as Vt.
  rewrite (clean_view_original parse_date df "type" eq_refl) in Vt.
  pose proof (V "genres_list") as Vg. rewrite clean_view_genres in Vg.
  pose proof (V "year_added") as Vy. rewrite clean_view_year in Vy.
  pose proof (V "primary_country") as Vp. rewrite clean_view_country in Vp.
  pose proof (V "director") as Vd.
  rewrite (clean_view_filled parse_date df "director" eq_refl) in Vd.
  unfold has_col.
  (* plot_movies_vs_tv *)
  rewrite fst_bind.
  destruct (column df "type") as [ts|] eqn:Ets; cbn [negb].
  2:{ rewrite plot_movies_vs_tv_no_type; [reflexivity|].
      unfold has_column. now rewrite Vt. }
  rewrite (plot_movies_vs_tv_saved out _ w Vt). cbn [fst snd].
  (* plot_top_genres *)
  rewrite fst_bind.
  assert (exists ls, lookup "genres_list" (columns out) = Some (map Seq ls)
                     /\ Nat.eqb (length (concat ls)) 0
                        = negb (match column df "listed_in" with
                                | Some _ => true
                                | None => false
                                end) || Nat.eqb (nrows df) 0) as (ls & Hg & Hl).
  { destruct (column df "listed_in") as [s|] eqn:Es.
    - exists (map row_genres s). split.
      + rewrite Vg. f_equal. unfold fillna. rewrite !map_map. apply map_ext. reflexivity.
      + cbn [negb orb]. rewrite <- (column_length df _ s W Es).
        pose proof (row_genres_length s) as Hl.
        destruct (Nat.eqb_spec (length s) 0) as [Z|NZ].
        * apply length_zero_iff_nil in Z. subst s. reflexivity.
        * apply Nat.eqb_neq. lia.
    - exists (repeat [] (nrows df)). split.
      + rewrite Vg. f_equal. now rewrite map_repeat.
      + now rewrite concat_repeat_nil. }
  rewrite (plot_top_genres_result out ls _ _ Hg), Hl.
  rewrite (orb_comm (Nat.eqb (top_genres args) 0)).
  destruct (negb match column df "listed_in" with Some _ => true | None => false end
            || Nat.eqb (nrows df) 0 || Nat.eqb (top_genres args) 0); [reflexivity|].
  cbn [fst snd].
  (* plot_yearly_trend *)
  rewrite fst_bind.
  assert (exists ys, lookup "year_added" (columns out) = Some ys
                     /\ forallb year_cell ys = true) as (ys & Hy & Yc).
  { eexists. split; [exact Vy|].
    destruct (column df "date_added");
      [apply to_datetime_year_cells|now apply forallb_repeat]. }
  assert (forall w0, fst (plot_yearly_trend out w0) = Ok tt) as Ry.
  { intros w0. unfold plot_yearly_trend, has_column. rewrite Hy. cbn [negb orb].
    destruct (forallb isna ys); [reflexivity|].
    unfold io_bind, lift, getitem. now rewrite Hy, (yearly_series_years ys Yc). }
  rewrite Ry.
  (* plot_top_countries *)
  rewrite fst_bind, (plot_top_countries_saved out _ _ _ Vp). cbn [fst snd].
  (* plot_rating_distribution *)
  rewrite fst_bind, plot_rating_distribution_ok.
  (* duration_insights *)
  rewrite fst_bind, duration_insights_ok.
  2:{ rewrite Vt. unfold type_is_text in Ht. rewrite Ets in Ht.
      assert (str_accessor ts = Ok ts) as Ha.
      { unfold str_accessor in *. destruct ts as [|x ts]; [reflexivity|].
        destruct (forallb numeric_cell (x :: ts) || forallb datetime_cell (x :: ts));
          [discriminate|reflexivity]. }
      exact (str_accessor_after PyStr.strip ts (column_csv df "type" ts W Ets) Ha). }
  (* top_directors_actors *)
  rewrite fst_bind.
  destruct (column df "director") as [ds|] eqn:Eds; cbn [negb option_map] in *.
  2:{ rewrite top_directors_actors_no_director; [reflexivity|].
      unfold has_column. now rewrite Vd. }
  rewrite (top_directors_actors_ok out _ _ _ Vd).
  (* save_summary *)
  rewrite fst_bind.
  assert (exists p, lookup "primary_country" (columns out) = Some p
                    /\ forallb notna p = true) as (p & Hp & Pn).
  { eexists. split; [exact Vp|].
    destruct (column df "country").
    - apply forallb_map_all. intros x. unfold country_cell.
      destruct (isna x || cell_eqb x (Str "Unknown")); reflexivity.
    - now apply forallb_repeat. }
  destruct (summary_years out ys p Hy Yc Hp Pn) as (d & Hd & _).
  rewrite (save_summary_ok out d _ Hd). reflexivity.
Qed.

(** X14.  How a run ends when the file exists and can be read, as a
    function of the frame read: [AttributeError] when the [type] column
    is not text; otherwise [KeyError] when there is no [type] column;
    otherwise [ValueError] when there is no genre to plot (no
    [listed_in] column, no row, or a top of zero genres); otherwise
    [KeyError] when there is no [director] column; otherwise it runs to
    the end.  No other column is needed. *)
Theorem main_outcome (args : Args) (df : DataFrame) :
  path_exists (csv args) = true ->
  read_csv (csv args) = Ok df ->
  well_formed df = true ->
  fst (run parse_date path_exists read_csv args)
  = (if negb (type_is_text df) then Raise AttributeError
     else if negb (has_col df "type") then Raise (KeyError "type")
     else if negb (has_col df "listed_in") || Nat.eqb (nrows df) 0
             || Nat.eqb (top_genres args) 0
          then Raise ValueError
     else if negb (has_col df "director") then Raise (KeyError "director")
     else Ok tt)
  /\ (exit_status (fst (run parse_date path_exists read_csv args)) = 0%Z
      \/ exit_status (fst (run parse_date path_exists read_csv args)) = 1%Z).
Proof.
  intros Hex Hread W.
  assert (fst (run parse_date path_exists read_csv args)
          = (if negb (type_is_text df) then Raise AttributeError
             else if negb (has_col df "type") then Raise (KeyError "type")
             else if negb (has_col df "listed_in") || Nat.eqb (nrows df) 0
                     || Nat.eqb (top_genres args) 0
                  then Raise ValueError
             else if negb (has_col df "director") then Raise (KeyError "director")
             else Ok tt)) as R.
  { unfold run, main. rewrite fst_bind. cbn [ensure_dirs fst snd].
    change (fst (ensure_dirs initial_world)) with (@Ok unit tt). cbv iota beta.
    rewrite fst_bind. unfold read_data at 1 2. rewrite Hex. cbn [negb].
    rewrite Hread. cbn [lift fst snd]. rewrite fst_bind.
    destruct (type_is_text df) eqn:Ht; cbn [negb].
    - destruct (clean_data_view parse_date df Ht) as (out & E & _).
      rewrite E. cbn [lift fst snd].
      exact (renderers_outcome df out args _ W Ht E).
    - now rewrite (clean_data_raises parse_date df Ht). }
  split; [exact R|]. rewrite R.
  destruct (negb (type_is_text df)); [now right|].
  destruct (negb (has_col df "type")); [now right|].
  destruct (negb (has_col df "listed_in") || Nat.eqb (nrows df) 0
            || Nat.eqb (top_genres args) 0); [now right|].
  destruct (negb (has_col df "director")); [now right|now left].
Qed.

End Outcome.

(* ================================================================== *)
(** * The summary table *)

Lemma dict_update_absent (k : cell) (counts : list (cell * nat)) (d : list (cell * cell)) :
  ~ In k (map fst counts) -> dict_get k (dict_update d counts) = dict_get k d.
Proof.
  unfold dict_update. revert d. induction counts as [|[k0 n0] counts IH]; intros d H;
    simpl; [reflexivity|].
  rewrite IH by (intros Hin; apply H; now right).
  rewrite dict_get_set. simpl.
  destruct (cell_eqb_spec k k0) as [->|]; [|reflexivity].
  exfalso. apply H. now left.
Qed.

Lemma dict_update_present (k : cell) (n : nat) (counts : list (cell * nat))
      (d : list (cell * cell)) :
  NoDup (map fst counts) -> In (k, n) counts ->
  dict_get k (dict_update d counts) = Some (Int (Z.of_nat n)).
Proof.
  unfold dict_update. revert d. induction counts as [|[k0 n0] counts IH]; intros d Hn Hin;
    simpl in *; [contradiction|].
  inversion Hn as [|? ? Hk0 Hn']; subst.
  destruct Hin as [[= -> ->]|Hin].
  - change (fold_left
              (fun d0 kn => dict_set (fst kn) (Int (Z.of_nat (snd kn))) d0) counts
              (dict_set k (Int (Z.of_nat n)) d))
      with (dict_update (dict_set k (Int (Z.of_nat n)) d) counts).
    rewrite (dict_update_absent k counts _ Hk0), dict_get_set.
    destruct (cell_eqb_spec k k); [reflexivity|congruence].
  - now apply IH.
Qed.

Lemma value_counts_keys (s : Series) : NoDup (map fst (value_counts s)).
Proof.
  unfold value_counts.
  apply (Permutation_NoDup (Permutation_sym (Permutation_map fst (sort_desc_perm _)))).
  apply (tally_ok cell_eqb cell_eqb_spec).
Qed.

Lemma idxmax_from_max {K : Type} (best : K * nat) (l : list (K * nat)) :
  exists n, In (idxmax_from best l, n) (best :: l)
            /\ forall kn, In kn (best :: l) -> snd kn <= n.
Proof.
  revert best. induction l as [|y l IH]; intros best; simpl.
  - exists (snd best). split; [left; now destruct best|].
    intros kn [<-|[]]. lia.
  - destruct (IH (if Nat.ltb (snd best) (snd y) then y else best)) as (n & Hin & Hmax).
    exists n. split.
    + destruct Hin as [Hin|Hin]; [|now right; right].
      destruct (Nat.ltb (snd best) (snd y)); [right; now left|now left].
    + intros kn Hkn.
      assert (snd (if Nat.ltb (snd best) (snd y) then y else best) <= n) as Hb
          by (apply Hmax; now left).
      destruct (Nat.ltb_spec (snd best) (snd y)) as [Hlt|Hge];
        destruct Hkn as [<-|[<-|Hkn]]; try lia; apply Hmax; now right.
Qed.

Lemma occurrences_dropna (k : cell) (s : Series) :
  notna k = true -> occurrences cell_eqb k (dropna s) = occurrences cell_eqb k s.
Proof.
  intros Hk. unfold occurrences, dropna.
  induction s as [|x s IH]; simpl; [reflexivity|].
  destruct (notna x) eqn:Ex.
  - simpl. destruct (cell_eqb k x); simpl; now rewrite IH.
  - destruct x; try discriminate. destruct k; try discriminate; exact IH.
Qed.

Lemma occurrences_In (k : cell) (s : Series) :
  0 < occurrences cell_eqb k s <-> In k s.
Proof.
  unfold occurrences. induction s as [|x s IH]; simpl; [split; [lia|tauto]|].
  destruct (cell_eqb_spec k x) as [->|Hk]; simpl.
  - split; [now left|lia].
  - rewrite IH. split; [now right|]. intros [H|H]; [congruence|exact H].
Qed.

(** The most frequent value of a column without missing values. *)
Lemma idxmax_value_counts (x : cell) (p : Series) :
  forallb notna (x :: p) = true ->
  exists top,
    idxmax (value_counts (x :: p)) = Ok top
    /\ In top (x :: p)
    /\ forall y, occurrences cell_eqb y (x :: p) <= occurrences cell_eqb top (x :: p).
Proof.
  intros Hn. set (s := x :: p) in *.
  assert (dropna s = s) as Hd by (apply filter_all; exact Hn).
  pose proof (value_counts_nonempty x p Hn) as Hne. fold s in Hne.
  destruct (value_counts s) as [|best l] eqn:E; [congruence|].
  destruct (idxmax_from_max best l) as (n & Hin & Hmax).
  exists (idxmax_from best l). split; [reflexivity|].
  rewrite <- E in Hin, Hmax.
  apply value_counts_entries in Hin as [Hn0 Hpos]. rewrite Hd in Hn0.
  split.
  - apply occurrences_In. lia.
  - intros y. destruct (Nat.eq_dec (occurrences cell_eqb y s) 0) as [Z|NZ]; [lia|].
    assert (In (y, occurrences cell_eqb y s) (value_counts s)) as Hy.
    { apply value_counts_entries. rewrite Hd. split; [reflexivity|lia]. }
    specialize (Hmax _ Hy). simpl in Hmax. lia.
Qed.

(** X15.  The summary table on a frame with a [year_added] column of
    years and a [primary_country] column without missing values:
    [save_summary] returns; for each value of [type] that occurs in the
    frame (other than the name of a key set later) the table gives the
    number of rows of that type; [total_titles] is the number of rows
    unless a type is called [total_titles], whose count then replaces
    it; [top_country] is a value of [primary_country] that no other
    value outnumbers, and "Unknown" for a frame without rows. *)
Theorem summary_table (df : DataFrame) (ys p : Series) :
  lookup "year_added" (columns df) = Some ys ->
  forallb year_cell ys = true ->
  lookup "primary_country" (columns df) = Some p ->
  forallb notna p = true ->
  exists d,
    summary df = Ok d
    /\ match lookup "type" (columns df) with
       | Some ts =>
           (forall t, In (Str t) ts -> mem t late_keys = false ->
              dict_get (Str t) d
              = Some (Int (Z.of_nat (occurrences cell_eqb (Str t) ts))))
           /\ (~ In (Str "total_titles") ts ->
               dict_get (Str "total_titles") d = Some (Int (Z.of_nat (nrows df))))
       | None => dict_get (Str "total_titles") d = Some (Int (Z.of_nat (nrows df)))
       end
    /\ match p with
       | [] => dict_get (Str "top_country") d = Some (Str "Unknown")
       | _ =>
           exists top,
             dict_get (Str "top_country") d = Some top
             /\ In top p
             /\ forall y, occurrences cell_eqb y p <= occurrences cell_eqb top p
       end.
Proof.
  intros Hy Yc Hp Pn. unfold summary.
  set (d0 := dict_set (Str "total_titles") (Int (Z.of_nat (nrows df))) []).
  set (d1 := match lookup "type" (columns df) with
             | Some ts => dict_update d0 (value_counts ts)
             | None => d0
             end).
  assert ((if has_column df "type"
           then s0 <- getitem df "type" ;; Ok (dict_update d0 (value_counts s0))
           else Ok d0) = Ok d1) as ->.
  { unfold has_column, getitem, d1. destruct (lookup "type" (columns df)); reflexivity. }
  cbn [bind].
  destruct (has_column_some _ _ _ Hy) as [-> ->]. cbn [bind].
  destruct (has_column_some _ _ _ Hp) as [_ ->].
  rewrite (dropna_years ys Yc).
  assert (exists lo hi,
             (if negb (Nat.eqb (length (map Int (present_years ys))) 0)
              then m <- series_min (map Int (present_years ys)) ;;
                   n <- py_int_cell m ;; Ok (Int n)
              else Ok NaN) = Ok lo
             /\ (if negb (Nat.eqb (length (map Int (present_years ys))) 0)
                 then m <- series_max (map Int (present_years ys)) ;;
                      n <- py_int_cell m ;; Ok (Int n)
                 else Ok NaN) = Ok hi) as (lo & hi & -> & Ehi).
  { destruct (present_years ys) as [|z zs]; [simpl; eauto|].
    cbn [map length Nat.eqb negb]. unfold series_min, series_max.
    change (Int z :: map Int zs) with (map Int (z :: zs)).
    rewrite integers_years. cbn [bind py_int_cell int_of_cell]. eauto. }
  cbn [bind]. rewrite Ehi. cbn [bind].
  assert (exists top,
             (if negb (Nat.eqb (length p) 0) then idxmax (value_counts p)
              else Ok (Str "Unknown")) = Ok top
             /\ match p with
                | [] => top = Str "Unknown"
                | _ => In top p
                       /\ forall y, occurrences cell_eqb y p <= occurrences cell_eqb top p
                end) as (top & -> & Htop).
  { destruct p as [|x p]; [simpl; eauto|].
    destruct (idxmax_value_counts x p Pn) as (top & E & Hin & Hmax).
    exists top. cbn [length Nat.eqb negb]. now rewrite E. }
  cbn [bind]. eexists. split; [reflexivity|]. split.
  - unfold d1. destruct (lookup "type" (columns df)) as [ts|].
    + split.
      * intros t Hin Hlate. rewrite !dict_get_set.
        unfold mem, late_keys in Hlate. cbn [existsb] in Hlate.
        apply orb_false_elim in Hlate as [L1 Hlate].
        apply orb_false_elim in Hlate as [L2 Hlate].
        apply orb_false_elim in Hlate as [L3 _].
        cbn [cell_eqb]. rewrite L1, L2, L3.
        apply dict_update_present; [apply value_counts_keys|].
        apply value_counts_entries. rewrite occurrences_dropna by reflexivity.
        split; [reflexivity|]. now apply occurrences_In.
      * intros Hno. rewrite !dict_get_set. cbn [cell_eqb String.eqb].
        change (String.eqb "total_titles" "top_country") with false.
        change (String.eqb "total_titles" "latest_year_added") with false.
        change (String.eqb "total_titles" "earliest_year_added") with false.
        cbv iota.
        rewrite dict_update_absent; [reflexivity|].
        intros Hin. apply Hno. apply in_map_iff in Hin as ([k n] & Hk & Hin).
        simpl in Hk. subst k. apply value_counts_entries in Hin as [-> Hin].
        rewrite occurrences_dropna in Hin by reflexivity. now apply occurrences_In.
    + rewrite !dict_get_set. reflexivity.
  - rewrite dict_get_set. cbn [cell_eqb]. rewrite String.eqb_refl.
    destruct p as [|x p]; [now rewrite Htop|].
    exists top. now split.
Qed.

(* ================================================================== *)
(** * The two charts of durations *)

Lemma lookup_map_columns (g : Series -> Series) (k : string)
      (cols : list (string * Series)) :
  lookup k (map (fun kv => (fst kv, g (snd kv))) cols) = option_map g (lookup k cols).
Proof.
  induction cols as [|[k0 v0] cols IH]; simpl; [reflexivity|].
  destruct (String.eqb k k0); [reflexivity|exact IH].
Qed.

Lemma dropna_select (mask : list bool) (ds : Series) :
  dropna (select mask ds)
  = map snd (filter (fun md => fst md && notna (snd md)) (combine mask ds)).
Proof.
  unfold dropna. revert ds. induction mask as [|b mask IH]; intros [|x ds]; simpl;
    try reflexivity.
  destruct b; simpl; [|apply IH].
  destruct (notna x); simpl; now rewrite IH.
Qed.

Lemma existsb_filter {A : Type} (f : A -> bool) (l : list A) :
  existsb f l = negb (Nat.eqb (length (filter f l)) 0).
Proof.
  induction l as [|x l IH]; simpl; [reflexivity|].
  destruct (f x); simpl; [reflexivity|exact IH].
Qed.

Lemma no_row_selected (mask : list bool) (ds : Series) :
  filter (fun b => b) mask = [] ->
  filter (fun md => fst md && notna (snd md)) (combine mask ds) = [].
Proof.
  revert ds. induction mask as [|b mask IH]; intros [|x ds]; simpl; try reflexivity.
  destruct b; simpl; [discriminate|]. apply IH.
Qed.

Lemma existsb_combine_map {A : Type} (f : A -> bool) (g : cell -> A) (ts ds : Series) :
  existsb (fun md => f (fst md) && notna (snd md)) (combine (map g ts) ds)
  = existsb (fun td => f (g (fst td)) && notna (snd td)) (combine ts ds).
Proof.
  revert ds. induction ts as [|t ts IH]; intros [|x ds]; simpl; try reflexivity.
  now rewrite IH.
Qed.

(** One of the two blocks of [duration_insights], on the rows a mask
    selects. *)
Lemma duration_block_rule (df : DataFrame) (mask : list bool) (ds : Series)
      (path line : string) (w : world) :
  line = ("Saved " ++ path)%string ->
  lookup "duration_parsed" (columns df) = Some ds ->
  length mask = nrows df ->
  (if negb (frame_empty (filter_rows mask df))
      && has_column (filter_rows mask df) "duration_parsed" then
     s <~ lift (getitem (filter_rows mask df) "duration_parsed") ;;
     (if negb (Nat.eqb (length (dropna s)) 0)
      then savefig path ;; print line
      else io_ret tt)
   else io_ret tt) w
  = (Ok tt,
     saved_if (existsb (fun md => fst md && notna (snd md)) (combine mask ds)) path w).
Proof.
  intros -> Hd Hm.
  assert (lookup "duration_parsed" (columns (filter_rows mask df)) = Some (select mask ds))
    as Hl.
  { unfold filter_rows. cbn [columns]. now rewrite lookup_map_columns, Hd. }
  unfold has_column, io_bind, lift, getitem. rewrite Hl.
  rewrite existsb_filter, dropna_select, length_map.
  unfold frame_empty, filter_rows. cbn [nrows columns].
  rewrite <- Hm, firstn_all.
  assert (columns df <> []) as Hc by (intros Hc; rewrite Hc in Hd; discriminate).
  destruct (columns df) as [|c cols]; [congruence|]. cbn [map].
  rewrite orb_false_r, andb_true_r.
  destruct (Nat.eqb_spec (length (filter (fun b => b) mask)) 0) as [Z|NZ]; cbn [negb].
  - apply length_zero_iff_nil in Z. now rewrite (no_row_selected mask ds Z).
  - destruct (Nat.eqb (length (filter _ (combine mask ds))) 0); reflexivity.
Qed.

(** X16.  [duration_insights] on a frame with a text [type] column and
    a [duration_parsed] column: it saves the chart of movie durations
    exactly when some row whose type is "movie", whatever the case of
    its letters, has a parsed duration, and the chart of seasons exactly
    when some row whose type is "tv show" has one; it prints one line
    per chart saved and never raises. *)
Theorem duration_charts_rule (df : DataFrame) (ts ds : Series) (w : world) :
  lookup "type" (columns df) = Some ts ->
  lookup "duration_parsed" (columns df) = Some ds ->
  str_accessor ts = Ok ts ->
  length ts = nrows df ->
  duration_insights df w
  = (Ok tt,
     saved_if (has_parsed "tv show" ts ds) "plots/show_seasons_count.png"
       (saved_if (has_parsed "movie" ts ds) "plots/movie_duration_distribution.png" w)).
Proof.
  intros Ht Hd Ha Hn. unfold duration_insights.
  destruct (has_column_some _ _ _ Ht) as [-> _].
  rewrite !(rows_of_type_ok df ts _ Ht Ha).
  unfold io_bind at 1. cbn [lift]. unfold io_bind at 1. cbn [lift].
  unfold io_bind at 1.
  set (mm := map (fun x => cell_eqb x (Str "movie")) (map (str_method lower) ts)).
  set (ms := map (fun x => cell_eqb x (Str "tv show")) (map (str_method lower) ts)).
  assert (length mm = nrows df) as Lm by (unfold mm; now rewrite !length_map).
  assert (length ms = nrows df) as Ls by (unfold ms; now rewrite !length_map).
  rewrite (duration_block_rule df mm ds "plots/movie_duration_distribution.png"
             "Saved plots/movie_duration_distribution.png" w eq_refl Hd Lm).
  rewrite (duration_block_rule df ms ds "plots/show_seasons_count.png"
             "Saved plots/show_seasons_count.png" _ eq_refl Hd Ls).
  unfold has_parsed, mm, ms.
  rewrite !(existsb_combine_map (fun b => b)).
  rewrite !(existsb_combine_map (fun x => cell_eqb x (Str _))).
  reflexivity.
Qed.

(* ================================================================== *)
(** * The further statements at concrete catalogues *)

Lemma year_added_from_dates_witness :
  exists out ys,
    clean_data iso_date two_rows = Ok out
    /\ lookup "year_added" (columns out) = Some ys
    /\ nth_error ys 0 = Some (Int 2020)
    /\ nth_error ys 1 = Some (Int 2021).
Proof.
  destruct (year_added_from_dates iso_date two_rows eq_refl eq_refl)
    as (out & ys & E & Y & _ & _ & H).
  change (column two_rows "date_added") with (Some two_dates) in H.
  exists out, ys. split; [exact E|]. split; [exact Y|]. split.
  - exact (H 0 (Str "2020-01-15") eq_refl).
  - exact (H 1 (Str "2021-03-02") eq_refl).
Defined.

Lemma duration_parsed_column_witness :
  exists out ds,
    clean_data iso_date small_catalog = Ok out
    /\ lookup "duration_parsed" (columns out) = Some ds
    /\ nth_error ds 0 = Some (Int 90)
    /\ nth_error ds 1 = Some (Int 2).
Proof.
  destruct (duration_parsed_column iso_date small_catalog eq_refl eq_refl)
    as (out & ds & E & D & _ & _ & H).
  change (column small_catalog "duration")
    with (Some [Str "90 min"; Str "2 Seasons"]) in H.
  destruct H as [H _].
  exists out, ds. split; [exact E|]. split; [exact D|]. split.
  - exact (H 0 "90 min" eq_refl).
  - exact (H 1 "2 Seasons" eq_refl).
Defined.

Lemma normalized_fields_populated_witness :
  exists out p,
    clean_data iso_date small_catalog = Ok out
    /\ lookup "primary_country" (columns out) = Some p
    /\ length p = 2
    /\ forallb is_text p = true.
Proof.
  destruct (normalized_fields_populated iso_date small_catalog eq_refl eq_refl)
    as (out & E & _ & (p & P & L & T) & _).
  exists out, p. repeat split; assumption.
Defined.

Lemma clean_data_labels_witness :
  exists out,
    clean_data iso_date small_catalog = Ok out
    /\ labels out
       = ["type"; "listed_in"; "country"; "duration";
          "year_added"; "genres_list"; "duration_parsed"; "primary_country"].
Proof.
  destruct (clean_data_labels iso_date small_catalog eq_refl eq_refl) as (out & E & L).
  exists out. split; [exact E|exact L].
Defined.

Lemma clean_data_idempotent_witness :
  exists out,
    clean_data date_reader two_rows = Ok out
    /\ clean_data date_reader out = Ok out.
Proof.
  exists (mkframe 2 [("date_added", [Date (mkdate 2020 1 15); Date (mkdate 2021 3 2)]);
                     ("year_added", [Int 2020; Int 2021]);
                     ("genres_list", [Seq []; Seq []]);
                     ("duration_parsed", [NaN; NaN]);
                     ("primary_country", [Str "Unknown"; Str "Unknown"])]).
  split; [reflexivity|].
  exact (clean_data_idempotent date_reader two_rows _ eq_refl
           (fun _ _ => eq_refl) eq_refl).
Defined.

Lemma genre_counter_counts_witness :
  exists out g c,
    clean_data iso_date small_catalog = Ok out
    /\ lookup "genres_list" (columns out) = Some g
    /\ all_genres g = Ok c
    /\ count_of String.eqb "Unknown" c = 1
    /\ list_sum (map snd c) = 3.
Proof.
  destruct (genre_counter_counts iso_date small_catalog
              [Str "Dramas, International Movies"; NaN] eq_refl eq_refl eq_refl)
    as (out & g & c & E & G & A & _ & C & T & _).
  exists out, g, c. split; [exact E|]. split; [exact G|]. split; [exact A|].
  split; [exact (C "Unknown")|exact T].
Defined.

Lemma director_counts_witness :
  In (Str "Jane Doe", 2)
     (value_counts (directors [Str "Jane Doe"; NaN; Str "Unknown"; Str "Jane Doe"])).
Proof.
  apply (proj1 (director_counts [Str "Jane Doe"; NaN; Str "Unknown"; Str "Jane Doe"]
                  "Jane Doe" 2 eq_refl)).
  split; [reflexivity|]. lia.
Defined.

Lemma yearly_chart_rule_witness :
  plot_yearly_trend cleaned_example initial_world
  = (Ok tt, saved "plots/content_added_per_year.png" initial_world).
Proof.
  exact (yearly_chart_rule cleaned_example [Int 2020; NaN; Int 2019] initial_world
           eq_refl eq_refl).
Defined.

Lemma main_outcome_witness :
  fst (run iso_date (only_path "netflix_titles.csv")
           (one_file "netflix_titles.csv" full_catalog)
           (mkargs "netflix_titles.csv" 12 10 10)) = Ok tt.
Proof.
  exact (proj1 (main_outcome iso_date (only_path "netflix_titles.csv")
                  (one_file "netflix_titles.csv" full_catalog)
                  (mkargs "netflix_titles.csv" 12 10 10) full_catalog
                  eq_refl eq_refl eq_refl)).
Defined.

Lemma summary_table_witness :
  exists d,
    summary cleaned_example = Ok d
    /\ dict_get (Str "MOVIE") d = Some (Int 1)
    /\ dict_get (Str "total_titles") d = Some (Int 3).
Proof.
  destruct (summary_table cleaned_example [Int 2020; NaN; Int 2019]
              [Str "Canada"; Str "Unknown"; Str "Canada"] eq_refl eq_refl eq_refl eq_refl)
    as (d & E & T & _).
  change (lookup "type" (columns cleaned_example))
    with (Some [Str "Movie"; Str "TV Show"; Str "MOVIE"]) in T.
  destruct T as [T1 T2].
  exists d. split; [exact E|]. split.
  - apply (T1 "MOVIE"); [right; right; now left|reflexivity].
  - apply T2. simpl. intuition discriminate.
Defined.

Lemma duration_charts_rule_witness :
  duration_insights cleaned_example initial_world
  = (Ok tt,
     saved "plots/show_seasons_count.png"
       (saved "plots/movie_duration_distribution.png" initial_world)).
Proof.
  exact (duration_charts_rule cleaned_example
           [Str "Movie"; Str "TV Show"; Str "MOVIE"] [NaN; Int 2; Int 90] initial_world
           eq_refl eq_refl eq_refl eq_refl).
Defined.

(* ================================================================== *)
(** * The lines a run prints *)

Lemma reports_between_trans (w1 w2 w3 : world) (o1 o2 : list string) :
  reports_between w1 w2 o1 -> reports_between w2 w3 o2 ->
  reports_between w1 w3 (o1 ++ o2).
Proof.
  intros (f1 & S1 & F1 & R1) (f2 & S2 & F2 & R2).
  exists (f1 ++ f2). rewrite S2, S1, F2, F1, !app_assoc, filter_app, map_app, R1, R2.
  repeat split.
Qed.

Lemma io_reports_ret {A : Type} (a : A) : io_reports (io_ret a).
Proof.
  intros w. exists []. split; [|intros []].
  exists []. simpl. rewrite !app_nil_r. repeat split.
Qed.

Lemma io_reports_lift {A : Type} (r : result A) : io_reports (lift r).
Proof.
  intros w. exists []. split; [|intros []].
  exists []. simpl. rewrite !app_nil_r. repeat split.
Qed.

Lemma io_reports_print (line : string) :
  is_report line = false -> line <> closing_line -> io_reports (print line).
Proof.
  intros R C w. exists [line]. split.
  - exists []. simpl. rewrite R, app_nil_r. repeat split.
  - intros [H|[]]. now apply C.
Qed.

Lemma io_reports_bind {A B : Type} (m : io A) (k : A -> io B) :
  io_reports m -> (forall a, io_reports (k a)) -> io_reports (io_bind m k).
Proof.
  intros Hm Hk w. unfold io_bind. destruct (Hm w) as (o1 & R1 & N1).
  destruct (m w) as [[a|e] w']; simpl in *.
  - destruct (Hk a w') as (o2 & R2 & N2). exists (o1 ++ o2). split.
    + exact (reports_between_trans _ _ _ _ _ R1 R2).
    + intros H. apply in_app_or in H as [H|H]; auto.
  - exists o1. now split.
Qed.

(** A file and the line that reports it. *)
Lemma io_reports_file (path : string) (a : artifact) :
  report_of path <> closing_line ->
  is_report (report_of path) = true ->
  io_reports (write_file path a ;; print (report_of path)).
Proof.
  intros C R w. exists [report_of path]. split.
  - exists [(path, a)]. simpl. rewrite R. repeat split.
  - intros [H|[]]. now apply C.
Qed.

Ltac reports_chart :=
  match goal with
  | |- io_reports (io_bind (savefig ?p) _) =>
      apply (io_reports_file p Image); [discriminate|reflexivity]
  end.

Ltac reports_step :=
  apply io_reports_bind; [apply io_reports_lift|]; intro.

Lemma plot_movies_vs_tv_reports (df : DataFrame) : io_reports (plot_movies_vs_tv df).
Proof. unfold plot_movies_vs_tv. reports_step. reports_chart. Qed.

Lemma plot_top_genres_reports (df : DataFrame) (n : nat) :
  io_reports (plot_top_genres df n).
Proof. unfold plot_top_genres. do 3 reports_step. reports_chart. Qed.

Lemma plot_yearly_trend_reports (df : DataFrame) : io_reports (plot_yearly_trend df).
Proof.
  unfold plot_yearly_trend. destruct (negb (has_column df "year_added") || _).
  - apply io_reports_print; [reflexivity|discriminate].
  - do 2 reports_step. reports_chart.
Qed.

Lemma plot_top_countries_reports (df : DataFrame) (n : nat) :
  io_reports (plot_top_countries df n).
Proof. unfold plot_top_countries. reports_step. reports_chart. Qed.

Lemma plot_rating_distribution_reports (df : DataFrame) (n : nat) :
  io_reports (plot_rating_distribution df n).
Proof.
  unfold plot_rating_distribution. destruct (negb (has_column df "rating")).
  - apply io_reports_print; [reflexivity|discriminate].
  - reports_step. reports_chart.
Qed.

Lemma duration_insights_reports (df : DataFrame) : io_reports (duration_insights df).
Proof.
  unfold duration_insights. do 2 reports_step.
  apply io_reports_bind; [|intros _].
  - destruct (negb (frame_empty a) && has_column a "duration_parsed");
      [|apply io_reports_ret].
    reports_step. destruct (negb (Nat.eqb (length (dropna a1)) 0));
      [reports_chart|apply io_reports_ret].
  - destruct (negb (frame_empty a0) && has_column a0 "duration_parsed");
      [|apply io_reports_ret].
    reports_step. destruct (negb (Nat.eqb (length (dropna a1)) 0));
      [reports_chart|apply io_reports_ret].
Qed.

Lemma top_directors_actors_reports (df : DataFrame) (n : nat) :
  io_reports (top_directors_actors df n).
Proof.
  unfold top_directors_actors. reports_step.
  apply io_reports_bind; [|intros _].
  - destruct (negb (Nat.eqb (length (directors a)) 0));
      [reports_chart|apply io_reports_ret].
  - destruct (has_column df "cast"); [|apply io_reports_ret].
    reports_step. destruct (most_common n (actor_counter a0)); [apply io_reports_ret|].
    reports_step. reports_chart.
Qed.

Lemma save_summary_reports (df : DataFrame) : io_reports (save_summary df).
Proof.
  unfold save_summary. reports_step.
  apply (io_reports_file "output/summary_stats.csv"); [discriminate|reflexivity].
Qed.

Lemma io_closes_print : io_closes (print closing_line).
Proof.
  intros w. exists [closing_line]. split.
  - exists []. simpl. rewrite app_nil_r. repeat split.
  - simpl. exists []. split; [reflexivity|intros []].
Qed.

Lemma io_closes_bind {A : Type} (m : io A) (k : A -> io unit) :
  io_reports m -> (forall a, io_closes (k a)) -> io_closes (io_bind m k).
Proof.
  intros Hm Hk w. unfold io_bind. destruct (Hm w) as (o1 & R1 & N1).
  destruct (m w) as [[a|e] w']; simpl in *.
  - destruct (Hk a w') as (o2 & R2 & C2). exists (o1 ++ o2). split.
    + exact (reports_between_trans _ _ _ _ _ R1 R2).
    + destruct (fst (k a w')) as [u|e].
      * destruct C2 as (b & -> & Nb). exists (o1 ++ b). split; [now rewrite app_assoc|].
        intros H. apply in_app_or in H as [H|H]; auto.
      * intros H. apply in_app_or in H as [H|H]; auto.
  - exists o1. now split.
Qed.

Section RunLines.

Variable parse_date : Series -> cell -> option date.
Variable path_exists : string -> bool.
Variable read_csv : string -> result DataFrame.

Lemma read_data_reports (path : string) :
  io_reports (read_data path_exists read_csv path).
Proof.
  unfold read_data. destruct (negb (path_exists path)); [|apply io_reports_lift].
  apply io_reports_bind; [|intros _; apply io_reports_lift].
  apply io_reports_print; [reflexivity|discriminate].
Qed.

Lemma main_closes (args : Args) :
  io_closes (main parse_date path_exists read_csv args).
Proof.
  unfold main.
  apply io_closes_bind.
  { intros w. exists []. split; [|intros []].
    exists []. simpl. rewrite !app_nil_r. repeat split. }
  intros _.
  apply io_closes_bind; [apply read_data_reports|]. intros df0.
  apply io_closes_bind; [apply io_reports_lift|]. intros df.
  apply io_closes_bind; [apply plot_movies_vs_tv_reports|]. intros _.
  apply io_closes_bind; [apply plot_top_genres_reports|]. intros _.
  apply io_closes_bind; [apply plot_yearly_trend_reports|]. intros _.
  apply io_closes_bind; [apply plot_top_countries_reports|]. intros _.
  apply io_closes_bind; [apply plot_rating_distribution_reports|]. intros _.
  apply io_closes_bind; [apply duration_insights_reports|]. intros _.
  apply io_closes_bind; [apply top_directors_actors_reports|]. intros _.
  apply io_closes_bind; [apply save_summary_reports|]. intros _.
  apply io_closes_print.
Qed.

(** X17.  What a run prints about its files and its end: the lines that
    start with [Saved] are, in order, the reports of the files written,
    one line for each file; a run that returns has printed the closing
    line once, as its last line; a run that fails has not printed it. *)
Theorem run_reports (args : Args) :
  let r := run parse_date path_exists read_csv args in
  filter is_report (stdout (snd r)) = map report_of (map fst (files (snd r)))
  /\ match fst r with
     | Ok _ => exists before,
                 stdout (snd r) = before ++ [closing_line]
                 /\ ~ In closing_line before
     | Raise _ => ~ In closing_line (stdout (snd r))
     end.
Proof.
  cbv zeta. unfold run.
  destruct (main_closes args initial_world) as (out & (fs & S & F & R) & C).
  simpl in S, F. rewrite S, F, map_map. split; [exact R|exact C].
Qed.

End RunLines.

(* ================================================================== *)
(** * The counts of the country chart *)

Lemma list_sum_firstn {K : Type} (n : nat) (l : list (K * nat)) :
  list_sum (map snd (firstn n l)) <= list_sum (map snd l).
Proof.
  rewrite <- (firstn_skipn n l) at 2. rewrite map_app, list_sum_app. lia.
Qed.

Lemma text_present (p : Series) : forallb is_text p = true -> dropna p = p.
Proof.
  intros H. apply filter_all.
  rewrite forallb_forall in *. intros x Hx. specialize (H x Hx).
  destruct x; try discriminate; reflexivity.
Qed.

Section CountryChart.

Variable parse_date : Series -> cell -> option date.

(** X18.  The country chart counts every title once.  On the frame that
    [clean_data] returns, the bars of [plot_top_countries] are countries
    with the number of rows whose first country they are, by decreasing
    count; no country left out has more rows than a country shown; the
    bars never add up to more than the number of rows, and to exactly
    that number when [top_n] covers all the countries. *)
Theorem country_chart_counts (df : DataFrame) (n : nat) :
  well_formed df = true -> type_is_text df = true ->
  exists out p,
    clean_data parse_date df = Ok out
    /\ lookup "primary_country" (columns out) = Some p
    /\ length p = nrows df
    /\ (forall k m, In (k, m) (head n (value_counts p)) ->
          m = occurrences cell_eqb k p /\ 0 < m)
    /\ StronglySorted count_ge (head n (value_counts p))
    /\ (forall x y, In x (head n (value_counts p)) ->
          In y (value_counts p) -> ~ In y (head n (value_counts p)) ->
          snd y <= snd x)
    /\ list_sum (map snd (head n (value_counts p))) <= nrows df
    /\ (length (value_counts p) <= n ->
        list_sum (map snd (head n (value_counts p))) = nrows df).
Proof.
  intros W Ht.
  destruct (clean_data_view parse_date df Ht) as (out & E & N & H).
  unfold view_of in H.
  pose proof (H "primary_country") as P. rewrite clean_view_country in P.
  match type of P with _ = Some ?s => set (p := s) in * end.
  assert (length p = nrows df /\ forallb is_text p = true) as [L T].
  { subst p. destruct (column df "country") as [s|] eqn:Es.
    - split; [unfold fillna; rewrite !length_map; exact (column_length df _ s W Es)|].
      apply forallb_map_all. exact country_cell_text.
    - split; [apply repeat_length|now apply forallb_repeat]. }
  pose proof (text_present p T) as Dp.
  exists out, p. split; [exact E|]. split; [exact P|]. split; [exact L|].
  unfold head.
  pose proof (sort_desc_sorted (tally cell_eqb (dropna p))) as S.
  fold (value_counts p) in S.
  rewrite <- (firstn_skipn n (value_counts p)) in S.
  destruct (sorted_split _ _ S) as [S1 S2].
  split; [|split; [exact S1|split; [|split]]].
  - intros k m Hk. apply In_firstn in Hk. apply value_counts_entries in Hk.
    now rewrite Dp in Hk.
  - intros x y Hx Hy Hn. apply S2; [exact Hx|].
    rewrite <- (firstn_skipn n (value_counts p)) in Hy.
    apply in_app_or in Hy as [Hy|Hy]; [contradiction|exact Hy].
  - pose proof (value_counts_total p) as Tt. rewrite Dp in Tt.
    pose proof (list_sum_firstn n (value_counts p)) as Le. lia.
  - intros Hn. rewrite firstn_all2 by exact Hn.
    rewrite value_counts_total, Dp. exact L.
Qed.

End CountryChart.

Lemma country_chart_counts_witness :
  exists out p,
    clean_data iso_date full_catalog = Ok out
    /\ lookup "primary_country" (columns out) = Some p
    /\ list_sum (map snd (head 10 (value_counts p))) = 2.
Proof.
  destruct (country_chart_counts iso_date full_catalog 10 eq_refl eq_refl)
    as (out & p & E & P & L & _ & _ & _ & _ & A).
  exists out, p. split; [exact E|]. split; [exact P|].
  apply A.
  assert (Some p = Some [Str "Canada"; Str "Unknown"]) as Hp.
  { rewrite <- P. assert (out = match clean_data iso_date full_catalog with
                                 | Ok o => o | Raise _ => out end) as ->
        by now rewrite E.
    reflexivity. }
  injection Hp as ->. simpl. lia.
Defined.
